(** * Curator: cache fingerprints and the Anthropic batch adapter

    A shallow embedding of

    - [bespokelabs/curator/llm/llm.py]  (class [LLM], [_get_function_hash],
      [_remove_none_values]),
    - [bespokelabs/curator/prompter/prompter.py]  (class [Prompter],
      [_get_function_hash]),
    - [bespokelabs/curator/request_processor/batch/anthropic_batch_request_processor.py]
      (class [AnthropicBatchRequestProcessor]),

    followed by the properties of the specification that concern them.

    Conventions.  A Python [str] is a Rocq [string] holding its code
    points, one character each; the strings covered are those over the code
    points below 256 (ASCII and Latin-1), and [s.encode("utf-8")] is
    [XXH64.utf8 s]; 64-bit unsigned arithmetic is [Z] with the wrap-around written out; a [dict]
    with string keys is a [gmap string _]; Python exceptions are the
    constructors of [Exn]; code with effects (logging, provider calls, the
    metadata store) threads a [World] through a small error-and-state
    monad. *)

From Stdlib Require Import ZArith List String Ascii Bool Lia.
From Stdlib.Strings Require Import Byte.
From Stdlib Require Import DecimalString DecimalZ QArith_base.
From stdpp Require Import base option list gmap strings sorting.

Import ListNotations.
Local Open Scope Z_scope.

(** ** xxHash64, as used through [xxhash.xxh64(...).hexdigest()] *)

Module XXH64.

Definition MASK64 : Z := 2 ^ 64.
Definition wrap (x : Z) : Z := x mod MASK64.

Definition PRIME1 : Z := 11400714785074694791.
Definition PRIME2 : Z := 14029467366897019727.
Definition PRIME3 : Z := 1609587929392839161.
Definition PRIME4 : Z := 9650029242287828579.
Definition PRIME5 : Z := 2870177450012600261.

(** The values of an unsigned 64-bit word. *)
Definition in64 (x : Z) : Prop := 0 <= x < MASK64.

Definition rotl (x r : Z) : Z :=
  wrap (Z.lor (Z.shiftl x r) (Z.shiftr x (64 - r))).

Definition mul64 (x y : Z) : Z := wrap (x * y).
Definition add64 (x y : Z) : Z := wrap (x + y).

Definition round (acc input : Z) : Z :=
  mul64 (rotl (add64 acc (mul64 input PRIME2)) 31) PRIME1.

Definition merge_round (acc val : Z) : Z :=
  add64 (mul64 (Z.lxor acc (round 0 val)) PRIME1) PRIME4.

Definition avalanche (h : Z) : Z :=
  let h := Z.lxor h (Z.shiftr h 33) in
  let h := mul64 h PRIME2 in
  let h := Z.lxor h (Z.shiftr h 29) in
  let h := mul64 h PRIME3 in
  Z.lxor h (Z.shiftr h 32).

Definition byte_val (b : byte) : Z := Z.of_N (Byte.to_N b).

(** Little-endian read of the bytes of [l]. *)
Fixpoint le_read (l : list byte) : Z :=
  match l with
  | [] => 0
  | b :: t => byte_val b + 256 * le_read t
  end.

Definition read64 (l : list byte) : Z := le_read (firstn 8 l).
Definition read32 (l : list byte) : Z := le_read (firstn 4 l).

(** The four accumulators of the 32-byte stripe loop. *)
Record acc4 := Acc4 { v1 : Z; v2 : Z; v3 : Z; v4 : Z }.

Definition stripe (a : acc4) (l : list byte) : acc4 :=
  Acc4 (round (v1 a) (read64 l))
       (round (v2 a) (read64 (skipn 8 l)))
       (round (v3 a) (read64 (skipn 16 l)))
       (round (v4 a) (read64 (skipn 24 l))).

Fixpoint stripes (n : nat) (a : acc4) (l : list byte) : acc4 * list byte :=
  match n with
  | O => (a, l)
  | S n' => stripes n' (stripe a l) (skipn 32 l)
  end.

Fixpoint tail8 (n : nat) (h : Z) (l : list byte) : Z * list byte :=
  match n with
  | O => (h, l)
  | S n' =>
      let k1 := round 0 (read64 l) in
      let h := Z.lxor h k1 in
      tail8 n' (add64 (mul64 (rotl h 27) PRIME1) PRIME4) (skipn 8 l)
  end.

Definition tail4 (h : Z) (l : list byte) : Z * list byte :=
  if (4 <=? length l)%nat then
    let h := Z.lxor h (mul64 (read32 l) PRIME1) in
    (add64 (mul64 (rotl h 23) PRIME2) PRIME3, skipn 4 l)
  else (h, l).

Fixpoint tail1 (h : Z) (l : list byte) : Z :=
  match l with
  | [] => h
  | b :: t =>
      let h := Z.lxor h (mul64 (byte_val b) PRIME5) in
      tail1 (mul64 (rotl h 11) PRIME1) t
  end.

Definition finalize (h : Z) (l : list byte) : Z :=
  let '(h, l) := tail8 (length l / 8) h l in
  let '(h, l) := tail4 h l in
  avalanche (tail1 h l).

(** [XXH64(input, len, seed)]. *)
Definition digest_seed (seed : Z) (input : list byte) : Z :=
  let len := Z.of_nat (length input) in
  let '(h, rest) :=
    if (32 <=? length input)%nat then
      let a0 := Acc4 (add64 (add64 seed PRIME1) PRIME2) (add64 seed PRIME2)
                     (wrap seed) (wrap (seed - PRIME1)) in
      let '(a, rest) := stripes (length input / 32) a0 input in
      let h := add64 (add64 (rotl (v1 a) 1) (rotl (v2 a) 7))
                     (add64 (rotl (v3 a) 12) (rotl (v4 a) 18)) in
      let h := merge_round h (v1 a) in
      let h := merge_round h (v2 a) in
      let h := merge_round h (v3 a) in
      let h := merge_round h (v4 a) in
      (h, rest)
    else (add64 seed PRIME5, input) in
  finalize (add64 h len) rest.

Definition intdigest (input : list byte) : Z := digest_seed 0 input.

Definition hex_char (n : Z) : ascii :=
  if n <? 10 then ascii_of_N (Z.to_N (48 + n))
  else ascii_of_N (Z.to_N (87 + n)).

(** The [n] low hexadecimal digits of [h], most significant first. *)
Fixpoint hex_be (n : nat) (h : Z) : list ascii :=
  match n with
  | O => []
  | S n' => hex_be n' (h / 16) ++ [hex_char (h mod 16)]
  end.

Definition hex64 (h : Z) : string := string_of_list_ascii (hex_be 16 h).

Definition hexdigest_bytes (input : list byte) : string :=
  hex64 (intdigest input).

(** [s.encode("utf-8")]: a code point below 128 is one byte, one from 128 to
    255 is the two bytes [110000xx 10xxxxxx]. *)
Definition utf8_char (c : ascii) : list byte :=
  let n := N_of_ascii c in
  if (n <? 128)%N then [byte_of_ascii c]
  else [ byte_of_ascii (ascii_of_N (192 + n / 64));
         byte_of_ascii (ascii_of_N (128 + n mod 64)) ].

Fixpoint utf8 (s : string) : list byte :=
  match s with
  | EmptyString => []
  | String c s' => utf8_char c ++ utf8 s'
  end.

(** [xxh64(s).hexdigest()] for a [str] argument: the UTF-8 bytes are hashed. *)
Definition hexdigest (s : string) : string :=
  hexdigest_bytes (utf8 s).

End XXH64.

(** ** The fragment of Python the three source files use *)

Module Py.

(** Exceptions the modelled code raises or meets. *)
Inductive Exn : Type :=
| ValueError (msg : string)
| KeyError (key : string)
| IndexError (msg : string)
| AttributeError (msg : string)
| TypeError (msg : string)
| OSError (msg : string)
| NotFoundError (msg : string)
| APIError (msg : string).

(** [str(e)] *)
Definition exn_str (e : Exn) : string :=
  match e with
  | ValueError m | IndexError m | AttributeError m | TypeError m
  | OSError m | NotFoundError m | APIError m => m
  | KeyError k => "'" +:+ k +:+ "'"
  end.

Inductive Result (A : Type) : Type :=
| Return (a : A)
| Raise (e : Exn).
Arguments Return {A} a.
Arguments Raise {A} e.

Definition returned {A} (r : Result A) : Prop :=
  match r with Return _ => True | Raise _ => False end.

(** Code with effects: a computation over a state [S] that returns or raises. *)
Definition M (S A : Type) : Type := S -> Result A * S.

Definition ret {S A} (a : A) : M S A := fun s => (Return a, s).
Definition raise {S A} (e : Exn) : M S A := fun s => (Raise e, s).
Definition bind {S A B} (m : M S A) (k : A -> M S B) : M S B :=
  fun s => match m s with
           | (Return a, s') => k a s'
           | (Raise e, s') => (Raise e, s')
           end.
(** [try: m  except Exception as e: h e] *)
Definition try_except {S A} (m : M S A) (h : Exn -> M S A) : M S A :=
  fun s => match m s with
           | (Return a, s') => (Return a, s')
           | (Raise e, s') => h e s'
           end.
(** What the name in an [except] clause is bound to: a class derived from
    [BaseException], which catches the exceptions that are its instances, or
    some other object. *)
Inductive ExceptTarget : Type :=
| ExceptionClass (isinstance : Exn -> bool)
| NotAnExceptionClass.

(** [try: m  except C: h], with the name [C] bound to [target].  The clause
    is evaluated only when [m] raised; matching an exception against a class
    that does not derive from [BaseException] raises [TypeError] in place of
    the exception. *)
Definition try_except_class {S A} (m : M S A) (target : ExceptTarget) (h : M S A)
  : M S A :=
  fun s => match m s with
           | (Return a, s') => (Return a, s')
           | (Raise e, s') =>
               match target with
               | ExceptionClass isinstance =>
                   if isinstance e then h s' else (Raise e, s')
               | NotAnExceptionClass =>
                   (Raise (TypeError "catching classes that do not inherit from BaseException is not allowed"), s')
               end
           end.
(** A computation without effects used inside one with effects. *)
Definition lift {S A} (r : Result A) : M S A := fun s => (r, s).
Definition modify {S} (f : S -> S) : M S unit := fun s => (Return tt, f s).
Definition get {S} : M S S := fun s => (Return s, s).

Definition rbind {A B} (r : Result A) (k : A -> Result B) : Result B :=
  match r with Return a => k a | Raise e => Raise e end.

Declare Scope py_scope.
Delimit Scope py_scope with py.
Notation "x <- m ;; k" := (bind m (fun x => k))
  (at level 100, m at next level, right associativity) : py_scope.
Notation "m ;; k" := (bind m (fun _ => k))
  (at level 100, right associativity) : py_scope.

(** Values that occur as generation parameters, code constants, defaults
    and globals.  A float is kept as its [repr], the shortest decimal that
    reads back to it; [PyObject] stands for any other object, named by a
    tag. *)
#[warnings="-register-all"]
Inductive Val : Type :=
| PyNone
| PyBool (b : bool)
| PyInt (z : Z)
| PyFloat (r : string)
| PyStr (s : string)
| PyList (l : list Val)
| PyTuple (l : list Val)
| PyObject (tag : string).

Definition is_none (v : Val) : bool :=
  match v with PyNone => true | _ => false end.

(** [str(n)] for an [int]. *)
Definition str_int (z : Z) : string := NilZero.string_of_int (Z.to_int z).
(** [int(s)] for a decimal literal; [None] where Python raises. *)
Definition int_str (s : string) : option Z :=
  option_map Z.of_int (NilZero.int_of_string s).

Definition str_bool (b : bool) : string := if b then "True" else "False".

(** [sep.join(l)] *)
Definition join (sep : string) (l : list string) : string := String.concat sep l.

(** [sep.join(l1 + [x] + l2)] is [x] between a prefix made from [l1] and a
    suffix made from [l2]. *)
Fixpoint join_before (sep : string) (l : list string) : string :=
  match l with
  | [] => EmptyString
  | x :: l' => x +:+ sep +:+ join_before sep l'
  end.

Fixpoint join_after (sep : string) (l : list string) : string :=
  match l with
  | [] => EmptyString
  | x :: l' => sep +:+ x +:+ join_after sep l'
  end.

Fixpoint contains_char (c : ascii) (s : string) : bool :=
  match s with
  | EmptyString => false
  | String a s' => if Ascii.eqb a c then true else contains_char c s'
  end.

Definition hex2 (n : Z) : string :=
  string_of_list_ascii (XXH64.hex_be 2 n).

(** [c.isprintable()] for a code point below 256: the controls (0-31 and
    127-159), the no-break space (160) and the soft hyphen (173) are not. *)
Definition isprintable (n : Z) : bool :=
  negb ((n <? 32) || ((127 <=? n) && (n <=? 160)) || (n =? 173)).

(** One character of [repr(s)] for a [str] quoted with [q]: a backslash,
    the quote and the three common controls have their escapes, any other
    character that is not printable is written as [\xNN]. *)
Definition repr_char (q c : ascii) : string :=
  let n := Z.of_N (N_of_ascii c) in
  if Ascii.eqb c "\" then "\\"
  else if Ascii.eqb c q then String "\" (String q EmptyString)
  else if n =? 10 then "\n"
  else if n =? 13 then "\r"
  else if n =? 9 then "\t"
  else if negb (isprintable n) then "\x" +:+ hex2 n
  else String c EmptyString.

Fixpoint repr_chars (q : ascii) (s : string) : string :=
  match s with
  | EmptyString => EmptyString
  | String c s' => repr_char q c +:+ repr_chars q s'
  end.

(** [repr(s)] for a [str]: single quotes, unless the text has a single
    quote and no double quote. *)
Definition dquote : ascii := ascii_of_nat 34.
Definition repr_str (s : string) : string :=
  let q : ascii :=
    if contains_char "'" s && negb (contains_char dquote s)
    then dquote else "'"%char in
  String q (repr_chars q s +:+ String q EmptyString).

Definition repr_seq (opn cls : string) (items : list string) : string :=
  opn +:+ join ", " items +:+ cls.

Fixpoint repr (v : Val) : string :=
  match v with
  | PyNone => "None"
  | PyBool b => str_bool b
  | PyInt z => str_int z
  | PyFloat r => r
  | PyStr s => repr_str s
  | PyList l => repr_seq "[" "]" (List.map repr l)
  | PyTuple l =>
      match l with
      | [x] => "(" +:+ repr x +:+ ",)"
      | _ => repr_seq "(" ")" (List.map repr l)
      end
  | PyObject tag => tag
  end.

(** [repr((k, v))] for an item of [d.items()]. *)
Definition repr_item (kv : string * Val) : string :=
  "(" +:+ repr_str kv.1 +:+ ", " +:+ repr kv.2 +:+ ")".

(** Order of [sorted] on the items of a dict with string keys: tuples
    compare by their first component, and the keys of a dict differ. *)
Definition item_le (a b : string * Val) : Prop := String.le a.1 b.1.
#[global] Instance item_le_dec : RelDecision item_le.
Proof. intros a b. unfold item_le. apply _. Defined.

(** [sorted(d.items())] *)
Definition sorted_items (d : gmap string Val) : list (string * Val) :=
  merge_sort item_le (map_to_list d).

(** [str(sorted(d.items()))] *)
Definition str_sorted_items (d : gmap string Val) : string :=
  repr_seq "[" "]" (List.map repr_item (sorted_items d)).

(** [sorted(names)] for a tuple of [str]. *)
Definition sorted_strs (l : list string) : list string := merge_sort String.le l.

(** [os.path.join(a, b)] on POSIX. *)
Definition ends_with_slash (a : string) : bool :=
  match String.rev a with
  | String c _ => Ascii.eqb c "/"
  | EmptyString => false
  end.
Definition path_join (a b : string) : string :=
  match b with
  | String "/" _ => b
  | _ => if String.eqb a EmptyString || ends_with_slash a then a +:+ b
         else a +:+ "/" +:+ b
  end.

(** [s.lower()]: the capital letters are A-Z (65-90) and, in Latin-1,
    192-222 without the multiplication sign (215); each has its small letter
    32 places on. *)
Definition lower_char (c : ascii) : ascii :=
  let n := N_of_ascii c in
  if ((65 <=? n) && (n <=? 90)
      || (192 <=? n) && (n <=? 222) && negb (n =? 215))%N
  then ascii_of_N (n + 32) else c.
Fixpoint lower (s : string) : string :=
  match s with
  | EmptyString => EmptyString
  | String c s' => String (lower_char c) (lower s')
  end.

(** [x in s] for two [str]. *)
Definition str_in (x s : string) : bool :=
  match String.index 0 x s with Some _ => true | None => false end.

(** [s[-n:]] *)
Definition last_chars (n : nat) (s : string) : string :=
  let k := String.length s in
  substring (k - n) (Nat.min n k) s.

End Py.

(** ** Function objects and the two [_get_function_hash] *)

Module Func.
Import Py.

(** A code object, with the fields [types.CodeType] is called with. *)
Record Code : Type := CodeType {
  co_argcount : Z;
  co_posonlyargcount : Z;
  co_kwonlyargcount : Z;
  co_nlocals : Z;
  co_stacksize : Z;
  co_flags : Z;
  co_code : list byte;
  co_consts : list Val;
  co_names : list string;
  co_varnames : list string;
  co_filename : string;
  co_name : string;
  co_firstlineno : Val;
  co_linetable : list byte;
  co_freevars : list string;
  co_cellvars : list string
}.

(** A function object. *)
Record Function : Type := {
  __code__ : Code;
  __globals__ : gmap string Val;
  __name__ : string;
  __qualname__ : string;
  __module__ : Val;
  __defaults__ : Val;
  __closure__ : Val;
  __kwdefaults__ : Val;
  __annotations__ : gmap string Val
}.

(** [types.FunctionType(code, globals, name, argdefs, closure)]: the module
    of the new function is read from [globals["__name__"]], and it has no
    keyword defaults and no annotations yet. *)
Definition FunctionType (code : Code) (globals : gmap string Val) (name : string)
    (argdefs closure : Val) : Function :=
  {| __code__ := code;
     __globals__ := globals;
     __name__ := name;
     __qualname__ := name;
     __module__ := default PyNone (globals !! "__name__"%string);
     __defaults__ := argdefs;
     __closure__ := closure;
     __kwdefaults__ := PyNone;
     __annotations__ := ∅ |}.

Definition set_kwdefaults (v : Val) (f : Function) : Function :=
  {| __code__ := __code__ f; __globals__ := __globals__ f; __name__ := __name__ f;
     __qualname__ := __qualname__ f; __module__ := __module__ f;
     __defaults__ := __defaults__ f; __closure__ := __closure__ f;
     __kwdefaults__ := v; __annotations__ := __annotations__ f |}.

Definition set_annotations (a : gmap string Val) (f : Function) : Function :=
  {| __code__ := __code__ f; __globals__ := __globals__ f; __name__ := __name__ f;
     __qualname__ := __qualname__ f; __module__ := __module__ f;
     __defaults__ := __defaults__ f; __closure__ := __closure__ f;
     __kwdefaults__ := __kwdefaults__ f; __annotations__ := a |}.

(** [len(inspect.signature(f).parameters)]: positional and keyword-only
    parameters, plus [*args] (flag 4) and [**kwargs] (flag 8). *)
Definition signature_parameters (f : Function) : Z :=
  let c := __code__ f in
  co_argcount c + co_kwonlyargcount c
  + (if Z.testbit (co_flags c) 2 then 1 else 0)
  + (if Z.testbit (co_flags c) 3 then 1 else 0).

(** [types.CodeType(...)] as lines 346-363 call it: sixteen positional
    arguments, of which the 13th is the [str] "1" and the 14th the line
    table, a [bytes].  The constructor of CPython 3.11 and later takes the
    qualified name as its 13th parameter and the first line number, an
    [int], as its 14th, followed by the line table and the exception table:
    it is handed the line table where it reads the line number and refuses
    the call with [TypeError], whatever the other arguments.  (The
    constructor of CPython 3.10 reads the first line number from its 13th
    parameter and refuses the [str] "1" there, with [TypeError] as well.) *)
Definition types_CodeType (argcount posonlyargcount kwonlyargcount nlocals
    stacksize flags : Z) (codestring : list byte) (constants : list Val)
    (names varnames : list string) (filename name : string) (arg13 : string)
    (arg14 : list byte) (arg15 arg16 : list string) : Result Code :=
  Raise (TypeError "'bytes' object cannot be interpreted as an integer").

Section Standardize.

(** [sorted(c)] for a constant [c] that is a tuple or a list; raises
    [TypeError] on elements Python cannot order. *)
Variable py_sorted : list Val -> Result (list Val).

(** [c if not isinstance(c, (tuple, list, set, frozenset)) else tuple(sorted(c))] *)
Definition standardize_const (c : Val) : Result Val :=
  match c with
  | PyTuple l | PyList l => rbind (py_sorted l) (fun l' => Return (PyTuple l'))
  | _ => Return c
  end.

Fixpoint standardize_consts (cs : list Val) : Result (list Val) :=
  match cs with
  | [] => Return []
  | c :: cs' =>
      rbind (standardize_const c) (fun c' =>
      rbind (standardize_consts cs') (fun cs'' => Return (c' :: cs'')))
  end.

(** The standardized code object of prompter.py, lines 346-363: the
    arguments are evaluated in order, so [sorted] on a constant may raise
    before the constructor is called. *)
Definition standardized_code (c : Code) : Result Code :=
  rbind (standardize_consts (co_consts c)) (fun consts =>
  types_CodeType
    (co_argcount c) (co_posonlyargcount c) (co_kwonlyargcount c)
    (co_nlocals c) (co_stacksize c) (co_flags c) (co_code c)
    consts
    (sorted_strs (co_names c))
    (sorted_strs (co_varnames c))
    "standardized"
    (co_name c)
    "1"
    (co_linetable c)
    (sorted_strs (co_freevars c))
    (sorted_strs (co_cellvars c))).

(** prompter.py, lines 346-380: the function that would be pickled. *)
Definition standardized_function (func : Function) : Result Function :=
  rbind (standardized_code (__code__ func)) (fun code =>
  match __globals__ func !! "__builtins__"%string with
  | None => Raise (KeyError "__builtins__")
  | Some builtins =>
      let new_globals : gmap string Val := {[ "__builtins__"%string := builtins ]} in
      let new_func :=
        FunctionType code new_globals (__name__ func) (__defaults__ func)
          (__closure__ func) in
      let new_func := set_kwdefaults (__kwdefaults__ func) new_func in
      let new_func := set_annotations (__annotations__ func) new_func in
      Return new_func
  end).

End Standardize.

End Func.

(** ** The world the run coordinator and the adapter act on *)

Module Env.
Import Py Func.

Inductive Level : Type := DEBUG | INFO | WARNING | ERROR.

(** A structured-output class, through the two renderings the code asks
    for: [str(cls.model_json_schema())] and [cls.schema_json()]. *)
Record ResponseFormat : Type := {
  model_json_schema_str : string;
  schema_json : string
}.

Record Dataset : Type := {
  _fingerprint : string;
  rows : list Val
}.

(** The argument of a run: a [Dataset], or another iterable that
    [Dataset.from_generator] converts. *)
Inductive DatasetArg : Type :=
| IsDataset (d : Dataset)
| IsIterable (tag : string).

(** The record handed to [MetadataDB.store_metadata]. *)
Record Metadata : Type := {
  md_timestamp : string;
  md_dataset_hash : string;
  md_prompt_func : string;
  md_parse_func : string;
  md_model_name : string;
  md_response_format : string;
  md_run_hash : string;
  md_batch_mode : bool
}.

(** Calls into the request processor of a run. *)
Inductive ProcessorCall : Type :=
| CallRun (dataset : option Dataset) (working_dir parse_func_hash : string)
| CallCancelBatches (working_dir : string).

(** Calls to the provider's batch API. *)
Inductive ProviderCall : Type :=
| BatchesRetrieve (id : string)
| BatchesCancel (id : string).

Record World : Type := {
  log : list (Level * string);
  environ : gmap string string;
  home : string;
  entropy : nat -> byte;
  entropy_pos : nat;
  now_isoformat : string;
  metadata_db : list (string * Metadata);
  processor_calls : list ProcessorCall;
  provider_calls : list ProviderCall
}.

Definition with_log (f : list (Level * string) -> list (Level * string)) (w : World) : World :=
  {| log := f (log w); environ := environ w; home := home w; entropy := entropy w;
     entropy_pos := entropy_pos w; now_isoformat := now_isoformat w;
     metadata_db := metadata_db w; processor_calls := processor_calls w;
     provider_calls := provider_calls w |}.

Definition with_entropy_pos (n : nat) (w : World) : World :=
  {| log := log w; environ := environ w; home := home w; entropy := entropy w;
     entropy_pos := n; now_isoformat := now_isoformat w;
     metadata_db := metadata_db w; processor_calls := processor_calls w;
     provider_calls := provider_calls w |}.

Definition with_metadata_db (db : list (string * Metadata)) (w : World) : World :=
  {| log := log w; environ := environ w; home := home w; entropy := entropy w;
     entropy_pos := entropy_pos w; now_isoformat := now_isoformat w;
     metadata_db := db; processor_calls := processor_calls w;
     provider_calls := provider_calls w |}.

Definition with_processor_calls (c : list ProcessorCall) (w : World) : World :=
  {| log := log w; environ := environ w; home := home w; entropy := entropy w;
     entropy_pos := entropy_pos w; now_isoformat := now_isoformat w;
     metadata_db := metadata_db w; processor_calls := c;
     provider_calls := provider_calls w |}.

Definition with_provider_calls (c : list ProviderCall) (w : World) : World :=
  {| log := log w; environ := environ w; home := home w; entropy := entropy w;
     entropy_pos := entropy_pos w; now_isoformat := now_isoformat w;
     metadata_db := metadata_db w; processor_calls := processor_calls w;
     provider_calls := c |}.

(** [logger.<level>(msg)] *)
Definition logger (lvl : Level) (msg : string) : M World unit :=
  modify (with_log (fun l => l ++ [(lvl, msg)])).

(** The next [n] bytes of the entropy source. *)
Definition urandom_bytes (n : nat) (w : World) : list byte :=
  List.map (entropy w) (seq (entropy_pos w) n).

(** [os.urandom(n)] *)
Definition os_urandom (n : nat) : M World (list byte) :=
  fun w => (Return (urandom_bytes n w), with_entropy_pos (entropy_pos w + n)%nat w).

(** [os.path.expanduser(p)] *)
Definition expanduser (w : World) (p : string) : string :=
  match p with
  | String "~" EmptyString => home w
  | String "~" (String "/" rest) => home w +:+ String "/" rest
  | _ => p
  end.

(** [MetadataDB(path).store_metadata(record)] *)
Definition store_metadata (path : string) (record : Metadata) : M World unit :=
  modify (fun w => with_metadata_db (metadata_db w ++ [(path, record)]) w).

Definition call_processor (c : ProcessorCall) : M World unit :=
  modify (fun w => with_processor_calls (processor_calls w ++ [c]) w).

Definition call_provider (c : ProviderCall) : M World unit :=
  modify (fun w => with_provider_calls (provider_calls w ++ [c]) w).

End Env.

(** ** llm.py *)

Module LLM.
Import Py Func Env.
Local Open Scope py_scope.

Definition _CURATOR_DEFAULT_CACHE_DIR : string := "~/.cache/curator".

(** [bespokelabs.curator.llm.prompt_formatter.PromptFormatter], built
    positionally in [LLM.__init__]. *)
Record PromptFormatter : Type := {
  model_name : string;
  prompt_func : option Function;
  parse_func : option Function;
  response_format : option ResponseFormat;
  generation_params : gmap string Val
}.

(** The request-processor classes the sources name. *)
Inductive ProcessorClass : Type :=
| OpenAIBatchRequestProcessor
| AnthropicBatchRequestProcessor
| OpenAIOnlineRequestProcessor
| LiteLLMOnlineRequestProcessor
| VLLMOfflineRequestProcessor.

(** The processors derived from [BaseBatchRequestProcessor]. *)
Definition is_batch_processor (c : ProcessorClass) : bool :=
  match c with
  | OpenAIBatchRequestProcessor | AnthropicBatchRequestProcessor => true
  | _ => false
  end.

(** [isinstance(p, OpenAIBatchRequestProcessor)] *)
Definition isinstance_OpenAIBatchRequestProcessor (c : ProcessorClass) : bool :=
  match c with OpenAIBatchRequestProcessor => true | _ => false end.

Record RequestProcessor : Type := {
  processor_class : ProcessorClass;
  backend : string
}.

Record LLM : Type := {
  prompt_formatter : PromptFormatter;
  batch_mode : bool;
  _request_processor : RequestProcessor
}.

(** [{k: v for k, v in d.items() if v is not None}] *)
Definition _remove_none_values (d : gmap string Val) : gmap string Val :=
  filter (fun kv => is_none kv.2 = false) d.

Section Run.

(** [datasets.utils._dill.Pickler(file, recurse=True).dump(func)], from the
    function object to the bytes written, on the functions the pickler
    accepts: [dump] raises on an object it cannot pickle and
    [_get_function_hash] has no handler, a path left out here. *)
Variable dumps : Function -> list byte.
(** [inspect.getsource] *)
Variable getsource : Function -> Result string.
(** [_RequestProcessorFactory.create(params=, model_name=, batch=,
    response_format=, backend=, generation_params=)] *)
Variable create :
  option (gmap string Val) -> string -> bool -> option ResponseFormat ->
  option string -> gmap string Val -> RequestProcessor.
(** [Dataset.from_generator] *)
Variable from_generator : string -> Dataset.
(** What the request processor answers to a call. *)
Variable processor_result : RequestProcessor -> ProcessorCall -> Result Dataset.

Definition __init__ (model_name : string) (prompt_func : option Function)
    (parse_func : option Function) (response_format : option ResponseFormat)
    (batch : bool) (backend : option string)
    (generation_params : option (gmap string Val))
    (backend_params : option (gmap string Val)) : LLM :=
  let generation_params := default ∅ generation_params in
  {| prompt_formatter :=
       Build_PromptFormatter model_name prompt_func parse_func response_format
         (_remove_none_values generation_params);
     batch_mode := batch;
     _request_processor :=
       create backend_params model_name batch response_format backend
         generation_params |}.

Definition _get_function_hash (func : option Function) : string :=
  match func with
  | None => XXH64.hexdigest EmptyString
  | Some f => XXH64.hexdigest_bytes (dumps f)
  end.

Definition _get_function_source (func : Function) : Result string :=
  match getsource func with
  | Raise (OSError _) => Return EmptyString
  | r => r
  end.

Definition response_format_str (pf : PromptFormatter) : string :=
  match response_format pf with
  | Some fmt => model_json_schema_str fmt
  | None => "text"
  end.

(** The string hashed when the cache is enabled (lines 90-105). *)
Definition fingerprint_str (self : LLM) (dataset_hash : string) : string :=
  let pf := prompt_formatter self in
  let prompt_func_hash := _get_function_hash (prompt_func pf) in
  let fingerprint_str :=
    join "_" [ dataset_hash;
               prompt_func_hash;
               model_name pf;
               response_format_str pf;
               str_bool (batch_mode self);
               backend (_request_processor self) ] in
  if bool_decide (generation_params pf = ∅) then fingerprint_str
  else fingerprint_str +:+ "_" +:+ str_sorted_items (generation_params pf).

Definition _hash_fingerprint (self : LLM) (dataset_hash : string)
    (disable_cache : bool) : M World string :=
  if disable_cache then
    seed <- os_urandom 8 ;;
    ret (XXH64.hexdigest_bytes seed)
  else
    let fingerprint_str := fingerprint_str self dataset_hash in
    let fingerprint := XXH64.hexdigest fingerprint_str in
    logger DEBUG ("Curator Cache Fingerprint String: " +:+ fingerprint_str) ;;
    logger DEBUG ("Curator Cache Fingerprint: " +:+ fingerprint) ;;
    ret fingerprint.

(** [os.getenv("CURATOR_DISABLE_CACHE", "").lower() in ["true", "1"]] *)
Definition disable_cache_flag (w : World) : bool :=
  let v := lower (default EmptyString (environ w !! "CURATOR_DISABLE_CACHE"%string)) in
  String.eqb v "true" || String.eqb v "1".

Definition curator_cache_dir (w : World) (working_dir : option string) : string :=
  match working_dir with
  | None => default (expanduser w _CURATOR_DEFAULT_CACHE_DIR)
              (environ w !! "CURATOR_CACHE_DIR"%string)
  | Some d => d
  end.

(** Lines 129-130: an iterable that is not a [Dataset] is converted. *)
Definition to_dataset (dataset : option DatasetArg) : option Dataset :=
  match dataset with
  | Some (IsIterable g) => Some (from_generator g)
  | Some (IsDataset d) => Some d
  | None => None
  end.

(** Line 140. *)
Definition dataset_hash (dataset : option Dataset) : string :=
  match dataset with
  | Some d => _fingerprint d
  | None => XXH64.hexdigest EmptyString
  end.

Definition __call__ (self : LLM) (dataset : option DatasetArg)
    (working_dir : option string) (batch_cancel : bool) : M World Dataset :=
  let pf := prompt_formatter self in
  let dataset := to_dataset dataset in
  w <- get ;;
  let curator_cache_dir := curator_cache_dir w working_dir in
  let dataset_hash := dataset_hash dataset in
  let disable_cache := disable_cache_flag w in
  fingerprint <- _hash_fingerprint self dataset_hash disable_cache ;;
  let metadata_db_path := path_join curator_cache_dir "metadata.db" in
  prompt_func_source <-
    match prompt_func pf with
    | Some f => lift (_get_function_source f)
    | None => raise (TypeError "module, class, method, function, traceback, frame, or code object was expected, got NoneType")
    end ;;
  parse_func_source <-
    match parse_func pf with
    | Some f => lift (_get_function_source f)
    | None => ret EmptyString
    end ;;
  let metadata_dict :=
    {| md_timestamp := now_isoformat w;
       md_dataset_hash := dataset_hash;
       md_prompt_func := prompt_func_source;
       md_parse_func := parse_func_source;
       md_model_name := model_name pf;
       md_response_format := response_format_str pf;
       md_run_hash := fingerprint;
       md_batch_mode := batch_mode self |} in
  store_metadata metadata_db_path metadata_dict ;;
  let run_cache_dir := path_join curator_cache_dir fingerprint in
  if batch_cancel then
    if negb (isinstance_OpenAIBatchRequestProcessor
               (processor_class (_request_processor self)))
    then raise (ValueError "batch_cancel can only be used with batch mode")
    else
      call_processor (CallCancelBatches run_cache_dir) ;;
      lift (processor_result (_request_processor self)
              (CallCancelBatches run_cache_dir))
  else
    let parse_func_hash := _get_function_hash (parse_func pf) in
    call_processor (CallRun dataset run_cache_dir parse_func_hash) ;;
    lift (processor_result (_request_processor self)
            (CallRun dataset run_cache_dir parse_func_hash)).

(** The sources of the prompt and parse functions of [self] can be read:
    [_get_function_source] returns for both. *)
Definition sources_readable (self : LLM) : Prop :=
  (exists f, prompt_func (prompt_formatter self) = Some f
             /\ returned (_get_function_source f))
  /\ (forall g, parse_func (prompt_formatter self) = Some g ->
                returned (_get_function_source g)).

End Run.

End LLM.

(** ** prompter.py *)

Module Prompter.
Import Py Func Env.
Local Open Scope py_scope.

Definition _CURATOR_DEFAULT_CACHE_DIR : string := "~/.cache/curator".

(** [bespokelabs.curator.prompter.prompt_formatter.PromptFormatter], built
    positionally in [Prompter.__init__]. *)
Record PromptFormatter : Type := {
  model_name : string;
  prompt_func : option Function;
  parse_func : option Function;
  response_format : option ResponseFormat
}.

(** The three request processors [Prompter.__init__] builds, with the
    keyword arguments each receives. *)
Inductive RequestProcessor : Type :=
| OpenAIBatchRequestProcessor (model : string) (batch_size : Z)
    (temperature top_p presence_penalty frequency_penalty : Val)
    (delete_successful_batch_files delete_failed_batch_files : bool)
| OpenAIOnlineRequestProcessor (model : string)
    (temperature top_p presence_penalty frequency_penalty : Val)
| LiteLLMOnlineRequestProcessor (model : string)
    (temperature top_p presence_penalty frequency_penalty : Val).

Record Prompter : Type := {
  prompt_formatter : PromptFormatter;
  batch_mode : bool;
  backend : string;
  _request_processor : RequestProcessor
}.

Section Run.

(** [sorted] on a tuple or list constant of a code object. *)
Variable py_sorted : list Val -> Result (list Val).
(** [PathIndependentPickler(file).dump(new_func)], from the function object
    to the bytes written. *)
Variable dumps : Function -> list byte.
(** [inspect.getsource] *)
Variable getsource : Function -> Result string.
(** [OpenAIOnlineRequestProcessor(model_name).check_structured_output_support()] *)
Variable check_structured_output_support : string -> bool.
(** [Dataset.from_generator] *)
Variable from_generator : string -> Dataset.
(** What the request processor answers to a call. *)
Variable processor_result : RequestProcessor -> ProcessorCall -> Result Dataset.

Definition _determine_backend (model_name : string)
    (response_format : option ResponseFormat) : M World string :=
  let model_name := lower model_name in
  if bool_decide (response_format <> None)
     && check_structured_output_support model_name
  then
    logger INFO ("Requesting structured output from " +:+ model_name
                 +:+ ", using OpenAI backend") ;;
    ret "openai"%string
  else if bool_decide (response_format = None)
          && existsb (fun x => str_in x model_name) ["gpt-"; "o1-preview"; "o1-mini"]%string
  then
    logger INFO ("Requesting text output from " +:+ model_name
                 +:+ ", using OpenAI backend") ;;
    ret "openai"%string
  else
    logger INFO ("Requesting "
                 +:+ (if bool_decide (response_format <> None)
                      then "structured" else "text")
                 +:+ " output from " +:+ model_name +:+ ", using LiteLLM backend") ;;
    ret "litellm"%string.

Definition __init__ (model_name : string) (prompt_func : Function)
    (parse_func : option Function) (response_format : option ResponseFormat)
    (backend : option string) (batch : bool) (batch_size : option Z)
    (temperature top_p presence_penalty frequency_penalty : Val)
    (delete_successful_batch_files delete_failed_batch_files : bool)
  : M World Prompter :=
  (if 1 <? signature_parameters prompt_func
   then raise (ValueError ("prompt_func must take one argument or less, got "
                           +:+ str_int (signature_parameters prompt_func)))
   else ret tt) ;;
  match parse_func with
  | Some pf =>
      if negb (signature_parameters pf =? 2)
      then raise (ValueError ("parse_func must take exactly 2 arguments, got "
                              +:+ str_int (signature_parameters pf)))
      else ret tt
  | None => ret tt
  end ;;
  let prompt_formatter :=
    Build_PromptFormatter model_name (Some prompt_func) parse_func response_format in
  backend <-
    match backend with
    | Some b => ret b
    | None => _determine_backend model_name response_format
    end ;;
  if String.eqb backend "openai" then
    if batch then
      batch_size <-
        match batch_size with
        | None =>
            logger INFO "batch=True but no batch_size provided, using default batch_size of 1,000" ;;
            ret 1000
        | Some n => ret n
        end ;;
      ret {| prompt_formatter := prompt_formatter; batch_mode := batch;
             backend := backend;
             _request_processor :=
               OpenAIBatchRequestProcessor model_name batch_size temperature top_p
                 presence_penalty frequency_penalty
                 delete_successful_batch_files delete_failed_batch_files |}
    else
      match batch_size with
      | Some n =>
          logger WARNING ("Prompter argument `batch_size` " +:+ str_int n
                          +:+ " is ignored because `batch` is False")
      | None => ret tt
      end ;;
      ret {| prompt_formatter := prompt_formatter; batch_mode := batch;
             backend := backend;
             _request_processor :=
               OpenAIOnlineRequestProcessor model_name temperature top_p
                 presence_penalty frequency_penalty |}
  else if String.eqb backend "litellm" then
    (if batch
     then logger WARNING "Batch mode is not supported with LiteLLM backend, ignoring batch=True"
     else ret tt) ;;
    ret {| prompt_formatter := prompt_formatter; batch_mode := batch;
           backend := backend;
           _request_processor :=
             LiteLLMOnlineRequestProcessor model_name temperature top_p
               presence_penalty frequency_penalty |}
  else raise (ValueError ("Unknown backend: " +:+ backend)).

Definition _get_function_source (func : option Function) : Result string :=
  match func with
  | None => Return EmptyString
  | Some f =>
      match getsource f with
      | Raise (TypeError _) | Raise (OSError _) => Return EmptyString
      | r => r
      end
  end.

Definition _get_function_hash (func : option Function) : Result string :=
  match func with
  | None => Return (XXH64.hexdigest EmptyString)
  | Some f =>
      rbind (standardized_function py_sorted f) (fun new_func =>
      Return (XXH64.hexdigest_bytes (dumps new_func)))
  end.

Definition response_format_str (pf : PromptFormatter) : string :=
  match response_format pf with
  | Some fmt => schema_json fmt
  | None => "text"
  end.

(** The string hashed in [_completions] (lines 237-250). *)
Definition fingerprint_str (self : Prompter) (dataset_hash prompt_func_hash : string)
  : string :=
  let pf := prompt_formatter self in
  join "_" [ dataset_hash;
             prompt_func_hash;
             model_name pf;
             response_format_str pf;
             str_bool (batch_mode self);
             backend self ].

Definition curator_cache_dir (w : World) (working_dir : option string) : string :=
  match working_dir with
  | None => default (expanduser w _CURATOR_DEFAULT_CACHE_DIR)
              (environ w !! "CURATOR_CACHE_DIR"%string)
  | Some d => d
  end.

Definition _completions (self : Prompter) (request_processor : RequestProcessor)
    (dataset : option DatasetArg) (working_dir : option string) : M World Dataset :=
  let pf := prompt_formatter self in
  let dataset :=
    match dataset with
    | Some (IsIterable g) => Some (from_generator g)
    | Some (IsDataset d) => Some d
    | None => None
    end in
  w <- get ;;
  let curator_cache_dir := curator_cache_dir w working_dir in
  let dataset_hash :=
    match dataset with
    | Some d => _fingerprint d
    | None => XXH64.hexdigest EmptyString
    end in
  prompt_func_hash <- lift (_get_function_hash (prompt_func pf)) ;;
  parse_func_hash <- lift (_get_function_hash (parse_func pf)) ;;
  let fingerprint_str := fingerprint_str self dataset_hash prompt_func_hash in
  let fingerprint := XXH64.hexdigest fingerprint_str in
  logger DEBUG ("Curator Cache Fingerprint: " +:+ fingerprint) ;;
  let metadata_db_path := path_join curator_cache_dir "metadata.db" in
  prompt_func_source <- lift (_get_function_source (prompt_func pf)) ;;
  parse_func_source <-
    match parse_func pf with
    | Some f => lift (_get_function_source (Some f))
    | None => ret EmptyString
    end ;;
  let metadata_dict :=
    {| md_timestamp := now_isoformat w;
       md_dataset_hash := dataset_hash;
       md_prompt_func := prompt_func_source;
       md_parse_func := parse_func_source;
       md_model_name := model_name pf;
       md_response_format := response_format_str pf;
       md_run_hash := fingerprint;
       md_batch_mode := batch_mode self |} in
  store_metadata metadata_db_path metadata_dict ;;
  let working_dir := path_join curator_cache_dir fingerprint in
  call_processor (CallRun dataset working_dir parse_func_hash) ;;
  lift (processor_result request_processor
          (CallRun dataset working_dir parse_func_hash)).

Definition __call__ (self : Prompter) (dataset : option DatasetArg)
    (working_dir : option string) : M World Dataset :=
  _completions self (_request_processor self) dataset working_dir.

End Run.

End Prompter.

(** ** anthropic_batch_request_processor.py *)

Module Anthropic.
Import Py Func Env.
Local Open Scope py_scope.

(** A raw result as [download_batch] yields it: the [model_dump()] of a
    provider result, a JSON-like value. *)
#[warnings="-register-all"]
Inductive Json : Type :=
| JNull
| JBool (b : bool)
| JInt (z : Z)
| JStr (s : string)
| JList (l : list Json)
| JDict (items : list (string * Json)).

(** [repr(j)] *)
Fixpoint json_repr (j : Json) : string :=
  match j with
  | JNull => "None"
  | JBool b => str_bool b
  | JInt z => str_int z
  | JStr s => repr_str s
  | JList l => repr_seq "[" "]" (List.map json_repr l)
  | JDict items =>
      repr_seq "{" "}"
        (List.map (fun kv => let '(k, v) := kv in
                             repr_str k +:+ ": " +:+ json_repr v) items)
  end.

(** [str(j)] *)
Definition json_str (j : Json) : string :=
  match j with
  | JStr s => s
  | _ => json_repr j
  end.

Fixpoint assoc (k : string) (items : list (string * Json)) : option Json :=
  match items with
  | [] => None
  | (k', v) :: rest => if String.eqb k' k then Some v else assoc k rest
  end.

(** [j[k]] with a [str] key. *)
Definition getitem (j : Json) (k : string) : Result Json :=
  match j with
  | JDict items =>
      match assoc k items with
      | Some v => Return v
      | None => Raise (KeyError k)
      end
  | JList _ => Raise (TypeError "list indices must be integers or slices, not str")
  | JStr _ => Raise (TypeError "string indices must be integers")
  | _ => Raise (TypeError "object is not subscriptable")
  end.

(** [j[0]] *)
Definition getitem0 (j : Json) : Result Json :=
  match j with
  | JList (x :: _) => Return x
  | JList [] => Raise (IndexError "list index out of range")
  | JStr (String c _) => Return (JStr (String c EmptyString))
  | JStr EmptyString => Raise (IndexError "string index out of range")
  | JDict _ => Raise (KeyError "0")
  | _ => Raise (TypeError "object is not subscriptable")
  end.

(** [j.get(k, dflt)] *)
Definition dict_get (j : Json) (k : string) (dflt : Json) : Result Json :=
  match j with
  | JDict items => Return (default dflt (assoc k items))
  | _ => Raise (AttributeError "object has no attribute 'get'")
  end.

(** A token count read from the usage block. *)
Definition as_int (j : Json) : Result Z :=
  match j with
  | JInt z => Return z
  | JBool b => Return (if b then 1 else 0)
  | _ => Raise (TypeError "unsupported operand type(s) for +")
  end.

(** [anthropic.types.messages.MessageBatchRequestCounts] *)
Record MessageBatchRequestCounts : Type := {
  processing : Z;
  canceled : Z;
  errored : Z;
  expired : Z;
  succeeded : Z
}.

(** [anthropic.types.messages.MessageBatch], with the fields the adapter
    reads. *)
Record MessageBatch : Type := {
  mb_id : string;
  processing_status : string;
  mb_created_at : string;
  ended_at : option string;
  mb_request_counts : MessageBatchRequestCounts
}.

(** Modelled from the spec: the status enum of [GenericBatch], declared in
    [bespokelabs.curator.types.generic_batch], outside the sources at hand;
    the data model gives status in CREATED, SUBMITTED, FINISHED, FAILED,
    CANCELLED. *)
Inductive GenericBatchStatus : Type :=
| CREATED | SUBMITTED | FINISHED | FAILED | CANCELLED.

(** Modelled from the spec: the value of a status member, its name in lower
    case; a member compares equal to a [str] at most when its value is that
    [str]. *)
Definition status_value (s : GenericBatchStatus) : string :=
  match s with
  | CREATED => "created"
  | SUBMITTED => "submitted"
  | FINISHED => "finished"
  | FAILED => "failed"
  | CANCELLED => "cancelled"
  end.

(** [status == x] for a [str] [x]. *)
Definition status_eq_str (s : GenericBatchStatus) (x : string) : bool :=
  String.eqb (status_value s) x.

Record GenericBatchRequestCounts : Type := {
  failed : Z;
  gc_succeeded : Z;
  total : Z;
  raw_request_counts_object : MessageBatchRequestCounts
}.

(** Modelled from the spec: [GenericBatch], declared in
    [bespokelabs.curator.types.generic_batch]; its fields are the keyword
    arguments [parse_api_specific_batch_object] builds it with. *)
Record GenericBatch : Type := {
  request_file : option string;
  id : string;
  created_at : string;
  finished_at : option string;
  status : GenericBatchStatus;
  api_key_suffix : string;
  request_counts : GenericBatchRequestCounts;
  raw_batch : MessageBatch;
  raw_status : string
}.

(** What the parameter [batch] of [parse_api_specific_batch_object] is bound
    to at run time: the annotation says [MessageBatch], [cancel_batch] passes
    the [GenericBatch] it got from [retrieve_batch]. *)
Inductive BatchObject : Type :=
| AMessageBatch (b : MessageBatch)
| AGenericBatch (b : GenericBatch).

(** [batch.processing_status]: a [GenericBatch] has no such attribute. *)
Definition get_processing_status (o : BatchObject) : Result string :=
  match o with
  | AMessageBatch b => Return (processing_status b)
  | AGenericBatch _ =>
      Raise (AttributeError "'GenericBatch' object has no attribute 'processing_status'")
  end.

(** Modelled from the spec: [GenericRequest], declared in
    [bespokelabs.curator.types.generic_request]. *)
Record GenericRequest : Type := {
  original_row_idx : Z;
  model : string;
  messages : Val;
  gr_generation_params : gmap string Val;
  gr_response_format : option ResponseFormat
}.

Record TokenUsage : Type := {
  prompt_tokens : Z;
  completion_tokens : Z;
  total_tokens : Z
}.

(** Modelled from the spec: [GenericResponse], declared in
    [bespokelabs.curator.types.generic_response]; its fields are the keyword
    arguments [parse_api_specific_response] builds it with.  A cost is a
    rational number of dollars. *)
Record GenericResponse : Type := {
  response_message : option Json;
  response_errors : option (list string);
  raw_response : Json;
  raw_request : option Json;
  generic_request : GenericRequest;
  gresp_created_at : string;
  gresp_finished_at : option string;
  token_usage : option TokenUsage;
  response_cost : option Q
}.

(** The request handed to the provider for one row. *)
Record ApiRequest : Type := {
  custom_id : string;
  params : gmap string Val
}.

(** [AsyncAnthropic]: the key, and what the provider answers. *)
Record Client : Type := {
  api_key : string;
  batches_retrieve : string -> Result MessageBatch;
  batches_cancel : string -> Result MessageBatch
}.

Record Config : Type := {
  config_model : string;
  max_retries : Z;
  base_url : option string
}.

Record Tracker : Type := {
  submitted_batches : gmap string GenericBatch
}.

Record AnthropicBatchRequestProcessor : Type := {
  config : Config;
  client : Client;
  tracker : Tracker;
  prompt_formatter : LLM.PromptFormatter;
  web_dashboard : string
}.

Definition max_requests_per_batch : Z := 100000.
Definition max_bytes_per_batch : Z := 256 * 1024 * 1024.
Definition max_concurrent_batch_operations : Z := 100.

Definition parse_api_specific_request_counts (request_counts : MessageBatchRequestCounts)
  : GenericBatchRequestCounts :=
  let failed := canceled request_counts + errored request_counts + expired request_counts in
  let succeeded := succeeded request_counts in
  let processing := processing request_counts in
  {| failed := failed;
     gc_succeeded := succeeded;
     total := processing + succeeded + failed;
     raw_request_counts_object := request_counts |}.

Section Adapter.

(** [instructor.handle_response_model(response_format,
    mode=instructor.Mode.ANTHROPIC_JSON, messages=...)]: the keyword
    arguments it returns, which hold 'system' and 'messages'. *)
Variable handle_response_model : option ResponseFormat -> Val -> gmap string Val.
(** [litellm.get_max_tokens] *)
Variable get_max_tokens : string -> Z.
(** [litellm.completion_cost(model=, prompt=, completion=)] *)
Variable completion_cost : string -> string -> Json -> Result Q.
(** The schema validator: a raw model message against a response format. *)
Variable validate : ResponseFormat -> Json -> Result Json.

Definition parse_api_specific_batch_object (self : AnthropicBatchRequestProcessor)
    (batch : BatchObject) (request_file : option string) : Result GenericBatch :=
  rbind (get_processing_status batch) (fun processing_status =>
  rbind
    (if bool_decide (processing_status ∈ ["cancelling"; "in_progress"]%string)
     then Return SUBMITTED
     else if bool_decide (processing_status ∈ ["ended"]%string)
     then Return FINISHED
     else Raise (ValueError ("Unknown batch status: " +:+ processing_status)))
    (fun status =>
  match batch with
  | AMessageBatch b =>
      Return {| request_file := request_file;
                id := mb_id b;
                created_at := mb_created_at b;
                finished_at := ended_at b;
                status := status;
                api_key_suffix := last_chars 4 (api_key (client self));
                request_counts :=
                  parse_api_specific_request_counts (mb_request_counts b);
                raw_batch := b;
                raw_status := processing_status |}
  | AGenericBatch _ =>
      Raise (AttributeError "'GenericBatch' object has no attribute 'ended_at'")
  end)).

Definition create_api_specific_request_batch (self : AnthropicBatchRequestProcessor)
    (generic_request : GenericRequest) : ApiRequest :=
  let kwargs :=
    handle_response_model (LLM.response_format (prompt_formatter self))
      (messages generic_request) in
  {| custom_id := str_int (original_row_idx generic_request);
     params :=
       gr_generation_params generic_request
       ∪ (kwargs
          ∪ (<["model"%string := PyStr (model generic_request)]>
               {[ "max_tokens"%string :=
                    PyInt (get_max_tokens (config_model (config self))) ]})) |}.

(** Modelled from the spec: [PromptFormatter.parse_response_message],
    declared in [bespokelabs.curator.llm.prompt_formatter], outside the
    sources at hand.  Without a declared schema the raw message is the
    message; with one, a validation failure gives an empty message and the
    error text instead of raising. *)
Definition parse_response_message (pf : LLM.PromptFormatter) (raw : Json)
  : option Json * option (list string) :=
  match LLM.response_format pf with
  | None => (Some raw, None)
  | Some fmt =>
      match validate fmt raw with
      | Return v => (Some v, None)
      | Raise e => (None, Some [exn_str e])
      end
  end.

(** [j != "succeeded"] *)
Definition json_ne_str (j : Json) (x : string) : bool :=
  match j with
  | JStr s => negb (String.eqb s x)
  | _ => true
  end.

Definition parse_api_specific_response (self : AnthropicBatchRequestProcessor)
    (raw_response : Json) (generic_request : GenericRequest) (batch : GenericBatch)
  : M World GenericResponse :=
  result <- lift (getitem raw_response "result") ;;
  result_type <- lift (getitem result "type") ;;
  if json_ne_str result_type "succeeded" then
    error <- lift (getitem result "error") ;;
    cid <- lift (getitem raw_response "custom_id") ;;
    logger WARNING ("custom_id " +:+ json_str cid +:+ " result was '"
                    +:+ json_str result_type +:+ "' with error '"
                    +:+ json_str error +:+ "'") ;;
    ret {| response_message := None;
           response_errors := Some [json_str error];
           raw_response := raw_response;
           raw_request := None;
           generic_request := generic_request;
           gresp_created_at := created_at batch;
           gresp_finished_at := finished_at batch;
           token_usage := None;
           response_cost := None |}
  else
    response_body <- lift (getitem result "message") ;;
    content <- lift (getitem response_body "content") ;;
    content0 <- lift (getitem0 content) ;;
    response_message_raw <- lift (getitem content0 "text") ;;
    stop_reason <- lift (getitem response_body "stop_reason") ;;
    stop_sequence <- lift (getitem response_body "stop_sequence") ;;
    usage <- lift (dict_get response_body "usage" (JDict [])) ;;
    input_tokens <- lift (rbind (dict_get usage "input_tokens" (JInt 0)) as_int) ;;
    output_tokens <- lift (rbind (dict_get usage "output_tokens" (JInt 0)) as_int) ;;
    let token_usage :=
      {| prompt_tokens := input_tokens;
         completion_tokens := output_tokens;
         total_tokens := input_tokens + output_tokens |} in
    let '(response_message, response_errors) :=
      parse_response_message (prompt_formatter self) response_message_raw in
    cost <- lift (completion_cost (config_model (config self))
                    (repr (messages generic_request)) response_message_raw) ;;
    let cost := Qmult cost (1 # 2) in
    ret {| response_message := response_message;
           response_errors := response_errors;
           raw_response := raw_response;
           raw_request := None;
           generic_request := generic_request;
           gresp_created_at := created_at batch;
           gresp_finished_at := finished_at batch;
           token_usage := Some token_usage;
           response_cost := Some cost |}.

(** [self.tracker.submitted_batches[id].request_file] *)
Definition tracked_request_file (self : AnthropicBatchRequestProcessor) (id : string)
  : Result (option string) :=
  match submitted_batches (tracker self) !! id with
  | Some b => Return (request_file b)
  | None => Raise (KeyError id)
  end.

(** Line 8, [from anthropic.types.shared.not_found_error import
    NotFoundError]: the name the [except] clause of [retrieve_batch] uses is
    bound to the pydantic model of an error body (fields [message] and
    [type]), not to the exception [anthropic.NotFoundError] that the client
    raises ([NotFoundError] of [Exn]). *)
Definition imported_NotFoundError : ExceptTarget := NotAnExceptionClass.

Definition retrieve_batch (self : AnthropicBatchRequestProcessor) (batch : GenericBatch)
  : M World (option GenericBatch) :=
  found <-
    try_except_class
      (call_provider (BatchesRetrieve (id batch)) ;;
       batch <- lift (batches_retrieve (client self) (id batch)) ;;
       ret (Some batch))
      imported_NotFoundError
      (logger WARNING ("batch object " +:+ id batch +:+ " not found. "
                       +:+ "Your API key (***" +:+ last_chars 4 (api_key (client self))
                       +:+ ") might not have access to this batch.") ;;
       ret None) ;;
  match found with
  | None => ret None
  | Some batch =>
      request_file <- lift (tracked_request_file self (mb_id batch)) ;;
      parsed <- lift (parse_api_specific_batch_object self (AMessageBatch batch)
                        request_file) ;;
      ret (Some parsed)
  end.

Definition cancel_batch (self : AnthropicBatchRequestProcessor) (batch : GenericBatch)
  : M World GenericBatch :=
  request_file <- lift (tracked_request_file self (id batch)) ;;
  batch_object <- retrieve_batch self batch ;;
  match batch_object with
  | None =>
      (* [batch_object.status] on the [None] of the handler in
         [retrieve_batch], which no run reaches *)
      raise (AttributeError "'NoneType' object has no attribute 'status'")
  | Some batch_object =>
      if status_eq_str (status batch_object) "ended" then
        logger WARNING ("Batch " +:+ id batch +:+ " is already ended, cannot cancel") ;;
        lift (parse_api_specific_batch_object self (AGenericBatch batch_object)
                request_file)
      else
        try_except
          (call_provider (BatchesCancel (id batch)) ;;
           _ <- lift (batches_cancel (client self) (id batch)) ;;
           logger INFO ("Successfully cancelled batch: " +:+ id batch) ;;
           lift (parse_api_specific_batch_object self (AGenericBatch batch_object)
                   request_file))
          (fun e =>
             let error_msg := exn_str e in
             logger ERROR ("Failed to cancel batch " +:+ id batch +:+ ": "
                           +:+ error_msg) ;;
             lift (parse_api_specific_batch_object self (AGenericBatch batch_object)
                     request_file))
  end.

(** A request paired with the [custom_id] it is sent under, which the
    provider echoes back in the result. *)
Definition tagged (self : AnthropicBatchRequestProcessor) (r : GenericRequest)
  : string * GenericRequest :=
  (custom_id (create_api_specific_request_batch self r), r).

End Adapter.

End Anthropic.

(** ** Order restoration *)

Module RunCoordinator.
Import Py.

(** Modelled from the spec: the final re-sort by [original_row_idx] (data
    model invariant and ordering guarantees), done by the base request
    processor, outside the sources at hand.  A collected result carries the
    [custom_id] of the request it answers; the row index is read back from
    it. *)
Definition row_of {A} (r : string * A) : Z := default 0 (int_str r.1).

Definition row_le {A} (a b : string * A) : Prop := (row_of a <= row_of b)%Z.

#[global] Instance row_le_dec {A} : RelDecision (@row_le A).
Proof. intros a b. unfold row_le. apply _. Defined.

Definition restore_order {A} (collected : list (string * A)) : list (string * A) :=
  merge_sort row_le collected.

End RunCoordinator.

(** ** Concrete objects used in examples *)

Module Sample.
Import Py Func Env.

(** [lambda row: row["prompt"]], defined in a script run as [__main__]. *)
Definition code : Code :=
  CodeType 1 0 0 1 2 67 [x7c; x00; x64; x01; x19; x00; x53; x00]
    [PyNone; PyStr "prompt"] [] ["row"%string] "/home/u/job.py" "<lambda>"
    (PyInt 11) [x08; x00] [] [].

Definition prompt_func : Function :=
  {| __code__ := code;
     __globals__ :=
       <["__builtins__"%string := PyObject "<module 'builtins' (built-in)>"]>
         (<["__name__"%string := PyStr "__main__"]>
            {[ "__file__"%string := PyStr "/home/u/job.py" ]});
     __name__ := "<lambda>";
     __qualname__ := "<lambda>";
     __module__ := PyStr "__main__";
     __defaults__ := PyNone;
     __closure__ := PyNone;
     __kwdefaults__ := PyNone;
     __annotations__ := ∅ |}.

(** A pickler for the examples, which writes the code bytes, the names and
    the name of the file.  It stands for no library: the pickler of
    [datasets] is a parameter throughout. *)
Definition dumps_by_value (f : Function) : list byte :=
  co_code (__code__ f)
  ++ list_byte_of_string (__name__ f)
  ++ list_byte_of_string (join "," (co_varnames (__code__ f)))
  ++ list_byte_of_string (co_filename (__code__ f)).

(** A [sorted] for constants that are already in order. *)
Definition sorted_in_order (l : list Val) : Result (list Val) := Return l.

Definition getsource (f : Function) : Result string :=
  Return "lambda row: row['prompt']"%string.

Definition from_generator (tag : string) : Dataset :=
  {| _fingerprint := XXH64.hexdigest tag; rows := [] |}.

Definition dataset : Dataset :=
  {| _fingerprint := "a3f1c2d4e5b60718"; rows := [PyStr "just say 'hi'"] |}.

Definition world : World :=
  {| log := [];
     environ := ∅;
     home := "/home/u";
     entropy := fun n => if (n <? 8)%nat then x5a else xc3;
     entropy_pos := 0;
     now_isoformat := "2024-12-24T10:00:00";
     metadata_db := [];
     processor_calls := [];
     provider_calls := [] |}.

(** The same machine a moment later: the entropy source has moved on. *)
Definition world_later : World := with_entropy_pos 8 world.

(** The same, with [CURATOR_DISABLE_CACHE=1] in the environment. *)
Definition no_cache (w : World) : World :=
  {| log := log w;
     environ := <["CURATOR_DISABLE_CACHE"%string := "1"%string]> (environ w);
     home := home w; entropy := entropy w; entropy_pos := entropy_pos w;
     now_isoformat := now_isoformat w; metadata_db := metadata_db w;
     processor_calls := processor_calls w; provider_calls := provider_calls w |}.

(** A request-processor factory in the manner of [_RequestProcessorFactory]:
    batch mode picks the batch processor of the backend. *)
Definition create (params : option (gmap string Val)) (model_name : string)
    (batch : bool) (response_format : option ResponseFormat)
    (backend : option string) (generation_params : gmap string Val)
  : LLM.RequestProcessor :=
  let backend := default "openai"%string backend in
  {| LLM.processor_class :=
       if String.eqb backend "anthropic" then
         if batch then LLM.AnthropicBatchRequestProcessor
         else LLM.LiteLLMOnlineRequestProcessor
       else if batch then LLM.OpenAIBatchRequestProcessor
       else LLM.OpenAIOnlineRequestProcessor;
     LLM.backend := backend |}.

Definition llm_processor_result (p : LLM.RequestProcessor) (c : ProcessorCall)
  : Result Dataset := Return dataset.

Definition prompter_processor_result (p : Prompter.RequestProcessor) (c : ProcessorCall)
  : Result Dataset := Return dataset.

Definition check_structured_output_support (model : string) : bool :=
  str_in "gpt-4o" model.

(** [Prompter(model_name="gpt-4o-mini", prompt_func=..., backend="openai",
    temperature=...)(dataset)] *)
Definition prompter_run (temperature : Val) : M World Dataset :=
  Py.bind
    (Prompter.__init__ check_structured_output_support "gpt-4o-mini" prompt_func
       None None (Some "openai"%string) false None temperature PyNone PyNone PyNone
       true false)
    (fun p =>
       Prompter.__call__ sorted_in_order dumps_by_value getsource from_generator
         prompter_processor_result p (Some (IsDataset dataset)) None).

(** [LLM(model_name="gpt-4o-mini", prompt_func=..., backend=...,
    batch=..., generation_params=...)] *)
Definition new_llm (batch : bool) (backend : option string)
    (generation_params : option (gmap string Val)) : LLM.LLM :=
  LLM.__init__ create "gpt-4o-mini" (Some prompt_func) None None batch backend
    generation_params None.

Definition llm_run (self : LLM.LLM) (batch_cancel : bool) : M World Dataset :=
  LLM.__call__ dumps_by_value getsource from_generator llm_processor_result self
    (Some (IsDataset dataset)) None batch_cancel.

(** An Anthropic adapter that tracks one submitted batch. *)
Definition counts : Anthropic.MessageBatchRequestCounts :=
  {| Anthropic.processing := 3; Anthropic.canceled := 0; Anthropic.errored := 0;
     Anthropic.expired := 0; Anthropic.succeeded := 0 |}.

Definition message_batch (status : string) : Anthropic.MessageBatch :=
  {| Anthropic.mb_id := "msgbatch_01";
     Anthropic.processing_status := status;
     Anthropic.mb_created_at := "2024-12-24T10:00:00+00:00";
     Anthropic.ended_at := None;
     Anthropic.mb_request_counts := counts |}.

Definition tracked_batch : Anthropic.GenericBatch :=
  {| Anthropic.request_file := Some "requests_0.jsonl"%string;
     Anthropic.id := "msgbatch_01";
     Anthropic.created_at := "2024-12-24T10:00:00+00:00";
     Anthropic.finished_at := None;
     Anthropic.status := Anthropic.SUBMITTED;
     Anthropic.api_key_suffix := "2345";
     Anthropic.request_counts := Anthropic.parse_api_specific_request_counts counts;
     Anthropic.raw_batch := message_batch "in_progress";
     Anthropic.raw_status := "in_progress" |}.

Definition formatter : LLM.PromptFormatter :=
  {| LLM.model_name := "claude-3-5-sonnet-20241022";
     LLM.prompt_func := Some prompt_func;
     LLM.parse_func := None;
     LLM.response_format := None;
     LLM.generation_params := ∅ |}.

(** A tracked batch the key at hand has no access to. *)
Definition foreign_batch : Anthropic.GenericBatch :=
  {| Anthropic.request_file := Some "requests_9.jsonl"%string;
     Anthropic.id := "msgbatch_99";
     Anthropic.created_at := "2024-12-24T10:00:00+00:00";
     Anthropic.finished_at := None;
     Anthropic.status := Anthropic.SUBMITTED;
     Anthropic.api_key_suffix := "9999";
     Anthropic.request_counts := Anthropic.parse_api_specific_request_counts counts;
     Anthropic.raw_batch := message_batch "in_progress";
     Anthropic.raw_status := "in_progress" |}.

(** The provider reports the batch with [status]; cancelling succeeds or
    fails as [cancel_ok] says; any other batch is unknown to it. *)
Definition adapter (status : string) (cancel_ok : bool)
  : Anthropic.AnthropicBatchRequestProcessor :=
  {| Anthropic.config :=
       {| Anthropic.config_model := "claude-3-5-sonnet-20241022";
          Anthropic.max_retries := 3;
          Anthropic.base_url := None |};
     Anthropic.client :=
       {| Anthropic.api_key := "sk-ant-12345";
          Anthropic.batches_retrieve := fun i =>
            if String.eqb i "msgbatch_01" then Return (message_batch status)
            else Raise (NotFoundError "Error code: 404");
          Anthropic.batches_cancel := fun i =>
            if cancel_ok then Return (message_batch "canceling")
            else Raise (APIError "Error code: 500") |};
     Anthropic.tracker :=
       {| Anthropic.submitted_batches :=
            <["msgbatch_99"%string := foreign_batch]>
              {[ "msgbatch_01"%string := tracked_batch ]} |};
     Anthropic.prompt_formatter := formatter;
     Anthropic.web_dashboard :=
       "https://console.anthropic.com/settings/workspaces/default/batches" |}.

(** A raw result of a request that was cancelled before it ran: the provider
    gives such a result a type and nothing else. *)
Definition canceled_result : Anthropic.Json :=
  Anthropic.JDict
    [ ("custom_id"%string, Anthropic.JStr "0");
      ("result"%string, Anthropic.JDict [("type"%string, Anthropic.JStr "canceled")]) ].

Definition request (i : Z) : Anthropic.GenericRequest :=
  {| Anthropic.original_row_idx := i;
     Anthropic.model := "claude-3-5-sonnet-20241022";
     Anthropic.messages := PyList [PyObject "{'role': 'user', 'content': 'hi'}"];
     Anthropic.gr_generation_params := ∅;
     Anthropic.gr_response_format := None |}.

Definition handle_response_model (fmt : option ResponseFormat) (messages : Val)
  : gmap string Val := {[ "messages"%string := messages ]}.

Definition get_max_tokens (model : string) : Z := 8192.

End Sample.

(** ** Submitting and downloading batches *)

Module Batches.
Import Py Func Env Anthropic.
Local Open Scope py_scope.

(** Calls to the provider's batch API made on submission and download. *)
Inductive BatchCall : Type :=
| BatchesCreate (requests : list ApiRequest)
| BatchesResults (id : string).

(** What the provider answers to them. *)
Record BatchesApi : Type := {
  batches_create : list ApiRequest -> Result MessageBatch;
  batches_results : string -> Result (list Json)
}.

Definition call (c : BatchCall) : M (list BatchCall) unit :=
  modify (fun calls => calls ++ [c]).

(** [metadata["request_file"]] *)
Definition metadata_request_file (metadata : gmap string string) : Result string :=
  match metadata !! "request_file"%string with
  | Some f => Return f
  | None => Raise (KeyError "request_file")
  end.

Definition submit_batch (self : AnthropicBatchRequestProcessor) (api : BatchesApi)
    (requests : list ApiRequest) (metadata : gmap string string)
  : M (list BatchCall) GenericBatch :=
  call (BatchesCreate requests) ;;
  batch <- lift (batches_create api requests) ;;
  request_file <- lift (metadata_request_file metadata) ;;
  lift (parse_api_specific_batch_object self (AMessageBatch batch) (Some request_file)).

(** The loop of [download_batch]: every result of the stream is appended. *)
Fixpoint collect (responses : list Json) (results_stream : list Json) : list Json :=
  match results_stream with
  | [] => responses
  | result :: rest => collect (responses ++ [result]) rest
  end.

Definition download_batch (self : AnthropicBatchRequestProcessor) (api : BatchesApi)
    (batch : GenericBatch) : M (list BatchCall) (list Json) :=
  let anthropic_batch := raw_batch batch in
  let responses := [] in
  call (BatchesResults (id batch)) ;;
  results_stream <- lift (batches_results api (id batch)) ;;
  ret (collect responses results_stream).

End Batches.

(** ** examples/reannotation/openhermes.py *)

Module OpenHermes.
Import Py Anthropic.

(** [for item in conversation]: the items of a list, the characters of a
    [str], the keys of a [dict]. *)
Fixpoint chars (s : string) : list Json :=
  match s with
  | EmptyString => []
  | String c s' => JStr (String c EmptyString) :: chars s'
  end.

Definition iterate (j : Json) : Result (list Json) :=
  match j with
  | JList l => Return l
  | JStr s => Return (chars s)
  | JDict items => Return (List.map (fun kv => JStr (fst kv)) items)
  | _ => Raise (TypeError "object is not iterable")
  end.

(** [next((item["value"] for item in conversation if item["from"] == who), None)] *)
Fixpoint first_value (who : string) (conversation : list Json) : Result Json :=
  match conversation with
  | [] => Return JNull
  | item :: rest =>
      rbind (getitem item "from") (fun from =>
      if negb (json_ne_str from who) then getitem item "value"
      else first_value who rest)
  end.

Definition convert_row (row : Json) : Result Json :=
  rbind (getitem row "conversations") (fun conversation =>
  rbind (iterate conversation) (fun items =>
  rbind (first_value "human" items) (fun instruction =>
  rbind (first_value "gpt" items) (fun response =>
  Return (JDict [ ("instruction"%string, instruction);
                  ("original_response"%string, response) ]))))).

Definition prompt_func (row : Json) : Result Json := getitem row "instruction".

Definition parse_func (row response : Json) : Result Json :=
  rbind (getitem row "instruction") (fun instruction =>
  Return (JDict [ ("instruction"%string, instruction);
                  ("new_response"%string, response) ])).

(** One turn of a conversation. *)
Definition turn (from : string) (value : Json) : Json :=
  JDict [ ("from"%string, JStr from); ("value"%string, value) ].

(** The value of the first turn of [who], if any. *)
Fixpoint first_turn (who : string) (turns : list (string * Json)) : option Json :=
  match turns with
  | [] => None
  | (from, value) :: rest =>
      if String.eqb from who then Some value else first_turn who rest
  end.

End OpenHermes.

(** ** Further objects used in statements and examples *)

Module Shape.
Import Py Func Env.

(** The six components [LLM._hash_fingerprint] joins with '_'. *)
Definition llm_components (dumps : Function -> list byte) (self : LLM.LLM)
    (dataset_hash : string) : list string :=
  let pf := LLM.prompt_formatter self in
  [ dataset_hash;
    LLM._get_function_hash dumps (LLM.prompt_func pf);
    LLM.model_name pf;
    LLM.response_format_str pf;
    str_bool (LLM.batch_mode self);
    LLM.backend (LLM._request_processor self) ].

(** A tracker that holds no batch. *)
Definition no_batches : gmap string Anthropic.GenericBatch := ∅.

(** An adapter over a provider whose retrieve endpoint answers as [answer]
    says, tracking the batches of [tracked]. *)
Definition adapter_over (answer : string -> Result Anthropic.MessageBatch)
    (tracked : gmap string Anthropic.GenericBatch)
  : Anthropic.AnthropicBatchRequestProcessor :=
  {| Anthropic.config := Anthropic.config (Sample.adapter "in_progress" true);
     Anthropic.client :=
       {| Anthropic.api_key := "sk-ant-12345";
          Anthropic.batches_retrieve := answer;
          Anthropic.batches_cancel := fun _ => Return (Sample.message_batch "canceling") |};
     Anthropic.tracker := {| Anthropic.submitted_batches := tracked |};
     Anthropic.prompt_formatter := Sample.formatter;
     Anthropic.web_dashboard := Anthropic.web_dashboard (Sample.adapter "in_progress" true) |}.

(** A provider that accepts every batch and has one result for each. *)
Definition api : Batches.BatchesApi :=
  {| Batches.batches_create := fun _ => Return (Sample.message_batch "in_progress");
     Batches.batches_results := fun _ =>
       Return [Sample.canceled_result; Anthropic.JNull] |}.

(** The metadata of a submission, without and with the request file. *)
Definition no_metadata : gmap string string := ∅.

Definition metadata : gmap string string :=
  {[ "request_file"%string := "requests_0.jsonl"%string ]}.

(** An errored and a succeeded raw result. *)
Definition errored_result : Anthropic.Json :=
  Anthropic.JDict
    [ ("custom_id"%string, Anthropic.JStr "1");
      ("result"%string,
       Anthropic.JDict
         [ ("type"%string, Anthropic.JStr "errored");
           ("error"%string, Anthropic.JStr "overloaded_error") ]) ].

Definition succeeded_body : Anthropic.Json :=
  Anthropic.JDict
    [ ("content"%string,
       Anthropic.JList [Anthropic.JDict [("text"%string, Anthropic.JStr "hi")]]);
      ("stop_reason"%string, Anthropic.JStr "end_turn");
      ("stop_sequence"%string, Anthropic.JNull);
      ("usage"%string,
       Anthropic.JDict [ ("input_tokens"%string, Anthropic.JInt 12);
                         ("output_tokens"%string, Anthropic.JInt 3) ]) ].

Definition succeeded_result : Anthropic.Json :=
  Anthropic.JDict
    [ ("custom_id"%string, Anthropic.JStr "2");
      ("result"%string,
       Anthropic.JDict [ ("type"%string, Anthropic.JStr "succeeded");
                         ("message"%string, succeeded_body) ]) ].

Definition completion_cost (model prompt : string) (completion : Anthropic.Json)
  : Result Q := Return (3 # 1000)%Q.

Definition validate (fmt : ResponseFormat) (raw : Anthropic.Json)
  : Result Anthropic.Json := Return raw.

(** [inspect.getsource] in an interactive session, and on a broken object. *)
Definition getsource_repl (f : Function) : Result string :=
  Raise (OSError "could not get source code").

Definition getsource_broken (f : Function) : Result string :=
  Raise (TypeError "module, class, method, function, traceback, frame, or code object was expected").

(** [Prompter(model_name="gpt-4o-mini", prompt_func=..., parse_func=...)],
    on the OpenAI backend. *)
Definition prompter (parse_func : option Function) : Prompter.Prompter :=
  {| Prompter.prompt_formatter :=
       Prompter.Build_PromptFormatter "gpt-4o-mini" (Some Sample.prompt_func)
         parse_func None;
     Prompter.batch_mode := false;
     Prompter.backend := "openai";
     Prompter._request_processor :=
       Prompter.OpenAIOnlineRequestProcessor "gpt-4o-mini" PyNone PyNone PyNone
         PyNone |}.

(** The turns of a conversation. *)
Definition hermes_turns : list (string * Anthropic.Json) :=
  [ ("system"%string, Anthropic.JStr "be brief");
    ("human"%string, Anthropic.JStr "2+2?");
    ("gpt"%string, Anthropic.JStr "4") ].

(** A conversation of the OpenHermes dataset. *)
Definition hermes_row : Anthropic.Json :=
  Anthropic.JDict
    [ ("conversations"%string,
       Anthropic.JList
         [ OpenHermes.turn "system" (Anthropic.JStr "be brief");
           OpenHermes.turn "human" (Anthropic.JStr "2+2?");
           OpenHermes.turn "gpt" (Anthropic.JStr "4") ]) ].

End Shape.

(** * Properties *)

Example xxh64_empty : XXH64.hexdigest EmptyString = "ef46db3751d8e999"%string.
Proof. vm_compute. reflexivity. Qed.

Example xxh64_xxhash : XXH64.hexdigest "xxhash" = "32dd38952c4bc720"%string.
Proof. vm_compute. reflexivity. Qed.

Example xxh64_a : XXH64.hexdigest "a" = "d24ec4f1a98c6e5b"%string.
Proof. vm_compute. reflexivity. Qed.

Example xxh64_abc : XXH64.hexdigest "abc" = "44bc2cf5ad770999"%string.
Proof. vm_compute. reflexivity. Qed.

Example xxh64_long :
  XXH64.hexdigest "Nobody inspects the spammish repetition" = "fbcea83c8a378bf1"%string.
Proof. vm_compute. reflexivity. Qed.

Example repr_examples :
  Py.str_sorted_items (<["top_p" := Py.PyFloat "0.9"]> (<["temperature" := Py.PyInt 1]> ∅))
  = "[('temperature', 1), ('top_p', 0.9)]"%string
  /\ Py.repr (Py.PyList [Py.PyStr "it's"; Py.PyStr "a\b"; Py.PyTuple [Py.PyInt (-3)]])
     = String "[" (String Py.dquote ("it's" +:+ String Py.dquote ", 'a\\b', (-3,)]"))
  /\ Py.path_join "/home/u/.cache/curator" "ef46" = "/home/u/.cache/curator/ef46"%string
  /\ Py.path_join "cache/" "ef46" = "cache/ef46"%string
  /\ Py.lower "TrUe" = "true"%string
  /\ Py.last_chars 4 "sk-ant-12345" = "2345"%string
  /\ Py.last_chars 4 "abc" = "abc"%string
  /\ Py.str_int 0 = "0"%string /\ Py.str_int 17 = "17"%string
  /\ Py.int_str "17" = Some 17.
Proof. vm_compute. repeat split; reflexivity. Qed.

(** Characters beyond ASCII: [repr('\xa0')], [repr('\xe9')],
    ['\xc9'.lower()] and ['\xe9!'.encode("utf-8")]. *)
Example latin1_examples :
  Py.repr_str (String (ascii_of_nat 160) EmptyString) = "'\xa0'"%string
  /\ Py.repr_str (String (ascii_of_nat 233) EmptyString)
     = String "'" (String (ascii_of_nat 233) "'")
  /\ Py.lower (String (ascii_of_nat 201) EmptyString)
     = String (ascii_of_nat 233) EmptyString
  /\ XXH64.utf8 (String (ascii_of_nat 233) "!") = [xc3; xa9; x21].
Proof. vm_compute. repeat split; reflexivity. Qed.

Import Py Func Env.

(** ** The Anthropic adapter *)

Section AdapterFacts.
Import Anthropic.

Lemma parse_batch_in_progress self b rf :
  processing_status b = "in_progress"%string ->
  parse_api_specific_batch_object self (AMessageBatch b) rf
  = Return {| request_file := rf; id := mb_id b; created_at := mb_created_at b;
              finished_at := ended_at b; status := SUBMITTED;
              api_key_suffix := last_chars 4 (api_key (client self));
              request_counts := parse_api_specific_request_counts (mb_request_counts b);
              raw_batch := b; raw_status := "in_progress" |}.
Proof.
  intros H. unfold parse_api_specific_batch_object. simpl. rewrite H. reflexivity.
Qed.

Lemma parse_batch_ended self b rf :
  processing_status b = "ended"%string ->
  parse_api_specific_batch_object self (AMessageBatch b) rf
  = Return {| request_file := rf; id := mb_id b; created_at := mb_created_at b;
              finished_at := ended_at b; status := FINISHED;
              api_key_suffix := last_chars 4 (api_key (client self));
              request_counts := parse_api_specific_request_counts (mb_request_counts b);
              raw_batch := b; raw_status := "ended" |}.
Proof.
  intros H. unfold parse_api_specific_batch_object. simpl. rewrite H. reflexivity.
Qed.

(** The parser assigns no status but SUBMITTED and FINISHED. *)
Lemma parse_batch_status self o rf g :
  parse_api_specific_batch_object self o rf = Return g ->
  status g = SUBMITTED \/ status g = FINISHED.
Proof.
  unfold parse_api_specific_batch_object.
  destruct o as [b|b]; simpl; [|discriminate].
  destruct (bool_decide _); simpl.
  - intros [= <-]. now left.
  - destruct (bool_decide _); simpl; [|discriminate].
    intros [= <-]. now right.
Qed.

(** A [GenericBatch] handed to the parser makes it raise at its first
    attribute read. *)
Lemma parse_batch_generic self g rf :
  parse_api_specific_batch_object self (AGenericBatch g) rf
  = Raise (AttributeError "'GenericBatch' object has no attribute 'processing_status'").
Proof. reflexivity. Qed.

(** C9. The provider documents the statuses "in_progress", "canceling" and
    "ended", and the docstring of [parse_api_specific_batch_object] lists
    them; the code tests for "cancelling", so a batch whose status is
    "canceling" reaches the unknown-status branch and [ValueError] is
    raised. *)
Theorem parse_batch_canceling_raises self i created ended counts rf :
  parse_api_specific_batch_object self
    (AMessageBatch {| mb_id := i; processing_status := "canceling";
                      mb_created_at := created; ended_at := ended;
                      mb_request_counts := counts |}) rf
  = Raise (ValueError "Unknown batch status: canceling").
Proof. reflexivity. Qed.

Lemma retrieve_batch_found self batch tracked b w :
  submitted_batches (tracker self) !! id batch = Some tracked ->
  batches_retrieve (client self) (id batch) = Return b ->
  mb_id b = id batch ->
  retrieve_batch self batch w
  = (match parse_api_specific_batch_object self (AMessageBatch b)
             (request_file tracked) with
     | Return g => Return (Some g)
     | Raise e => Raise e
     end,
     with_provider_calls (provider_calls w ++ [BatchesRetrieve (id batch)]) w).
Proof.
  intros Htracked Hb Hid.
  unfold retrieve_batch, try_except_class, bind, call_provider, modify, lift, ret.
  rewrite Hb. cbn beta iota.
  unfold tracked_request_file. rewrite Hid, Htracked.
  destruct (parse_api_specific_batch_object _ _ _); reflexivity.
Qed.

(** What the retrieve call raises never leaves [retrieve_batch] as it is. *)
Lemma retrieve_batch_raised self batch e w :
  batches_retrieve (client self) (id batch) = Raise e ->
  retrieve_batch self batch w
  = (Raise (TypeError "catching classes that do not inherit from BaseException is not allowed"),
     with_provider_calls (provider_calls w ++ [BatchesRetrieve (id batch)]) w).
Proof.
  intros He.
  unfold retrieve_batch, try_except_class, bind, call_provider, modify, lift, ret.
  rewrite He. reflexivity.
Qed.

(** C7.  The [except] clause of [retrieve_batch] names the class that line
    8 imports from [anthropic.types.shared.not_found_error], the pydantic
    model of an error body and no exception class.  So when the provider's
    retrieve call raises, the not-found error of a batch the key has no
    access to included, matching against the clause raises [TypeError]: the
    warning is not logged and [None] is not returned. *)
Theorem retrieve_batch_not_found_raises self batch e w :
  batches_retrieve (client self) (id batch) = Raise e ->
  fst (retrieve_batch self batch w)
  = Raise (TypeError "catching classes that do not inherit from BaseException is not allowed")
  /\ fst (retrieve_batch self batch w) <> Return None
  /\ log (snd (retrieve_batch self batch w)) = log w
  /\ provider_calls (snd (retrieve_batch self batch w))
     = provider_calls w ++ [BatchesRetrieve (id batch)].
Proof.
  intros He. rewrite (retrieve_batch_raised self batch e w He).
  repeat split. discriminate.
Qed.

Lemma retrieve_batch_not_found_raises_witness :
  batches_retrieve (client (Sample.adapter "in_progress" true)) "msgbatch_99"
  = Raise (NotFoundError "Error code: 404")
  /\ fst (retrieve_batch (Sample.adapter "in_progress" true) Sample.foreign_batch
            Sample.world)
     = Raise (TypeError "catching classes that do not inherit from BaseException is not allowed")
  /\ log (snd (retrieve_batch (Sample.adapter "in_progress" true) Sample.foreign_batch
                 Sample.world)) = [].
Proof.
  destruct (retrieve_batch_not_found_raises (Sample.adapter "in_progress" true)
              Sample.foreign_batch (NotFoundError "Error code: 404") Sample.world
              eq_refl) as (Hr & _ & Hl & _).
  split; [reflexivity|]. split; [exact Hr | exact Hl].
Defined.

(** The status the parser assigns is never equal to the string 'ended'. *)
Lemma parsed_status_ne_ended self o rf g :
  parse_api_specific_batch_object self o rf = Return g ->
  status_eq_str (status g) "ended" = false.
Proof.
  intros H. destruct (parse_batch_status _ _ _ _ H) as [-> | ->]; reflexivity.
Qed.

(** [cancel_batch] returns on no path. *)
Lemma cancel_batch_never_returns self batch w :
  exists e, fst (cancel_batch self batch w) = Raise e.
Proof.
  unfold cancel_batch, bind, lift, try_except.
  destruct (tracked_request_file self (id batch)) as [rf|e]; [|eauto].
  destruct (retrieve_batch self batch w) as [[[bo|]|e] w1]; cbn beta iota;
    [| unfold raise; eauto | eauto].
  destruct (status_eq_str (status bo) "ended"); cbn beta iota.
  - unfold logger, modify. rewrite parse_batch_generic. eauto.
  - unfold call_provider, modify, logger, modify. cbn beta iota.
    destruct (batches_cancel (client self) (id batch)); cbn beta iota;
      rewrite ?parse_batch_generic; eauto.
Qed.

(** C1.  [cancel_batch] returns no batch, CANCELLED or other.  For a tracked
    batch that the provider reports as in progress or as ended it retrieves
    the batch, finds its status (a [GenericBatchStatus]) different from the
    string 'ended', so issues the cancel call for the ended batch too,
    without the warning, and then hands the [GenericBatch] it holds to the
    parser of provider batches, which raises [AttributeError] in the [try]
    body and once more in the handler. *)
Theorem cancel_batch_raises_after_cancel self batch tracked b w :
  submitted_batches (tracker self) !! id batch = Some tracked ->
  batches_retrieve (client self) (id batch) = Return b ->
  mb_id b = id batch ->
  processing_status b = "in_progress"%string \/ processing_status b = "ended"%string ->
  fst (cancel_batch self batch w)
  = Raise (AttributeError "'GenericBatch' object has no attribute 'processing_status'")
  /\ provider_calls (snd (cancel_batch self batch w))
     = provider_calls w ++ [BatchesRetrieve (id batch); BatchesCancel (id batch)]
  /\ (exists entries,
        log (snd (cancel_batch self batch w)) = log w ++ entries
        /\ Forall (fun entry => entry.1 <> WARNING) entries)
  /\ (forall self' batch' w', exists e, fst (cancel_batch self' batch' w') = Raise e).
Proof.
  intros Htracked Hb Hid Hs.
  split; [|split; [|split; [|intros; apply cancel_batch_never_returns]]].
  all: pose proof (retrieve_batch_found self batch tracked b w Htracked Hb Hid) as Hr.
  all: assert (Hg : exists g,
         parse_api_specific_batch_object self (AMessageBatch b) (request_file tracked)
         = Return g)
    by (destruct Hs as [Hs|Hs];
        [rewrite (parse_batch_in_progress _ _ _ Hs) | rewrite (parse_batch_ended _ _ _ Hs)];
        eauto).
  all: destruct Hg as [g Hg]; rewrite Hg in Hr.
  all: pose proof (parsed_status_ne_ended _ _ _ _ Hg) as Hne.
  all: unfold cancel_batch, bind, lift, try_except, tracked_request_file.
  all: rewrite Htracked, Hr; cbn beta iota; rewrite Hne.
  all: unfold call_provider, modify, logger, modify; cbn beta iota.
  all: destruct (batches_cancel (client self) (id batch)); cbn beta iota.
  all: rewrite ?parse_batch_generic; cbn [fst snd provider_calls log with_provider_calls with_log].
  - reflexivity.
  - reflexivity.
  - now rewrite <- app_assoc.
  - now rewrite <- app_assoc.
  - eexists. rewrite <- app_assoc. split; [reflexivity|].
    repeat constructor; discriminate.
  - eexists. split; [reflexivity|]. repeat constructor; discriminate.
Qed.

Lemma cancel_batch_raises_after_cancel_witness :
  fst (cancel_batch (Sample.adapter "ended" true) Sample.tracked_batch Sample.world)
  = Raise (AttributeError "'GenericBatch' object has no attribute 'processing_status'")
  /\ provider_calls
       (snd (cancel_batch (Sample.adapter "ended" true) Sample.tracked_batch
               Sample.world))
     = [BatchesRetrieve "msgbatch_01"; BatchesCancel "msgbatch_01"].
Proof.
  destruct (cancel_batch_raises_after_cancel (Sample.adapter "ended" true)
              Sample.tracked_batch Sample.tracked_batch (Sample.message_batch "ended")
              Sample.world eq_refl eq_refl eq_refl (or_intror eq_refl))
    as (Hres & Hcalls & _).
  split; [exact Hres | exact Hcalls].
Defined.

(** C6.  A raw result whose type is not 'succeeded' is read for its 'error'
    entry; a cancelled (or expired) request has none, so parsing its
    result raises [KeyError] instead of yielding a response with
    [response_errors]. *)
Theorem parse_response_canceled_raises
    (completion_cost : string -> string -> Json -> Result Q)
    (validate : ResponseFormat -> Json -> Result Json)
    self generic_request batch w :
  parse_api_specific_response completion_cost validate self Sample.canceled_result
    generic_request batch w
  = (Raise (KeyError "error"), w).
Proof. reflexivity. Qed.

(** Where parsing a raw result does produce a response, exactly one of
    message and errors is populated. *)
Lemma parse_response_exactly_one
    (completion_cost : string -> string -> Json -> Result Q)
    (validate : ResponseFormat -> Json -> Result Json)
    self raw generic_request batch w r :
  fst (parse_api_specific_response completion_cost validate self raw
         generic_request batch w) = Return r ->
  (is_Some (response_message r) /\ response_errors r = None)
  \/ (response_message r = None /\ exists e, response_errors r = Some [e]).
Proof.
  unfold parse_api_specific_response, bind, lift, ret, logger, modify.
  repeat match goal with
  | |- context [match ?x with Return _ => _ | Raise _ => _ end] =>
      destruct x; simpl; try discriminate
  | |- context [if ?x then _ else _] => destruct x; simpl; try discriminate
  end.
  all: try (intros [= <-]; right; simpl; eauto; fail).
  all: unfold parse_response_message;
    destruct (LLM.response_format _); [destruct (validate _ _)|]; simpl;
    try discriminate; intros [= <-]; simpl;
    first [ left; split; [eexists; reflexivity | reflexivity]
          | right; split; [reflexivity | eexists; reflexivity] ].
Qed.

End AdapterFacts.

(** ** Row indices and order restoration *)

Lemma int_str_str_int z : int_str (str_int z) = Some z.
Proof.
  unfold int_str, str_int. rewrite NilZero.isi.
  - simpl. now rewrite DecimalZ.of_to.
  - destruct z; simpl; try discriminate.
    intros [= H]. now apply DecimalPos.Unsigned.to_uint_nonnil in H.
  - destruct z; simpl; try discriminate.
    intros [= H]. now apply DecimalPos.Unsigned.to_uint_nonnil in H.
Qed.

Lemma str_int_inj a b : str_int a = str_int b -> a = b.
Proof.
  intros H. apply (f_equal int_str) in H.
  rewrite !int_str_str_int in H. congruence.
Qed.

Section OrderRestoration.
Import Anthropic RunCoordinator.
Variable handle_response_model : option ResponseFormat -> Val -> gmap string Val.
Variable get_max_tokens : string -> Z.
Variable self : AnthropicBatchRequestProcessor.

#[local] Abbreviation build :=
  (create_api_specific_request_batch handle_response_model get_max_tokens self).
#[local] Abbreviation tagged :=
  (Anthropic.tagged handle_response_model get_max_tokens self).

#[local] Instance row_le_trans : Transitive (@row_le GenericRequest).
Proof. intros a b c. unfold row_le. lia. Qed.

#[local] Instance row_le_total : Total (@row_le GenericRequest).
Proof. intros a b. unfold row_le. lia. Qed.

Lemma row_of_tagged r : row_of (tagged r) = original_row_idx r.
Proof. unfold row_of, Anthropic.tagged; simpl. now rewrite int_str_str_int. Qed.

Lemma tagged_sorted (reqs : list GenericRequest) n :
  (forall i r, reqs !! i = Some r -> original_row_idx r = n + Z.of_nat i) ->
  Sorted row_le (tagged <$> reqs).
Proof.
  revert n. induction reqs as [|r reqs IH]; intros n Hidx; simpl.
  - constructor.
  - constructor.
    + apply (IH (n + 1)). intros i r' Hi.
      rewrite (Hidx (S i) r' Hi). lia.
    + destruct reqs as [|r' reqs']; simpl; constructor.
      unfold row_le. rewrite !row_of_tagged.
      rewrite (Hidx 0%nat r eq_refl), (Hidx 1%nat r' eq_refl). lia.
Qed.

(** C8.  The request built for the provider carries as [custom_id] the
    decimal string of the row index, from which the index reads back; so
    when the rows of an N-row input are numbered 0..N-1, sorting the
    collected results by that index puts the result of row i at position
    i, in whatever order the results came in. *)
Theorem custom_id_restores_order (reqs : list GenericRequest)
    (collected : list (string * GenericRequest)) :
  (forall i r, reqs !! i = Some r -> original_row_idx r = Z.of_nat i) ->
  collected ≡ₚ tagged <$> reqs ->
  (forall r, custom_id (build r) = str_int (original_row_idx r)
             /\ int_str (custom_id (build r)) = Some (original_row_idx r))
  /\ restore_order collected = tagged <$> reqs
  /\ (forall i r, reqs !! i = Some r ->
        snd <$> restore_order collected !! i = Some r).
Proof.
  intros Hidx Hperm.
  assert (Hrestore : restore_order collected = tagged <$> reqs).
  { unfold restore_order.
    apply (Sorted_unique_strong row_le).
    - intros x1 x2 Hx1 Hx2 H12 H21.
      rewrite merge_sort_Permutation, Hperm in Hx1.
      apply list_elem_of_fmap in Hx1 as (r1 & -> & Hr1).
      apply list_elem_of_fmap in Hx2 as (r2 & -> & Hr2).
      apply list_elem_of_lookup in Hr1 as (i1 & Hi1).
      apply list_elem_of_lookup in Hr2 as (i2 & Hi2).
      unfold row_le in H12, H21. rewrite !row_of_tagged in H12, H21.
      rewrite (Hidx _ _ Hi1), (Hidx _ _ Hi2) in H12, H21.
      assert (i1 = i2) by lia. subst i2. congruence.
    - apply Sorted_merge_sort, _.
    - apply (tagged_sorted reqs 0). intros i r Hi. rewrite (Hidx i r Hi). lia.
    - rewrite merge_sort_Permutation. exact Hperm. }
  split; [|split].
  - intros r. split; [reflexivity|]. simpl. apply int_str_str_int.
  - exact Hrestore.
  - intros i r Hi. rewrite Hrestore, list_lookup_fmap, Hi. reflexivity.
Qed.

End OrderRestoration.

Lemma custom_id_restores_order_witness :
  RunCoordinator.restore_order
    [ ("2"%string, Sample.request 2); ("0"%string, Sample.request 0);
      ("1"%string, Sample.request 1) ]
  = [ ("0"%string, Sample.request 0); ("1"%string, Sample.request 1);
      ("2"%string, Sample.request 2) ].
Proof.
  refine (proj1 (proj2 (custom_id_restores_order Sample.handle_response_model
            Sample.get_max_tokens (Sample.adapter "in_progress" true)
            [Sample.request 0; Sample.request 1; Sample.request 2]
            [ ("2"%string, Sample.request 2); ("0"%string, Sample.request 0);
              ("1"%string, Sample.request 1) ] _ _))).
  - intros [|[|[|i]]] r; simpl; intros [= <-]; reflexivity.
  - exact (Permutation_app_comm [("2"%string, Sample.request 2)]
             [("0"%string, Sample.request 0); ("1"%string, Sample.request 1)]).
Defined.

(** ** Strings *)

Lemma string_app_cons x a b : String x a +:+ b = String x (a +:+ b).
Proof. reflexivity. Qed.

Lemma string_app_nil_r a : a +:+ EmptyString = a.
Proof. induction a as [|x a IH]; [reflexivity|]. now rewrite string_app_cons, IH. Qed.

Lemma string_length_app a b :
  String.length (a +:+ b) = (String.length a + String.length b)%nat.
Proof.
  induction a as [|c a IH]; [reflexivity|].
  rewrite string_app_cons. simpl. now rewrite IH.
Qed.

Lemma string_app_assoc a b c : (a +:+ b) +:+ c = a +:+ (b +:+ c).
Proof.
  induction a as [|x a IH]; [reflexivity|].
  now rewrite !string_app_cons, IH.
Qed.

Lemma string_app_inv_tail a b s : a +:+ s = b +:+ s -> a = b.
Proof.
  intros H.
  assert (Hlen : String.length a = String.length b).
  { apply (f_equal String.length) in H. rewrite !string_length_app in H. lia. }
  revert b H Hlen. induction a as [|x a IH]; intros [|y b] H Hlen;
    simpl in Hlen; try discriminate; [reflexivity|].
  rewrite !string_app_cons in H.
  injection H as -> H. f_equal. apply IH; [exact H | lia].
Qed.

Lemma string_app_inv_head s a b : s +:+ a = s +:+ b -> a = b.
Proof. apply (inj (String.app s)). Qed.

Lemma join_cons_after sep x l : join sep (x :: l) = x +:+ join_after sep l.
Proof.
  revert x. induction l as [|y l IH]; intros x.
  - simpl. now rewrite string_app_nil_r.
  - change (join sep (x :: y :: l)) with (x +:+ sep +:+ join sep (y :: l)).
    rewrite IH. reflexivity.
Qed.

Lemma join_split sep l1 x l2 :
  join sep (l1 ++ x :: l2) = join_before sep l1 +:+ x +:+ join_after sep l2.
Proof.
  induction l1 as [|y l1 IH].
  - apply join_cons_after.
  - change ((y :: l1) ++ x :: l2) with (y :: (l1 ++ x :: l2)).
    destruct (l1 ++ x :: l2) as [|z t] eqn:E.
    { destruct l1; discriminate. }
    change (join sep (y :: z :: t)) with (y +:+ sep +:+ join sep (z :: t)).
    rewrite IH.
    change (join_before sep (y :: l1)) with (y +:+ sep +:+ join_before sep l1).
    now rewrite !string_app_assoc.
Qed.

Lemma join_length sep l :
  l <> [] ->
  (String.length (join sep l) + String.length sep
   = sum_list_with (fun s => String.length s + String.length sep) l)%nat.
Proof.
  induction l as [|x l IH]; [congruence|]. intros _.
  destruct l as [|y l].
  - simpl. lia.
  - change (join sep (x :: y :: l)) with (x +:+ sep +:+ join sep (y :: l)).
    rewrite !string_length_app.
    change (sum_list_with ?f (x :: y :: l)) with (f x + sum_list_with f (y :: l))%nat.
    rewrite <- IH by discriminate. lia.
Qed.

(** ** Generation parameters in the fingerprint of [LLM] *)

Lemma remove_none_insert_none (d : gmap string Val) k :
  (forall v, d !! k = Some v -> v = PyNone) ->
  LLM._remove_none_values (<[k := PyNone]> d) = LLM._remove_none_values d.
Proof.
  intros Hk. unfold LLM._remove_none_values.
  apply map_filter_insert_not'; simpl.
  - discriminate.
  - intros y Hy. rewrite (Hk y Hy). discriminate.
Qed.

Lemma remove_none_insert (d : gmap string Val) k v :
  v <> PyNone ->
  LLM._remove_none_values (<[k := v]> d) = <[k := v]> (LLM._remove_none_values d).
Proof.
  intros Hv. unfold LLM._remove_none_values.
  apply map_filter_insert_True; simpl. now destruct v.
Qed.

Lemma remove_none_lookup (d : gmap string Val) k v :
  LLM._remove_none_values d !! k = Some v <-> d !! k = Some v /\ v <> PyNone.
Proof.
  unfold LLM._remove_none_values. rewrite map_lookup_filter_Some. simpl.
  split; intros [H1 H2]; (split; [exact H1|]); destruct v; simpl in *; congruence.
Qed.

#[local] Instance item_le_trans : Transitive item_le.
Proof. intros a b c. unfold item_le. apply transitivity. Qed.

#[local] Instance item_le_total : Total item_le.
Proof. intros a b. unfold item_le. apply (total String.le). Qed.

Lemma sorted_items_perm (m : gmap string Val) : sorted_items m ≡ₚ map_to_list m.
Proof. apply merge_sort_Permutation. Qed.

Lemma sorted_items_sorted (m : gmap string Val) : Sorted item_le (sorted_items m).
Proof. apply Sorted_merge_sort, _. Qed.

(** The sorted items of a dict are the one list of its items in key order. *)
Lemma sorted_items_unique (m : gmap string Val) l :
  Sorted item_le l -> l ≡ₚ map_to_list m -> l = sorted_items m.
Proof.
  intros Hs Hp. apply (Sorted_unique_strong item_le).
  - intros [k1 v1] [k2 v2] H1 H2 H12 H21.
    rewrite Hp in H1. rewrite sorted_items_perm in H2.
    apply elem_of_map_to_list in H1, H2.
    unfold item_le in H12, H21; simpl in *.
    assert (k1 = k2) by (apply (anti_symm String.le); assumption).
    subst. congruence.
  - exact Hs.
  - apply sorted_items_sorted.
  - now rewrite sorted_items_perm.
Qed.

Lemma sorted_items_nil (m : gmap string Val) : sorted_items m = [] <-> m = ∅.
Proof.
  rewrite <- map_to_list_empty_iff. split; intros H.
  - apply Permutation_nil_r. now rewrite <- sorted_items_perm, H.
  - apply Permutation_nil_r. now rewrite sorted_items_perm, H.
Qed.

Lemma repr_seq_length opn cls items :
  String.length (repr_seq opn cls items)
  = (String.length opn + String.length (join ", " items) + String.length cls)%nat.
Proof. unfold repr_seq. rewrite !string_length_app. lia. Qed.

(** A further item makes the rendering of the sorted items longer. *)
Lemma str_sorted_items_insert_longer (m : gmap string Val) k v :
  m !! k = None -> m <> ∅ ->
  (String.length (str_sorted_items m) < String.length (str_sorted_items (<[k := v]> m)))%nat.
Proof.
  intros Hk Hm. unfold str_sorted_items. rewrite !repr_seq_length.
  assert (H1 : List.map repr_item (sorted_items m) <> []).
  { intros E. apply map_eq_nil in E. now apply sorted_items_nil in E. }
  assert (H2 : List.map repr_item (sorted_items (<[k := v]> m)) <> []).
  { intros E. apply map_eq_nil in E. apply sorted_items_nil in E.
    now apply insert_non_empty in E. }
  pose proof (join_length ", " _ H1) as L1.
  pose proof (join_length ", " _ H2) as L2.
  assert (P : List.map repr_item (sorted_items (<[k := v]> m))
              ≡ₚ repr_item (k, v) :: List.map repr_item (sorted_items m)).
  { change (repr_item (k, v) :: List.map repr_item (sorted_items m))
      with (List.map repr_item ((k, v) :: sorted_items m)).
    apply Permutation_map.
    rewrite !sorted_items_perm. now apply map_to_list_insert. }
  assert (Hsum : sum_list_with (fun s => (String.length s + String.length ", ")%nat)
                (List.map repr_item (sorted_items (<[k := v]> m)))
              = sum_list_with (fun s => (String.length s + String.length ", ")%nat)
                  (repr_item (k, v) :: List.map repr_item (sorted_items m))).
  { now rewrite P. }
  rewrite Hsum in L2.
  change (sum_list_with ?f (?x :: ?l)) with (f x + sum_list_with f l)%nat in L2.
  cbv beta in L2.
  change (String.length "[") with 1%nat.
  change (String.length "]") with 1%nat.
  change (String.length ", ") with 2%nat in L1, L2.
  lia.
Qed.

Lemma repr_item_inj_value k v v' : repr_item (k, v) = repr_item (k, v') -> repr v = repr v'.
Proof.
  unfold repr_item; simpl. intros H.
  do 3 apply string_app_inv_head in H.
  now apply string_app_inv_tail in H.
Qed.

(** Another value under a key changes the rendering of the sorted items. *)
Lemma str_sorted_items_insert_changed (m : gmap string Val) k v0 v :
  m !! k = Some v0 -> repr v0 <> repr v ->
  str_sorted_items (<[k := v]> m) <> str_sorted_items m.
Proof.
  intros Hk Hrepr.
  assert (Hin : (k, v0) ∈ sorted_items m).
  { rewrite sorted_items_perm. now apply elem_of_map_to_list. }
  apply list_elem_of_split in Hin as (l1 & l2 & Hsplit).
  assert (Hnew : sorted_items (<[k := v]> m) = l1 ++ (k, v) :: l2).
  { symmetry. apply sorted_items_unique.
    - pose proof (sorted_items_sorted m) as Hs. rewrite Hsplit in Hs.
      pose (f := fun kv : string * Val => if decide (kv.1 = k) then (k, v) else kv).
      assert (Hnodup : NoDup ((l1 ++ (k, v0) :: l2).*1)).
      { rewrite <- Hsplit. rewrite sorted_items_perm.
        apply NoDup_fst_map_to_list. }
      rewrite fmap_app in Hnodup. simpl in Hnodup.
      apply NoDup_app in Hnodup as (_ & Hdisj & Hnd2).
      apply NoDup_cons in Hnd2 as [Hk2 _].
      assert (E1 : f <$> l1 = l1).
      { rewrite <- (list_fmap_id l1) at 2. apply list_fmap_ext.
        intros i [k' x] Hi. unfold f; simpl.
        destruct (decide (k' = k)) as [->|]; [|reflexivity].
        exfalso. apply (Hdisj k).
        - apply list_elem_of_fmap. exists (k, x). split; [reflexivity|].
          eapply list_elem_of_lookup_2; eassumption.
        - left. }
      assert (E2 : f <$> l2 = l2).
      { rewrite <- (list_fmap_id l2) at 2. apply list_fmap_ext.
        intros i [k' x] Hi. unfold f; simpl.
        destruct (decide (k' = k)) as [->|]; [|reflexivity].
        exfalso. apply Hk2.
        apply list_elem_of_fmap. exists (k, x). split; [reflexivity|].
        eapply list_elem_of_lookup_2; eassumption. }
      apply (Sorted_fmap f item_le item_le) in Hs.
      + rewrite fmap_app, fmap_cons, E1, E2 in Hs.
        unfold f in Hs at 1; simpl in Hs.
        now rewrite decide_True in Hs by reflexivity.
      + intros [k1 x1] [k2 x2]. unfold item_le, f; simpl.
        repeat case_decide; simpl; subst; auto.
    - rewrite <- (insert_delete_id m k v0 Hk) at 1.
      rewrite insert_insert_eq.
      rewrite map_to_list_insert by apply lookup_delete_eq.
      rewrite <- Permutation_middle. apply perm_skip.
      apply (Permutation_cons_inv (a := (k, v0))).
      rewrite Permutation_middle, <- Hsplit, sorted_items_perm.
      rewrite <- (insert_delete_id m k v0 Hk) at 1.
      now rewrite map_to_list_insert by apply lookup_delete_eq. }
  unfold str_sorted_items, repr_seq. rewrite Hnew, Hsplit.
  rewrite !map_app. simpl. rewrite !join_split.
  intros H. apply Hrepr. symmetry.
  apply string_app_inv_head in H. apply string_app_inv_tail in H.
  apply string_app_inv_head in H. apply string_app_inv_tail in H.
  now apply repr_item_inj_value in H.
Qed.

Section LLMFingerprint.
Variable dumps : Function -> list byte.
Variable create :
  option (gmap string Val) -> string -> bool -> option ResponseFormat ->
  option string -> gmap string Val -> LLM.RequestProcessor.
Variables (model_name : string) (prompt_func parse_func : option Function)
  (response_format : option ResponseFormat) (batch : bool) (backend : option string)
  (backend_params : option (gmap string Val)).

(** The [LLM] constructed with generation parameters [d], everything else
    fixed. *)
#[local] Abbreviation llm_of d :=
  (LLM.__init__ create model_name prompt_func parse_func response_format batch
     backend (Some d) backend_params).
#[local] Abbreviation backend_of d :=
  (LLM.backend (create backend_params model_name batch response_format backend d)).

Lemma fingerprint_str_of d dataset_hash :
  LLM.fingerprint_str dumps (llm_of d) dataset_hash
  = let base :=
      join "_" [ dataset_hash; LLM._get_function_hash dumps prompt_func; model_name;
                 match response_format with
                 | Some fmt => model_json_schema_str fmt
                 | None => "text"%string
                 end;
                 str_bool batch; backend_of d ] in
    if bool_decide (LLM._remove_none_values d = ∅) then base
    else base +:+ "_" +:+ str_sorted_items (LLM._remove_none_values d).
Proof. reflexivity. Qed.

(** C10.  With the cache enabled and everything else fixed, the backend
    included, an [LLM] built with [d] extended by [(k, None)] has the
    fingerprint of the one built with [d]: the entry is stripped by
    [_remove_none_values] before the parameters reach the fingerprint.
    ([k] is a new key, or one already bound to [None].) *)
Theorem none_valued_param_same_fingerprint d k dataset_hash w :
  (forall v, d !! k = Some v -> v = PyNone) ->
  backend_of (<[k := PyNone]> d) = backend_of d ->
  LLM._hash_fingerprint dumps (llm_of (<[k := PyNone]> d)) dataset_hash false w
  = LLM._hash_fingerprint dumps (llm_of d) dataset_hash false w.
Proof.
  intros Hk Hb. unfold LLM._hash_fingerprint.
  rewrite !fingerprint_str_of. cbv zeta.
  now rewrite (remove_none_insert_none d k Hk), Hb.
Qed.

(** In [LLM], with the cache enabled and everything else fixed, the backend
    included: binding a key to a value that is not [None] changes the string
    that is hashed into the fingerprint, when the key was unbound (or bound
    to [None]) and when it was bound to a value with another [repr].  The
    fingerprint is the xxh64 digest of that string. *)
Lemma param_changes_fingerprint_str d k v dataset_hash w :
  v <> PyNone ->
  (forall v0, d !! k = Some v0 -> v0 <> PyNone -> repr v0 <> repr v) ->
  backend_of (<[k := v]> d) = backend_of d ->
  LLM.fingerprint_str dumps (llm_of (<[k := v]> d)) dataset_hash
  <> LLM.fingerprint_str dumps (llm_of d) dataset_hash
  /\ fst (LLM._hash_fingerprint dumps (llm_of (<[k := v]> d)) dataset_hash false w)
     = Return (XXH64.hexdigest
                 (LLM.fingerprint_str dumps (llm_of (<[k := v]> d)) dataset_hash))
  /\ fst (LLM._hash_fingerprint dumps (llm_of d) dataset_hash false w)
     = Return (XXH64.hexdigest (LLM.fingerprint_str dumps (llm_of d) dataset_hash)).
Proof.
  intros Hv Hold Hb. split; [|split; reflexivity].
  rewrite !fingerprint_str_of. cbv zeta. rewrite Hb.
  rewrite (remove_none_insert d k v Hv).
  set (m := LLM._remove_none_values d).
  set (base := join "_" _).
  rewrite (bool_decide_eq_false_2 (<[k := v]> m = ∅)) by apply insert_non_empty.
  destruct (m !! k) as [v0|] eqn:Hmk.
  - apply remove_none_lookup in Hmk as [Hdk Hv0].
    assert (Hm : m <> ∅).
    { intros E. assert (H : m !! k = Some v0) by (apply remove_none_lookup; auto).
      rewrite E in H. now rewrite lookup_empty in H. }
    rewrite (bool_decide_eq_false_2 _ Hm).
    intros H. do 2 apply string_app_inv_head in H.
    refine (str_sorted_items_insert_changed m k v0 v _ _ H).
    + apply remove_none_lookup; auto.
    + now apply Hold.
  - case_bool_decide as Hm.
    + intros H. apply (f_equal String.length) in H.
      rewrite !string_length_app in H. simpl in H. lia.
    + intros H. do 2 apply string_app_inv_head in H.
      pose proof (str_sorted_items_insert_longer m k v Hmk Hm) as Hlt.
      rewrite H in Hlt. lia.
Qed.

End LLMFingerprint.

Lemma none_valued_param_same_fingerprint_witness :
  LLM._hash_fingerprint Sample.dumps_by_value
    (Sample.new_llm false None (Some (<["top_p"%string := PyNone]>
                                        {[ "temperature"%string := PyFloat "0.7" ]})))
    "a3f1c2d4e5b60718" false Sample.world
  = LLM._hash_fingerprint Sample.dumps_by_value
      (Sample.new_llm false None (Some {[ "temperature"%string := PyFloat "0.7" ]}))
      "a3f1c2d4e5b60718" false Sample.world.
Proof.
  apply (none_valued_param_same_fingerprint Sample.dumps_by_value Sample.create
           "gpt-4o-mini" (Some Sample.prompt_func) None None false None None
           {[ "temperature"%string := PyFloat "0.7" ]} "top_p").
  - intros v Hv. vm_compute in Hv. discriminate.
  - reflexivity.
Defined.

Lemma param_changes_fingerprint_str_witness :
  LLM.fingerprint_str Sample.dumps_by_value
    (Sample.new_llm false None (Some (<["temperature"%string := PyFloat "0.7"]>
                                        {[ "temperature"%string := PyFloat "0.2" ]})))
    "a3f1c2d4e5b60718"
  <> LLM.fingerprint_str Sample.dumps_by_value
       (Sample.new_llm false None (Some {[ "temperature"%string := PyFloat "0.2" ]}))
       "a3f1c2d4e5b60718".
Proof.
  refine (proj1 (param_changes_fingerprint_str Sample.dumps_by_value Sample.create
            "gpt-4o-mini" (Some Sample.prompt_func) None None false None None
            {[ "temperature"%string := PyFloat "0.2" ]} "temperature" (PyFloat "0.7")
            "a3f1c2d4e5b60718" Sample.world _ _ _)).
  - discriminate.
  - intros v0 Hv0 _. vm_compute in Hv0. injection Hv0 as <-. vm_compute. discriminate.
  - reflexivity.
Defined.

(** ** The run coordinator of [LLM] *)

Section RunFacts.
Variable dumps : Function -> list byte.
Variable getsource : Function -> Result string.
Variable from_generator : string -> Dataset.
Variable processor_result : LLM.RequestProcessor -> ProcessorCall -> Result Dataset.

#[local] Abbreviation run :=
  (LLM.__call__ dumps getsource from_generator processor_result).

(** Computing the fingerprint always returns, and touches neither the
    metadata store nor the request processor. *)
Lemma hash_fingerprint_returns self dataset_hash disable_cache w :
  exists fingerprint w1,
    LLM._hash_fingerprint dumps self dataset_hash disable_cache w
    = (Return fingerprint, w1)
    /\ metadata_db w1 = metadata_db w
    /\ processor_calls w1 = processor_calls w
    /\ now_isoformat w1 = now_isoformat w.
Proof.
  unfold LLM._hash_fingerprint. destruct disable_cache.
  - do 2 eexists. split; [reflexivity|]. simpl. auto.
  - do 2 eexists. split; [reflexivity|]. simpl. auto.
Qed.

(** C5, amended.  A run with [batch_cancel] first computes the fingerprint
    and stores the metadata record of the run, and only then looks at the
    processor: on a processor that is not a batch processor it raises
    [ValueError] without any call to the processor; on an
    [OpenAIBatchRequestProcessor] it calls [cancel_batches] on the run's
    directory and no such error is raised.  (The sources of the prompt and
    parse functions are taken to be readable.) *)
Theorem batch_cancel_check_follows_metadata self dataset working_dir w f src psrc :
  LLM.prompt_func (LLM.prompt_formatter self) = Some f ->
  LLM._get_function_source getsource f = Return src ->
  match LLM.parse_func (LLM.prompt_formatter self) with
  | Some g => LLM._get_function_source getsource g = Return psrc
  | None => psrc = EmptyString
  end ->
  let cache_dir := LLM.curator_cache_dir w working_dir in
  let processor := LLM._request_processor self in
  exists fingerprint record,
    md_run_hash record = fingerprint
    /\ metadata_db (snd (run self dataset working_dir true w))
       = metadata_db w ++ [(path_join cache_dir "metadata.db", record)]
    /\ (LLM.is_batch_processor (LLM.processor_class processor) = false ->
        fst (run self dataset working_dir true w)
        = Raise (ValueError "batch_cancel can only be used with batch mode")
        /\ processor_calls (snd (run self dataset working_dir true w))
           = processor_calls w)
    /\ (LLM.processor_class processor = LLM.OpenAIBatchRequestProcessor ->
        fst (run self dataset working_dir true w)
        = processor_result processor
            (CallCancelBatches (path_join cache_dir fingerprint))
        /\ processor_calls (snd (run self dataset working_dir true w))
           = processor_calls w
             ++ [CallCancelBatches (path_join cache_dir fingerprint)]).
Proof.
  intros Hf Hsrc Hpsrc cache_dir processor.
  unfold LLM.__call__, bind, get, lift, ret, store_metadata, call_processor, modify.
  match goal with
  | |- context [LLM._hash_fingerprint dumps self ?dh ?dc w] =>
      destruct (hash_fingerprint_returns self dh dc w)
        as (fingerprint & w1 & -> & Hdb & Hcalls & Hnow)
  end.
  rewrite Hf, Hsrc.
  fold processor. fold cache_dir.
  destruct (LLM.parse_func (LLM.prompt_formatter self)) as [g|];
    [rewrite Hpsrc|];
    destruct (LLM.processor_class processor) eqn:Hclass; simpl;
    rewrite ?Hdb, ?Hcalls;
    (eexists fingerprint, _; refine (conj _ (conj _ _)); cycle 1;
     [ reflexivity
     | split; intros H; try discriminate H; split; reflexivity
     | reflexivity ]).
Qed.

End RunFacts.

Lemma batch_cancel_check_follows_metadata_witness :
  fst (Sample.llm_run (Sample.new_llm true None None) true Sample.world)
  = Return Sample.dataset
  /\ fst (Sample.llm_run (Sample.new_llm false None None) true Sample.world)
     = Raise (ValueError "batch_cancel can only be used with batch mode").
Proof.
  split.
  - destruct (batch_cancel_check_follows_metadata Sample.dumps_by_value
                Sample.getsource Sample.from_generator Sample.llm_processor_result
                (Sample.new_llm true None None) (Some (IsDataset Sample.dataset)) None
                Sample.world Sample.prompt_func "lambda row: row['prompt']" EmptyString
                eq_refl eq_refl eq_refl) as (fp & record & _ & _ & _ & Hbatch).
    exact (proj1 (Hbatch eq_refl)).
  - destruct (batch_cancel_check_follows_metadata Sample.dumps_by_value
                Sample.getsource Sample.from_generator Sample.llm_processor_result
                (Sample.new_llm false None None) (Some (IsDataset Sample.dataset)) None
                Sample.world Sample.prompt_func "lambda row: row['prompt']" EmptyString
                eq_refl eq_refl eq_refl) as (fp & record & _ & _ & Honline & _).
    exact (proj1 (Honline eq_refl)).
Defined.

(** C5, as stated, fails: with an online processor the run with
    [batch_cancel] ends in [ValueError] only after the metadata record of the
    run has been written to the store. *)
Lemma batch_cancel_error_after_metadata :
  fst (Sample.llm_run (Sample.new_llm false None None) true Sample.world)
  = Raise (ValueError "batch_cancel can only be used with batch mode")
  /\ metadata_db Sample.world = []
  /\ metadata_db (snd (Sample.llm_run (Sample.new_llm false None None) true Sample.world))
     = [ ("/home/u/.cache/curator/metadata.db"%string,
          {| md_timestamp := "2024-12-24T10:00:00";
             md_dataset_hash := "a3f1c2d4e5b60718";
             md_prompt_func := "lambda row: row['prompt']";
             md_parse_func := EmptyString;
             md_model_name := "gpt-4o-mini";
             md_response_format := "text";
             md_run_hash := "98775476d2d84ec1";
             md_batch_mode := false |}) ].
Proof. vm_compute. repeat split; reflexivity. Qed.

(** The check is for the OpenAI batch processor alone: an [LLM] in batch
    mode on the Anthropic backend meets the same [ValueError]. *)
Lemma batch_cancel_anthropic_batch :
  LLM.is_batch_processor
    (LLM.processor_class
       (LLM._request_processor (Sample.new_llm true (Some "anthropic"%string) None)))
  = true
  /\ fst (Sample.llm_run (Sample.new_llm true (Some "anthropic"%string) None) true
            Sample.world)
     = Raise (ValueError "batch_cancel can only be used with batch mode").
Proof. vm_compute. split; reflexivity. Qed.

(** ** The function hash and the fingerprint of [Prompter] *)

Section PrompterHash.
Variable py_sorted : list Val -> Result (list Val).
Variable dumps : Function -> list byte.
Variable getsource : Function -> Result string.
Variable check_structured_output_support : string -> bool.
Variable from_generator : string -> Dataset.
Variable processor_result :
  Prompter.RequestProcessor -> ProcessorCall -> Result Dataset.

Lemma prompter_function_hash_of f :
  Prompter._get_function_hash py_sorted dumps (Some f)
  = match standardize_consts py_sorted (co_consts (__code__ f)) with
    | Return _ => Raise (TypeError "'bytes' object cannot be interpreted as an integer")
    | Raise e => Raise e
    end.
Proof.
  unfold Prompter._get_function_hash, standardized_function, standardized_code.
  destruct (standardize_consts py_sorted (co_consts (__code__ f))); reflexivity.
Qed.

Lemma prompter_function_hash_never_returns f :
  exists e, Prompter._get_function_hash py_sorted dumps (Some f) = Raise e.
Proof.
  rewrite prompter_function_hash_of.
  destruct (standardize_consts py_sorted (co_consts (__code__ f))); eauto.
Qed.

(** A run stops at the hash of its prompt function, with the world as it
    found it. *)
Lemma completions_stops self request_processor dataset working_dir w f e :
  Prompter.prompt_func (Prompter.prompt_formatter self) = Some f ->
  Prompter._get_function_hash py_sorted dumps (Some f) = Raise e ->
  Prompter._completions py_sorted dumps getsource from_generator processor_result
    self request_processor dataset working_dir w
  = (Raise e, w).
Proof.
  intros Hf He. unfold Prompter._completions, bind, get, lift.
  cbv zeta. rewrite Hf, He. reflexivity.
Qed.

(** C2.  [_get_function_hash] of prompter.py builds the standardized code
    object by a call of [types.CodeType] that hands the constructor the
    string "1" and the line table where it expects the qualified name and
    the first line number, so the call raises [TypeError]: for a function
    the hash is never returned, whatever the pickler and wherever the
    function is defined.  What is raised is the error of [sorted] on a
    constant, when there is one, and the [TypeError] of the constructor
    otherwise, as for the function [lambda row: row["prompt"]]. *)
Theorem prompter_function_hash_raises f :
  match Prompter._get_function_hash py_sorted dumps (Some f) with
  | Return _ => False
  | Raise e =>
      standardize_consts py_sorted (co_consts (__code__ f)) = Raise e
      \/ (returned (standardize_consts py_sorted (co_consts (__code__ f)))
          /\ e = TypeError "'bytes' object cannot be interpreted as an integer")
  end
  /\ Prompter._get_function_hash Sample.sorted_in_order dumps (Some Sample.prompt_func)
     = Raise (TypeError "'bytes' object cannot be interpreted as an integer").
Proof.
  split; [|reflexivity].
  rewrite prompter_function_hash_of.
  destruct (standardize_consts py_sorted (co_consts (__code__ f))).
  - right. split; [exact I | reflexivity].
  - now left.
Qed.

Lemma determine_backend_result model_name response_format w :
  exists b w1,
    Prompter._determine_backend check_structured_output_support model_name
      response_format w = (Return b, w1)
    /\ (b = "openai"%string \/ b = "litellm"%string).
Proof.
  unfold Prompter._determine_backend, bind, ret, logger, modify.
  destruct (_ && _).
  - do 2 eexists. split; [reflexivity | now left].
  - destruct (_ && _).
    + do 2 eexists. split; [reflexivity | now left].
    + do 2 eexists. split; [reflexivity | now right].
Qed.

(** What [__init__] returns holds the prompt formatter and the batch flag as
    given and the backend that was given or determined; the generation
    arguments are in its request processor only. *)
Lemma init_returned model_name prompt_func parse_func response_format backend
    batch batch_size temperature top_p presence_penalty frequency_penalty
    delete_successful_batch_files delete_failed_batch_files w p :
  fst (Prompter.__init__ check_structured_output_support model_name prompt_func
         parse_func response_format backend batch batch_size temperature top_p
         presence_penalty frequency_penalty delete_successful_batch_files
         delete_failed_batch_files w) = Return p ->
  Prompter.prompt_formatter p
  = Prompter.Build_PromptFormatter model_name (Some prompt_func) parse_func
      response_format
  /\ Prompter.batch_mode p = batch
  /\ Return (Prompter.backend p)
     = match backend with
       | Some b => Return b
       | None =>
           fst (Prompter._determine_backend check_structured_output_support
                  model_name response_format w)
       end.
Proof.
  unfold Prompter.__init__.
  unfold bind at 1. destruct (1 <? signature_parameters prompt_func);
    [discriminate|].
  cbn [ret]. unfold bind at 1.
  destruct (match parse_func with
            | Some pf =>
                if negb (signature_parameters pf =? 2)
                then raise (ValueError ("parse_func must take exactly 2 arguments, got "
                                        +:+ str_int (signature_parameters pf)))
                else ret tt
            | None => ret tt
            end w) as [[[]|e] w0] eqn:E2; [|discriminate].
  assert (Hw : w0 = w).
  { destruct parse_func as [pf|]; [|now injection E2].
    destruct (negb _); [discriminate | now injection E2]. }
  subst w0. unfold bind at 1.
  destruct backend as [b|].
  - cbn [ret].
    destruct (String.eqb_spec b "openai") as [->|N1].
    + destruct batch; [destruct batch_size|destruct batch_size]; cbn;
        intros [= <-]; repeat split.
    + destruct (String.eqb_spec b "litellm") as [->|N2].
      * destruct batch; cbn; intros [= <-]; repeat split.
      * cbn. discriminate.
  - destruct (determine_backend_result model_name response_format w)
      as (b & w1 & -> & [-> | ->]).
    + destruct batch; [destruct batch_size|destruct batch_size]; cbn;
        intros [= <-]; repeat split.
    + destruct batch; cbn; intros [= <-]; repeat split.
Qed.

(** C3.  The string [Prompter._completions] hashes (lines 237-250) is made
    of the dataset hash, the prompt-function hash, the model name, the
    schema, the batch mode and the backend: [temperature], [top_p],
    [presence_penalty] and [frequency_penalty] go to the request processor
    and to nothing else.  So two prompters built from the same arguments but
    for these four have the same string to hash, for every dataset and
    function hash, and their runs end the same way (in the error of the
    function hash, before any fingerprint is made). *)
Theorem prompter_fingerprint_has_no_params model_name prompt_func parse_func
    response_format backend batch batch_size
    temperature top_p presence_penalty frequency_penalty
    temperature' top_p' presence_penalty' frequency_penalty'
    delete_successful_batch_files delete_failed_batch_files w p p' :
  fst (Prompter.__init__ check_structured_output_support model_name prompt_func
         parse_func response_format backend batch batch_size temperature top_p
         presence_penalty frequency_penalty delete_successful_batch_files
         delete_failed_batch_files w) = Return p ->
  fst (Prompter.__init__ check_structured_output_support model_name prompt_func
         parse_func response_format backend batch batch_size temperature' top_p'
         presence_penalty' frequency_penalty' delete_successful_batch_files
         delete_failed_batch_files w) = Return p' ->
  (forall dataset_hash prompt_func_hash,
      Prompter.fingerprint_str p dataset_hash prompt_func_hash
      = Prompter.fingerprint_str p' dataset_hash prompt_func_hash)
  /\ (forall dataset working_dir w1,
      Prompter.__call__ py_sorted dumps getsource from_generator processor_result
        p dataset working_dir w1
      = Prompter.__call__ py_sorted dumps getsource from_generator processor_result
          p' dataset working_dir w1
      /\ exists e,
          Prompter.__call__ py_sorted dumps getsource from_generator
            processor_result p dataset working_dir w1 = (Raise e, w1)).
Proof.
  intros Hp Hp'.
  destruct (init_returned _ _ _ _ _ _ _ _ _ _ _ _ _ _ _ Hp) as (Hf & Hm & Hb).
  destruct (init_returned _ _ _ _ _ _ _ _ _ _ _ _ _ _ _ Hp') as (Hf' & Hm' & Hb').
  assert (Hbb : Prompter.backend p = Prompter.backend p').
  { rewrite <- Hb' in Hb. now injection Hb. }
  split.
  - intros dataset_hash h. unfold Prompter.fingerprint_str.
    now rewrite Hf, Hf', Hm, Hm', Hbb.
  - intros dataset working_dir w1. unfold Prompter.__call__.
    destruct (prompter_function_hash_never_returns prompt_func) as [e He].
    rewrite (completions_stops p _ dataset working_dir w1 prompt_func e),
      (completions_stops p' _ dataset working_dir w1 prompt_func e);
      try assumption; try (now rewrite Hf); try (now rewrite Hf').
    split; [reflexivity | eauto].
Qed.

End PrompterHash.

Lemma prompter_fingerprint_has_no_params_witness :
  fst (Sample.prompter_run PyNone Sample.world)
  = fst (Sample.prompter_run (PyFloat "0.7") Sample.world)
  /\ processor_calls (snd (Sample.prompter_run (PyFloat "0.7") Sample.world)) = [].
Proof.
  destruct (Prompter.__init__ Sample.check_structured_output_support "gpt-4o-mini"
              Sample.prompt_func None None (Some "openai"%string) false None PyNone
              PyNone PyNone PyNone true false Sample.world) as [r w] eqn:E.
  destruct (Prompter.__init__ Sample.check_structured_output_support "gpt-4o-mini"
              Sample.prompt_func None None (Some "openai"%string) false None
              (PyFloat "0.7") PyNone PyNone PyNone true false Sample.world)
    as [r' w'] eqn:E'.
  vm_compute in E, E'. injection E as <- <-. injection E' as <- <-.
  destruct (prompter_fingerprint_has_no_params Sample.sorted_in_order
              Sample.dumps_by_value Sample.getsource
              Sample.check_structured_output_support Sample.from_generator
              Sample.prompter_processor_result "gpt-4o-mini" Sample.prompt_func None
              None (Some "openai"%string) false None PyNone PyNone PyNone PyNone
              (PyFloat "0.7") PyNone PyNone PyNone true false Sample.world
              _ _ eq_refl eq_refl) as [_ Hrun].
  destruct (Hrun (Some (IsDataset Sample.dataset)) None Sample.world)
    as (Hsame & e & He).
  split.
  - unfold Sample.prompter_run, Py.bind. cbn. exact (f_equal fst Hsame).
  - reflexivity.
Defined.

(** ** xxh64 on eight bytes *)

Section XXH64Facts.
Import XXH64.

Lemma MASK64_pos : 0 < MASK64.
Proof. reflexivity. Qed.

Lemma wrap_in64 x : in64 (wrap x).
Proof. apply Z.mod_pos_bound, MASK64_pos. Qed.

Lemma wrap_small x : in64 x -> wrap x = x.
Proof. apply Z.mod_small. Qed.

(** Multiplication by an odd constant is invertible modulo 2^64. *)
Lemma mul64_inj p q x y :
  wrap (p * q) = 1 -> in64 x -> in64 y -> mul64 x p = mul64 y p -> x = y.
Proof.
  intros Hpq Hx Hy H.
  assert (Hback : forall t, in64 t -> wrap (mul64 t p * q) = t).
  { intros t Ht. unfold mul64, wrap.
    rewrite Z.mul_mod_idemp_l by discriminate.
    rewrite <- Z.mul_assoc, <- Z.mul_mod_idemp_r by discriminate.
    fold (wrap (p * q)). rewrite Hpq, Z.mul_1_r. now apply Z.mod_small. }
  rewrite <- (Hback x Hx), <- (Hback y Hy). now rewrite H.
Qed.

Lemma add64_inj c x y : in64 x -> in64 y -> add64 x c = add64 y c -> x = y.
Proof.
  intros Hx Hy H.
  assert (Hback : forall t, in64 t -> wrap (add64 t c - c) = t).
  { intros t Ht. unfold add64, wrap.
    rewrite Zminus_mod_idemp_l. replace (t + c - c) with t by lia.
    now apply Z.mod_small. }
  rewrite <- (Hback x Hx), <- (Hback y Hy). now rewrite H.
Qed.

Lemma testbit_in64_high x i : in64 x -> 64 <= i -> Z.testbit x i = false.
Proof.
  intros Hx Hi. rewrite <- (wrap_small x Hx). unfold wrap, MASK64.
  apply Z.mod_pow2_bits_high. lia.
Qed.

Lemma in64_of_bits x :
  0 <= x -> (forall i, 64 <= i -> Z.testbit x i = false) -> in64 x.
Proof.
  intros Hx Hbits.
  assert (E : wrap x = x).
  { apply Z.bits_inj'. intros i Hi. unfold wrap, MASK64.
    destruct (Z.lt_ge_cases i 64) as [Hlt|Hge].
    - apply Z.mod_pow2_bits_low. lia.
    - rewrite Z.mod_pow2_bits_high by lia. symmetry. now apply Hbits. }
  rewrite <- E. apply wrap_in64.
Qed.

Lemma in64_bits_inj x y :
  in64 x -> in64 y ->
  (forall i, 0 <= i < 64 -> Z.testbit x i = Z.testbit y i) -> x = y.
Proof.
  intros Hx Hy H. apply Z.bits_inj'. intros i Hi.
  destruct (Z.lt_ge_cases i 64) as [Hlt|Hge].
  - apply H. lia.
  - now rewrite !testbit_in64_high.
Qed.

Lemma rotl_testbit x r i :
  in64 x -> 0 < r < 64 -> 0 <= i < 64 ->
  Z.testbit (rotl x r) i
  = if i <? r then Z.testbit x (i + 64 - r) else Z.testbit x (i - r).
Proof.
  intros Hx Hr Hi. unfold rotl, wrap, MASK64.
  rewrite Z.mod_pow2_bits_low by lia.
  rewrite Z.lor_spec, Z.shiftl_spec, Z.shiftr_spec by lia.
  destruct (Z.ltb_spec i r).
  - rewrite (Z.testbit_neg_r x (i - r)) by lia. simpl. f_equal. lia.
  - rewrite (testbit_in64_high x (i + (64 - r))) by (auto; lia).
    now rewrite orb_false_r.
Qed.

Lemma rotl_inj x y r :
  in64 x -> in64 y -> 0 < r < 64 -> rotl x r = rotl y r -> x = y.
Proof.
  intros Hx Hy Hr H. apply in64_bits_inj; auto. intros j Hj.
  destruct (Z.lt_ge_cases j (64 - r)) as [Hlt|Hge].
  - pose proof (rotl_testbit x r (j + r) Hx Hr ltac:(lia)) as Ex.
    pose proof (rotl_testbit y r (j + r) Hy Hr ltac:(lia)) as Ey.
    rewrite H in Ex. rewrite Ex in Ey.
    destruct (Z.ltb_spec (j + r) r); [lia|].
    now replace (j + r - r) with j in Ey by lia.
  - pose proof (rotl_testbit x r (j - (64 - r)) Hx Hr ltac:(lia)) as Ex.
    pose proof (rotl_testbit y r (j - (64 - r)) Hy Hr ltac:(lia)) as Ey.
    rewrite H in Ex. rewrite Ex in Ey.
    destruct (Z.ltb_spec (j - (64 - r)) r); [|lia].
    now replace (j - (64 - r) + 64 - r) with j in Ey by lia.
Qed.

Lemma lxor_in64 a b : in64 a -> in64 b -> in64 (Z.lxor a b).
Proof.
  intros Ha Hb. apply in64_of_bits.
  - apply Z.lxor_nonneg. unfold in64 in *. lia.
  - intros i Hi. now rewrite Z.lxor_spec, !testbit_in64_high.
Qed.

Lemma shiftr_in64 x s : 0 <= s -> in64 x -> in64 (Z.shiftr x s).
Proof.
  intros Hs Hx. apply in64_of_bits.
  - apply Z.shiftr_nonneg. unfold in64 in Hx. lia.
  - intros i Hi. rewrite Z.shiftr_spec by lia. apply testbit_in64_high; auto. lia.
Qed.

Lemma lxor_inj_l c x y : Z.lxor c x = Z.lxor c y -> x = y.
Proof.
  intros H. apply (f_equal (Z.lxor c)) in H.
  now rewrite <- !Z.lxor_assoc, Z.lxor_nilpotent, !Z.lxor_0_l in H.
Qed.

(** [h ^= h >> s] is invertible on 64-bit words. *)
Lemma xorshift_inj s x y :
  0 < s -> in64 x -> in64 y ->
  Z.lxor x (Z.shiftr x s) = Z.lxor y (Z.shiftr y s) -> x = y.
Proof.
  intros Hs Hx Hy H.
  assert (Hbits : forall n : nat, forall i,
             64 - Z.of_nat n <= i -> Z.testbit x i = Z.testbit y i).
  { induction n as [|n IH]; intros i Hi.
    - rewrite !testbit_in64_high; auto; lia.
    - destruct (Z.lt_ge_cases i 0) as [Hneg|Hpos].
      { now rewrite !Z.testbit_neg_r. }
      pose proof (f_equal (fun t => Z.testbit t i) H) as Hi'. simpl in Hi'.
      rewrite !Z.lxor_spec, !Z.shiftr_spec in Hi' by lia.
      rewrite (IH (i + s)) in Hi' by lia.
      destruct (Z.testbit x i), (Z.testbit y i), (Z.testbit y (i + s));
        simpl in Hi'; congruence. }
  apply in64_bits_inj; auto. intros i Hi. apply (Hbits 64%nat). lia.
Qed.

Lemma byte_val_range b : 0 <= byte_val b < 256.
Proof. unfold byte_val. pose proof (Byte.to_N_bounded b). lia. Qed.

Lemma byte_val_inj a b : byte_val a = byte_val b -> a = b.
Proof.
  unfold byte_val. intros H. apply N2Z.inj in H.
  pose proof (Byte.of_to_N a) as Ha. rewrite H, Byte.of_to_N in Ha. congruence.
Qed.

Lemma le_read_range l : 0 <= le_read l < 256 ^ Z.of_nat (length l).
Proof.
  induction l as [|b l IH].
  - simpl. lia.
  - cbn [le_read length]. rewrite Nat2Z.inj_succ, Z.pow_succ_r by lia.
    pose proof (byte_val_range b). lia.
Qed.

Lemma le_read_inj l l' : length l = length l' -> le_read l = le_read l' -> l = l'.
Proof.
  revert l'. induction l as [|b l IH]; intros [|b' l'] Hlen H;
    try discriminate; [reflexivity|].
  cbn [le_read] in H. injection Hlen as Hlen.
  pose proof (byte_val_range b). pose proof (byte_val_range b').
  assert (byte_val b = byte_val b' /\ le_read l = le_read l') as [Hb Hl] by lia.
  f_equal; [now apply byte_val_inj | now apply IH].
Qed.

Lemma hex_char_code n :
  0 <= n < 16 ->
  Z.of_N (N_of_ascii (hex_char n)) = if n <? 10 then 48 + n else 87 + n.
Proof.
  intros Hn. unfold hex_char.
  destruct (Z.ltb_spec n 10); rewrite N_ascii_embedding by lia; lia.
Qed.

Lemma hex_char_inj n m : 0 <= n < 16 -> 0 <= m < 16 -> hex_char n = hex_char m -> n = m.
Proof.
  intros Hn Hm H.
  pose proof (hex_char_code n Hn) as En. pose proof (hex_char_code m Hm) as Em.
  rewrite H in En. rewrite En in Em.
  destruct (Z.ltb_spec n 10), (Z.ltb_spec m 10); lia.
Qed.

Lemma hex_char_not_slash n : 0 <= n < 16 -> hex_char n <> "/"%char.
Proof.
  intros Hn H. pose proof (hex_char_code n Hn) as En. rewrite H in En.
  simpl in En. destruct (Z.ltb_spec n 10); lia.
Qed.

Lemma hex_be_inj k h h' : hex_be k h = hex_be k h' -> h mod 16 ^ Z.of_nat k = h' mod 16 ^ Z.of_nat k.
Proof.
  revert h h'. induction k as [|k IH]; intros h h' H.
  - simpl. now rewrite !Z.mod_1_r.
  - cbn [hex_be] in H. apply app_inj_tail in H as [Hrest Hlast].
    apply IH in Hrest.
    apply hex_char_inj in Hlast; try (apply Z.mod_pos_bound; lia).
    rewrite Nat2Z.inj_succ, Z.pow_succ_r by lia.
    rewrite !(Z.rem_mul_r _ 16) by lia. now rewrite Hrest, Hlast.
Qed.

Lemma hex64_inj h h' : in64 h -> in64 h' -> hex64 h = hex64 h' -> h = h'.
Proof.
  intros Hh Hh' H. unfold hex64 in H.
  apply (f_equal list_ascii_of_string) in H.
  rewrite !list_ascii_of_string_of_list_ascii in H.
  apply hex_be_inj in H. change (16 ^ Z.of_nat 16) with MASK64 in H.
  now rewrite !Z.mod_small in H.
Qed.

(** A digest starts with a hexadecimal digit. *)
Lemma hex64_head h : exists c rest, hex64 h = String c rest /\ c <> "/"%char.
Proof.
  unfold hex64.
  assert (Hall : forall k x, Forall (fun c => c <> "/"%char) (hex_be k x)).
  { induction k as [|k IH]; intros x; cbn [hex_be].
    - constructor.
    - apply Forall_app. split; [apply IH|].
      constructor; [|constructor]. apply hex_char_not_slash, Z.mod_pos_bound. lia. }
  specialize (Hall 16%nat h).
  assert (Hlen : length (hex_be 16 h) = 16%nat).
  { assert (forall k x, length (hex_be k x) = k) as L.
    { induction k as [|k IH]; intros x; cbn [hex_be]; [reflexivity|].
      rewrite length_app, IH. simpl. lia. }
    apply L. }
  destruct (hex_be 16 h) as [|c rest]; [discriminate|].
  exists c, (string_of_list_ascii rest). split; [reflexivity|].
  now inversion Hall.
Qed.

Lemma avalanche_in64 h : in64 (avalanche h).
Proof.
  unfold avalanche. cbv zeta. apply lxor_in64; [apply wrap_in64|].
  apply shiftr_in64; [lia | apply wrap_in64].
Qed.

Lemma avalanche_inj h h' : in64 h -> in64 h' -> avalanche h = avalanche h' -> h = h'.
Proof.
  intros Hh Hh' H. unfold avalanche in H. cbv zeta in H.
  apply xorshift_inj in H; [|lia|apply wrap_in64..].
  apply (mul64_inj PRIME3 16855272203555305545) in H;
    [|reflexivity|apply lxor_in64; [apply wrap_in64|apply shiftr_in64; [lia|apply wrap_in64]]..].
  apply xorshift_inj in H; [|lia|apply wrap_in64..].
  apply (mul64_inj PRIME2 839798700976720815) in H;
    [|reflexivity|apply lxor_in64; [assumption|apply shiftr_in64; [lia|assumption]]..].
  now apply xorshift_inj in H.
Qed.

Lemma round0_inj w w' : in64 w -> in64 w' -> round 0 w = round 0 w' -> w = w'.
Proof.
  intros Hw Hw' H. unfold round in H.
  apply (mul64_inj PRIME1 614540362697595703) in H;
    [|reflexivity|apply wrap_in64..].
  apply rotl_inj in H; [|apply wrap_in64..|lia].
  unfold add64 in H. rewrite !Z.add_0_l in H.
  rewrite !(wrap_small (mul64 _ _)) in H by apply wrap_in64.
  now apply (mul64_inj PRIME2 839798700976720815) in H.
Qed.

(** The digest of eight bytes, with the loops of the algorithm unrolled. *)
Lemma intdigest_8 l :
  length l = 8%nat ->
  intdigest l
  = avalanche
      (add64 (mul64 (rotl (Z.lxor (add64 (add64 0 PRIME5) 8) (round 0 (le_read l))) 27)
                PRIME1) PRIME4).
Proof.
  intros Hlen. unfold intdigest, digest_seed. rewrite Hlen.
  change (32 <=? 8)%nat with false. cbv iota.
  unfold finalize. rewrite Hlen. change (8 / 8)%nat with 1%nat.
  cbn [tail8]. unfold read64.
  rewrite (firstn_all2 l) by lia. rewrite (skipn_all2 l) by lia.
  reflexivity.
Qed.

(** On eight-byte inputs xxh64 is one-to-one. *)
Lemma hexdigest_bytes_8_inj l l' :
  length l = 8%nat -> length l' = 8%nat ->
  hexdigest_bytes l = hexdigest_bytes l' -> l = l'.
Proof.
  intros Hl Hl' H. unfold hexdigest_bytes in H.
  rewrite (intdigest_8 l Hl), (intdigest_8 l' Hl') in H.
  apply hex64_inj in H; [|apply avalanche_in64..].
  apply avalanche_inj in H; [|apply wrap_in64..].
  apply add64_inj in H; [|apply wrap_in64..].
  apply (mul64_inj PRIME1 614540362697595703) in H;
    [|reflexivity|apply wrap_in64..].
  assert (Hr : forall t : list byte, length t = 8%nat -> in64 (le_read t)).
  { intros t Ht. pose proof (le_read_range t) as R. rewrite Ht in R. exact R. }
  apply rotl_inj in H;
    [|apply lxor_in64; [apply wrap_in64|apply wrap_in64]..|lia].
  apply lxor_inj_l in H.
  apply round0_inj in H; [|apply Hr; assumption..].
  apply le_read_inj; congruence.
Qed.

End XXH64Facts.

(** ** The fingerprint without cache *)

Lemma path_join_relative dir b :
  (forall rest, b <> String "/" rest) ->
  path_join dir b
  = if String.eqb dir EmptyString || ends_with_slash dir then dir +:+ b
    else dir +:+ "/" +:+ b.
Proof.
  intros H. destruct b as [|c rest]; [reflexivity|].
  destruct c as [[] [] [] [] [] [] [] []]; try reflexivity.
  exfalso. now apply (H rest).
Qed.

Lemma path_join_digest_inj dir h h' :
  path_join dir (XXH64.hex64 h) = path_join dir (XXH64.hex64 h') ->
  XXH64.hex64 h = XXH64.hex64 h'.
Proof.
  destruct (hex64_head h) as (c & rest & E & Hc).
  destruct (hex64_head h') as (c' & rest' & E' & Hc').
  rewrite !path_join_relative by (rewrite ?E, ?E'; congruence).
  destruct (_ || _); intros H.
  - now apply string_app_inv_head in H.
  - now do 2 apply string_app_inv_head in H.
Qed.

(** The eight bytes [os.urandom(8)] hands out in [w]. *)
Lemma urandom_bytes_length n w : length (urandom_bytes n w) = n.
Proof. unfold urandom_bytes. now rewrite length_map, length_seq. Qed.

Section NoCacheFacts.
Variable dumps : Function -> list byte.
Variable getsource : Function -> Result string.
Variable from_generator : string -> Dataset.
Variable processor_result : LLM.RequestProcessor -> ProcessorCall -> Result Dataset.

#[local] Abbreviation run :=
  (LLM.__call__ dumps getsource from_generator processor_result).

(** A run hands the request processor the directory named by the
    fingerprint. *)
Lemma run_directory self dataset working_dir w :
  LLM.sources_readable getsource self ->
  exists fingerprint w1,
    LLM._hash_fingerprint dumps self
      (LLM.dataset_hash (LLM.to_dataset from_generator dataset))
      (LLM.disable_cache_flag w) w
    = (Return fingerprint, w1)
    /\ processor_calls (snd (run self dataset working_dir false w))
       = processor_calls w
         ++ [CallRun (LLM.to_dataset from_generator dataset)
               (path_join (LLM.curator_cache_dir w working_dir) fingerprint)
               (LLM._get_function_hash dumps
                  (LLM.parse_func (LLM.prompt_formatter self)))].
Proof.
  intros [(f & Hf & Hsrc) Hparse].
  unfold LLM.__call__, bind, get, lift, ret, store_metadata, call_processor, modify.
  destruct (hash_fingerprint_returns dumps self
              (LLM.dataset_hash (LLM.to_dataset from_generator dataset))
              (LLM.disable_cache_flag w) w)
    as (fingerprint & w1 & E & Hdb & Hcalls & Hnow).
  exists fingerprint, w1. split; [exact E|]. rewrite E, Hf.
  destruct (LLM._get_function_source getsource f) as [src|]; [|contradiction].
  destruct (LLM.parse_func (LLM.prompt_formatter self)) as [g|].
  - specialize (Hparse g eq_refl).
    destruct (LLM._get_function_source getsource g) as [psrc|]; [|contradiction].
    simpl. now rewrite Hcalls.
  - simpl. now rewrite Hcalls.
Qed.

(** C4.  With the cache disabled the fingerprint is the xxh64 digest of the
    eight bytes drawn from [os.urandom], whatever the job; so two runs under
    the same cache directory whose draws differ get different working
    directories, also when the jobs are the same. *)
Theorem disabled_cache_directory_fresh self self' dataset dataset' dir w w' :
  LLM.disable_cache_flag w = true ->
  LLM.disable_cache_flag w' = true ->
  LLM.sources_readable getsource self ->
  LLM.sources_readable getsource self' ->
  urandom_bytes 8 w <> urandom_bytes 8 w' ->
  (forall dataset_hash,
      LLM._hash_fingerprint dumps self dataset_hash true w
      = (Return (XXH64.hexdigest_bytes (urandom_bytes 8 w)),
         with_entropy_pos (entropy_pos w + 8) w))
  /\ exists d d' ds ds' ph ph',
      processor_calls (snd (run self dataset (Some dir) false w))
      = processor_calls w ++ [CallRun ds d ph]
      /\ processor_calls (snd (run self' dataset' (Some dir) false w'))
         = processor_calls w' ++ [CallRun ds' d' ph']
      /\ d = path_join dir (XXH64.hexdigest_bytes (urandom_bytes 8 w))
      /\ d' = path_join dir (XXH64.hexdigest_bytes (urandom_bytes 8 w'))
      /\ d <> d'.
Proof.
  intros Hflag Hflag' Hsrc Hsrc' Hseed. split; [reflexivity|].
  destruct (run_directory self dataset (Some dir) w Hsrc) as (fp & w1 & E & Hrun).
  destruct (run_directory self' dataset' (Some dir) w' Hsrc') as (fp' & w1' & E' & Hrun').
  rewrite Hflag in E. rewrite Hflag' in E'.
  injection E as <- _. injection E' as <- _.
  do 6 eexists. split; [exact Hrun|]. split; [exact Hrun'|].
  split; [reflexivity|]. split; [reflexivity|].
  intros H. apply Hseed. unfold XXH64.hexdigest_bytes in H.
  apply path_join_digest_inj in H. fold (XXH64.hexdigest_bytes (urandom_bytes 8 w)) in H.
  fold (XXH64.hexdigest_bytes (urandom_bytes 8 w')) in H.
  apply hexdigest_bytes_8_inj; auto using urandom_bytes_length.
Qed.

End NoCacheFacts.

Lemma disabled_cache_directory_fresh_witness :
  exists d d',
    d = path_join "/home/u/.cache/curator"
          (XXH64.hexdigest_bytes (urandom_bytes 8 (Sample.no_cache Sample.world)))
    /\ d' = path_join "/home/u/.cache/curator"
             (XXH64.hexdigest_bytes (urandom_bytes 8 (Sample.no_cache Sample.world_later)))
    /\ d <> d'.
Proof.
  assert (Hsrc : LLM.sources_readable Sample.getsource (Sample.new_llm false None None)).
  { split; [exists Sample.prompt_func; split; [reflexivity | exact I]|].
    intros g Hg. discriminate Hg. }
  destruct (disabled_cache_directory_fresh Sample.dumps_by_value Sample.getsource
              Sample.from_generator Sample.llm_processor_result
              (Sample.new_llm false None None) (Sample.new_llm false None None)
              (Some (IsDataset Sample.dataset)) (Some (IsDataset Sample.dataset))
              "/home/u/.cache/curator" (Sample.no_cache Sample.world)
              (Sample.no_cache Sample.world_later)
              ltac:(vm_compute; reflexivity) ltac:(vm_compute; reflexivity)
              Hsrc Hsrc ltac:(vm_compute; discriminate))
    as (_ & d & d' & ds & ds' & ph & ph' & _ & _ & Hd & Hd' & Hne).
  exists d, d'. auto.
Defined.

(** * Further properties *)

(** ** The Anthropic adapter: statuses, key suffix, provider calls *)

Section AdapterMore.
Import Anthropic.

(** X1.  [parse_api_specific_batch_object] returns for a provider batch
    exactly when its status is one of the three literals the code tests,
    'cancelling', 'in_progress' and 'ended'; any other status raises
    [ValueError] naming it.  What it returns carries the provider's id,
    timestamps, status text and payload and the request file it was given,
    and is FINISHED exactly for 'ended'. *)
Theorem parse_batch_object_accepts self b rf :
  (returned (parse_api_specific_batch_object self (AMessageBatch b) rf)
   <-> processing_status b ∈ ["cancelling"; "in_progress"; "ended"]%string)
  /\ (processing_status b ∉ ["cancelling"; "in_progress"; "ended"]%string ->
      parse_api_specific_batch_object self (AMessageBatch b) rf
      = Raise (ValueError ("Unknown batch status: " +:+ processing_status b)))
  /\ (forall g,
      parse_api_specific_batch_object self (AMessageBatch b) rf = Return g ->
      id g = mb_id b /\ request_file g = rf /\ created_at g = mb_created_at b
      /\ finished_at g = ended_at b /\ raw_batch g = b
      /\ raw_status g = processing_status b
      /\ (status g = FINISHED <-> processing_status b = "ended"%string)).
Proof.
  unfold parse_api_specific_batch_object; simpl.
  case_bool_decide as H1; simpl.
  - split; [|split].
    + split; [intros _|intros _; exact I].
      apply elem_of_cons in H1 as [->| H1]; [left|].
      apply elem_of_cons in H1 as [->| H1]; [right; left|].
      now apply elem_of_nil in H1.
    + intros Hn. exfalso. apply Hn.
      apply elem_of_cons in H1 as [->| H1]; [left|].
      apply elem_of_cons in H1 as [->| H1]; [right; left|].
      now apply elem_of_nil in H1.
    + intros g [= <-]; simpl. repeat (split; [reflexivity|]).
      split; [discriminate|]. intros E. rewrite E in H1.
      apply elem_of_cons in H1 as [H1| H1]; [discriminate|].
      apply elem_of_cons in H1 as [H1| H1]; [discriminate|].
      now apply elem_of_nil in H1.
  - case_bool_decide as H2; simpl.
    + apply list_elem_of_singleton in H2.
      split; [|split].
      * split; [intros _|intros _; exact I]. rewrite H2. do 2 right. left.
      * intros Hn. exfalso. apply Hn. rewrite H2. do 2 right. left.
      * intros g [= <-]; simpl. repeat (split; [reflexivity|]).
        split; [intros _; exact H2 | reflexivity].
    + assert (Hn : processing_status b ∉ ["cancelling"; "in_progress"; "ended"]%string).
      { intros Hin. apply elem_of_cons in Hin as [E| Hin].
        - apply H1. rewrite E. left.
        - apply elem_of_cons in Hin as [E| Hin].
          + apply H1. rewrite E. right. left.
          + now apply H2. }
      split; [|split].
      * split; [intros []|intros Hin; now apply Hn in Hin].
      * reflexivity.
      * intros g Hg. discriminate Hg.
Qed.

Lemma parse_batch_object_accepts_witness :
  parse_api_specific_batch_object (Sample.adapter "in_progress" true)
    (AMessageBatch (Sample.message_batch "expired")) None
  = Raise (ValueError "Unknown batch status: expired").
Proof.
  apply (proj1 (proj2 (parse_batch_object_accepts (Sample.adapter "in_progress" true)
                         (Sample.message_batch "expired") None))).
  vm_compute. intros H.
  apply elem_of_cons in H as [H|H]; [discriminate|].
  apply elem_of_cons in H as [H|H]; [discriminate|].
  apply elem_of_cons in H as [H|H]; [discriminate|].
  now apply elem_of_nil in H.
Defined.

Lemma substring_all s : substring 0 (String.length s) s = s.
Proof. induction s as [|c s IH]; simpl; [reflexivity|]. now rewrite IH. Qed.

Lemma substring_skip s k :
  (k <= String.length s)%nat ->
  exists p, s = p +:+ substring k (String.length s - k) s.
Proof.
  revert k. induction s as [|c s IH]; intros k Hk.
  - exists EmptyString. destruct k; reflexivity.
  - destruct k as [|k].
    + exists EmptyString. rewrite Nat.sub_0_r, substring_all. reflexivity.
    + simpl in Hk. destruct (IH k ltac:(lia)) as [p Hp].
      exists (String c p). rewrite string_app_cons.
      change (substring (S k) (String.length (String c s) - S k) (String c s))
        with (substring k (String.length s - k) s).
      now rewrite <- Hp.
Qed.

Lemma substring_length s k m :
  (k + m <= String.length s)%nat -> String.length (substring k m s) = m.
Proof.
  revert k m. induction s as [|c s IH]; intros k m H; simpl in H.
  - assert (k = 0%nat) by lia. assert (m = 0%nat) by lia. subst. reflexivity.
  - destruct k as [|k]; simpl.
    + destruct m as [|m]; simpl; [reflexivity|]. rewrite IH by lia. reflexivity.
    + apply IH. lia.
Qed.

(** [s[-n:]] is the end of [s], [n] characters long when [s] has that many. *)
Lemma last_chars_suffix n s :
  (exists p, s = p +:+ last_chars n s)
  /\ String.length (last_chars n s) = Nat.min n (String.length s).
Proof.
  unfold last_chars. split.
  - replace (Nat.min n (String.length s))
      with (String.length s - (String.length s - n))%nat by lia.
    apply substring_skip. lia.
  - apply substring_length. lia.
Qed.

(** X2.  The key suffix kept in a parsed batch is the end of the client's
    API key and has at most four characters (all of the key when the key is
    shorter). *)
Theorem api_key_suffix_is_short self o rf g :
  parse_api_specific_batch_object self o rf = Return g ->
  (exists p, api_key (client self) = p +:+ api_key_suffix g)
  /\ String.length (api_key_suffix g)
     = Nat.min 4 (String.length (api_key (client self))).
Proof.
  unfold parse_api_specific_batch_object.
  destruct o as [b|b]; simpl; [|discriminate].
  destruct (bool_decide _); simpl;
    [|destruct (bool_decide _); simpl; [|discriminate]];
    intros [= <-]; simpl; apply last_chars_suffix.
Qed.

Lemma api_key_suffix_is_short_witness :
  exists g,
    parse_api_specific_batch_object (Sample.adapter "ended" true)
      (AMessageBatch (Sample.message_batch "ended")) None = Return g
    /\ api_key_suffix g = "2345"%string
    /\ String.length (api_key_suffix g) = 4%nat.
Proof.
  eexists. split; [reflexivity|]. split; [reflexivity|].
  exact (proj2 (api_key_suffix_is_short (Sample.adapter "ended" true)
                  (AMessageBatch (Sample.message_batch "ended")) None _ eq_refl)).
Defined.

(** [retrieve_batch] changes the world by its one provider call and by
    nothing else. *)
Lemma retrieve_batch_world self batch w :
  snd (retrieve_batch self batch w)
  = with_provider_calls (provider_calls w ++ [BatchesRetrieve (id batch)]) w.
Proof.
  destruct (batches_retrieve (client self) (id batch)) as [b|e] eqn:Hb.
  - unfold retrieve_batch, try_except_class, bind, call_provider, modify, lift, ret.
    rewrite Hb. cbn beta iota.
    destruct (tracked_request_file self (mb_id b)) as [rf|e]; [|reflexivity].
    cbn beta iota.
    destruct (parse_api_specific_batch_object self (AMessageBatch b) rf); reflexivity.
  - now rewrite (retrieve_batch_raised self batch e w Hb).
Qed.

Lemma retrieve_batch_calls self batch w :
  provider_calls (snd (retrieve_batch self batch w))
  = provider_calls w ++ [BatchesRetrieve (id batch)].
Proof. now rewrite retrieve_batch_world. Qed.

Lemma retrieve_batch_never_none self batch w :
  fst (retrieve_batch self batch w) <> Return None.
Proof.
  destruct (batches_retrieve (client self) (id batch)) as [b|e] eqn:Hb.
  - unfold retrieve_batch, try_except_class, bind, call_provider, modify, lift, ret.
    rewrite Hb. cbn beta iota.
    destruct (tracked_request_file self (mb_id b)) as [rf|e]; [|discriminate].
    cbn beta iota.
    destruct (parse_api_specific_batch_object self (AMessageBatch b) rf); discriminate.
  - rewrite (retrieve_batch_raised self batch e w Hb). discriminate.
Qed.

(** X3.  Whatever the provider answers, [retrieve_batch] calls the
    provider's retrieve endpoint exactly once and does nothing else to the
    world: nothing is logged or stored on any path, the warning of the
    handler included, and [None] is never returned. *)
Theorem retrieve_batch_one_call self batch w :
  provider_calls (snd (retrieve_batch self batch w))
  = provider_calls w ++ [BatchesRetrieve (id batch)]
  /\ metadata_db (snd (retrieve_batch self batch w)) = metadata_db w
  /\ processor_calls (snd (retrieve_batch self batch w)) = processor_calls w
  /\ log (snd (retrieve_batch self batch w)) = log w
  /\ fst (retrieve_batch self batch w) <> Return None.
Proof.
  rewrite retrieve_batch_world. repeat split. apply retrieve_batch_never_none.
Qed.

(** X5.  When the provider finds a batch that the tracker does not hold,
    [retrieve_batch] raises [KeyError] with the batch id. *)
Theorem retrieve_batch_untracked self batch b w :
  batches_retrieve (client self) (id batch) = Return b ->
  submitted_batches (tracker self) !! mb_id b = None ->
  retrieve_batch self batch w
  = (Raise (KeyError (mb_id b)),
     with_provider_calls (provider_calls w ++ [BatchesRetrieve (id batch)]) w).
Proof.
  intros Hb Ht.
  unfold retrieve_batch, try_except_class, bind, call_provider, modify, lift, ret.
  rewrite Hb. cbn beta iota. unfold tracked_request_file. now rewrite Ht.
Qed.

Lemma retrieve_batch_untracked_witness :
  fst (retrieve_batch
         (Shape.adapter_over (fun _ => Return (Sample.message_batch "ended")) Shape.no_batches)
         Sample.tracked_batch Sample.world)
  = Raise (KeyError "msgbatch_01").
Proof.
  rewrite (retrieve_batch_untracked
             (Shape.adapter_over (fun _ => Return (Sample.message_batch "ended")) Shape.no_batches)
             Sample.tracked_batch (Sample.message_batch "ended") Sample.world
             eq_refl ltac:(vm_compute; reflexivity)).
  reflexivity.
Defined.

(** X6.  [cancel_batch] on a batch the tracker does not hold raises
    [KeyError] before anything else happens: no provider call, no log. *)
Theorem cancel_batch_untracked self batch w :
  submitted_batches (tracker self) !! id batch = None ->
  cancel_batch self batch w = (Raise (KeyError (id batch)), w).
Proof.
  intros Ht. unfold cancel_batch, bind, lift, tracked_request_file. now rewrite Ht.
Qed.

Lemma cancel_batch_untracked_witness :
  cancel_batch (Shape.adapter_over (fun _ => Return (Sample.message_batch "ended")) Shape.no_batches)
    Sample.tracked_batch Sample.world
  = (Raise (KeyError "msgbatch_01"), Sample.world).
Proof.
  exact (cancel_batch_untracked
           (Shape.adapter_over (fun _ => Return (Sample.message_batch "ended")) Shape.no_batches)
           Sample.tracked_batch Sample.world ltac:(vm_compute; reflexivity)).
Defined.

(** X7.  When the provider's retrieve call raises for a tracked batch,
    not-found included, [cancel_batch] ends in the [TypeError] of the
    [except] clause of [retrieve_batch]: the cancel endpoint is not called
    and nothing is logged. *)
Theorem cancel_batch_not_found self batch tracked e w :
  submitted_batches (tracker self) !! id batch = Some tracked ->
  batches_retrieve (client self) (id batch) = Raise e ->
  cancel_batch self batch w
  = (Raise (TypeError "catching classes that do not inherit from BaseException is not allowed"),
     with_provider_calls (provider_calls w ++ [BatchesRetrieve (id batch)]) w).
Proof.
  intros Ht Hb.
  unfold cancel_batch, bind, lift, tracked_request_file. rewrite Ht.
  now rewrite (retrieve_batch_raised self batch e w Hb).
Qed.

Lemma cancel_batch_not_found_witness :
  fst (cancel_batch (Sample.adapter "in_progress" true) Sample.foreign_batch Sample.world)
  = Raise (TypeError "catching classes that do not inherit from BaseException is not allowed")
  /\ provider_calls
       (snd (cancel_batch (Sample.adapter "in_progress" true) Sample.foreign_batch
               Sample.world))
     = [BatchesRetrieve "msgbatch_99"].
Proof.
  rewrite (cancel_batch_not_found (Sample.adapter "in_progress" true)
             Sample.foreign_batch Sample.foreign_batch
             (NotFoundError "Error code: 404") Sample.world eq_refl eq_refl).
  split; reflexivity.
Defined.

(** X8.  [cancel_batch] calls the cancel endpoint at most once, and only
    after one call of the retrieve endpoint; it makes no other provider
    call. *)
Theorem cancel_batch_calls self batch w :
  let calls := provider_calls (snd (cancel_batch self batch w)) in
  calls = provider_calls w
  \/ calls = provider_calls w ++ [BatchesRetrieve (id batch)]
  \/ calls = provider_calls w ++ [BatchesRetrieve (id batch); BatchesCancel (id batch)].
Proof.
  cbv zeta. unfold cancel_batch, bind, lift, try_except.
  destruct (tracked_request_file self (id batch)) as [rf|e]; [|now left].
  pose proof (retrieve_batch_calls self batch w) as Hcalls.
  destruct (retrieve_batch self batch w) as [[[bo|]|e] w1]; simpl in *;
    try (right; left; exact Hcalls).
  destruct (status_eq_str (status bo) "ended"); simpl.
  - unfold logger, modify; simpl. right; left; exact Hcalls.
  - unfold call_provider, modify, logger, modify; simpl.
    right; right.
    destruct (batches_cancel (client self) (id batch)); simpl;
      rewrite Hcalls, <- app_assoc; reflexivity.
Qed.

End AdapterMore.

(** ** The Anthropic adapter: requests and results *)

Section RequestsAndResults.
Import Anthropic.
Variable handle_response_model : option ResponseFormat -> Val -> gmap string Val.
Variable get_max_tokens : string -> Z.
Variable completion_cost : string -> string -> Json -> Result Q.
Variable validate : ResponseFormat -> Json -> Result Json.

#[local] Abbreviation build :=
  (create_api_specific_request_batch handle_response_model get_max_tokens).
#[local] Abbreviation parse_response :=
  (parse_api_specific_response completion_cost validate).

(** X9.  In the parameters of a provider request a generation parameter of
    the request wins over what [handle_response_model] returns, which wins
    over the request's model and the model's token limit. *)
Theorem request_params_precedence self r k :
  params (build self r) !! k
  = match gr_generation_params r !! k with
    | Some v => Some v
    | None =>
        match handle_response_model (LLM.response_format (prompt_formatter self))
                (messages r) !! k with
        | Some v => Some v
        | None =>
            if decide (k = "model"%string) then Some (PyStr (model r))
            else if decide (k = "max_tokens"%string)
                 then Some (PyInt (get_max_tokens (config_model (config self))))
                 else None
        end
    end.
Proof.
  unfold create_api_specific_request_batch; simpl.
  rewrite lookup_union.
  destruct (gr_generation_params r !! k) as [v|]; simpl.
  { now destruct (_ !! k). }
  rewrite lookup_union.
  destruct (handle_response_model _ _ !! k) as [v|]; simpl.
  { now destruct (_ !! k). }
  destruct (decide (k = "model"%string)) as [->|Hm].
  - now rewrite lookup_insert_eq.
  - rewrite lookup_insert_ne by congruence.
    destruct (decide (k = "max_tokens"%string)) as [->|Ht].
    + now rewrite lookup_singleton_eq.
    + now rewrite lookup_singleton_ne by congruence.
Qed.

(** X10.  Two provider requests have the same [custom_id] exactly when they
    are built from requests with the same row index, whatever the adapters,
    models, messages and generation parameters. *)
Theorem custom_id_identifies_row self self' r r' :
  custom_id (create_api_specific_request_batch handle_response_model
               get_max_tokens self r)
  = custom_id (create_api_specific_request_batch handle_response_model
                 get_max_tokens self' r')
  <-> original_row_idx r = original_row_idx r'.
Proof.
  unfold create_api_specific_request_batch; simpl. split.
  - apply str_int_inj.
  - now intros ->.
Qed.

(** X11.  A raw result whose type is not 'succeeded' and that carries an
    'error' entry and a 'custom_id' parses into a response with no message,
    the text of the error as its one error, no token usage and no cost, the
    timestamps of the batch, and one warning in the log. *)
Theorem parse_response_failed_result self raw result rtype error cid req batch w :
  getitem raw "result" = Return result ->
  getitem result "type" = Return rtype ->
  json_ne_str rtype "succeeded" = true ->
  getitem result "error" = Return error ->
  getitem raw "custom_id" = Return cid ->
  exists msg,
    parse_response self raw req batch w
    = (Return {| response_message := None;
                 response_errors := Some [json_str error];
                 raw_response := raw;
                 raw_request := None;
                 generic_request := req;
                 gresp_created_at := created_at batch;
                 gresp_finished_at := finished_at batch;
                 token_usage := None;
                 response_cost := None |},
       with_log (fun l => l ++ [(WARNING, msg)]) w).
Proof.
  intros Hres Htype Hne Herr Hcid.
  unfold parse_api_specific_response, bind, lift, logger, modify, ret.
  rewrite Hres, Htype, Hne, Herr, Hcid. eexists. reflexivity.
Qed.

(** X12.  A succeeded raw result with a text block, a stop reason and a
    stop sequence parses without logging: the token usage takes the input and
    output tokens of the usage block, zero for those that are missing, and
    their sum; the cost is half of what [completion_cost] gives; message and
    errors are those of [parse_response_message] on the text. *)
Theorem parse_response_succeeded_result self raw result body content block text
    stop_reason stop_sequence usage tokens_in tokens_out cost req batch w :
  getitem raw "result" = Return result ->
  getitem result "type" = Return (JStr "succeeded") ->
  getitem result "message" = Return body ->
  getitem body "content" = Return content ->
  getitem0 content = Return block ->
  getitem block "text" = Return text ->
  getitem body "stop_reason" = Return stop_reason ->
  getitem body "stop_sequence" = Return stop_sequence ->
  dict_get body "usage" (JDict []) = Return (JDict usage) ->
  default (JInt 0) (assoc "input_tokens" usage) = JInt tokens_in ->
  default (JInt 0) (assoc "output_tokens" usage) = JInt tokens_out ->
  completion_cost (config_model (config self)) (repr (messages req)) text
  = Return cost ->
  parse_response self raw req batch w
  = (Return {| response_message :=
                 fst (parse_response_message validate (prompt_formatter self) text);
               response_errors :=
                 snd (parse_response_message validate (prompt_formatter self) text);
               raw_response := raw;
               raw_request := None;
               generic_request := req;
               gresp_created_at := created_at batch;
               gresp_finished_at := finished_at batch;
               token_usage :=
                 Some {| prompt_tokens := tokens_in;
                         completion_tokens := tokens_out;
                         total_tokens := tokens_in + tokens_out |};
               response_cost := Some (Qmult cost (1 # 2)) |},
     w).
Proof.
  intros Hres Htype Hbody Hcontent Hblock Htext Hsr Hss Husage Hin Hout Hcost.
  unfold parse_api_specific_response, bind, lift, ret.
  rewrite Hres, Htype. simpl json_ne_str. cbv iota.
  rewrite Hbody, Hcontent, Hblock, Htext, Hsr, Hss, Husage.
  unfold dict_get. simpl rbind. rewrite Hin, Hout. simpl.
  destruct (parse_response_message validate (prompt_formatter self) text) as [m e].
  now rewrite Hcost.
Qed.

(** X13.  Parsing a raw result touches nothing but the log: it makes no
    provider call and stores nothing, and it appends at most one entry, a
    warning. *)
Theorem parse_response_effects self raw req batch w :
  let w' :=
    snd (parse_api_specific_response completion_cost validate self raw req batch w) in
  provider_calls w' = provider_calls w
  /\ processor_calls w' = processor_calls w
  /\ metadata_db w' = metadata_db w
  /\ entropy_pos w' = entropy_pos w
  /\ (log w' = log w \/ exists msg, log w' = log w ++ [(WARNING, msg)]).
Proof.
  cbv zeta.
  unfold parse_api_specific_response, bind, lift, ret, logger, modify.
  repeat match goal with
  | |- context [match ?x with Return _ => _ | Raise _ => _ end] =>
      destruct x; simpl
  | |- context [if ?x then _ else _] => destruct x; simpl
  | |- context [let '(_, _) := ?x in _] => destruct x; simpl
  end;
  repeat (split; [reflexivity|]);
  first [ left; reflexivity | right; eexists; reflexivity ].
Qed.

End RequestsAndResults.

Lemma parse_response_failed_result_witness :
  fst (Anthropic.parse_api_specific_response Shape.completion_cost Shape.validate
         (Sample.adapter "ended" true) Shape.errored_result (Sample.request 1)
         Sample.tracked_batch Sample.world)
  = Return {| Anthropic.response_message := None;
              Anthropic.response_errors := Some ["overloaded_error"%string];
              Anthropic.raw_response := Shape.errored_result;
              Anthropic.raw_request := None;
              Anthropic.generic_request := Sample.request 1;
              Anthropic.gresp_created_at := "2024-12-24T10:00:00+00:00";
              Anthropic.gresp_finished_at := None;
              Anthropic.token_usage := None;
              Anthropic.response_cost := None |}.
Proof.
  destruct (parse_response_failed_result Shape.completion_cost Shape.validate
              (Sample.adapter "ended" true) Shape.errored_result
              (Anthropic.JDict [ ("type"%string, Anthropic.JStr "errored");
                                 ("error"%string, Anthropic.JStr "overloaded_error") ])
              (Anthropic.JStr "errored") (Anthropic.JStr "overloaded_error")
              (Anthropic.JStr "1")
              (Sample.request 1) Sample.tracked_batch Sample.world
              eq_refl eq_refl eq_refl eq_refl eq_refl) as [msg ->].
  reflexivity.
Defined.

Lemma parse_response_succeeded_result_witness :
  exists r,
    Anthropic.parse_api_specific_response Shape.completion_cost Shape.validate
      (Sample.adapter "ended" true) Shape.succeeded_result (Sample.request 2)
      Sample.tracked_batch Sample.world
    = (Return r, Sample.world)
    /\ Anthropic.token_usage r
       = Some {| Anthropic.prompt_tokens := 12; Anthropic.completion_tokens := 3;
                 Anthropic.total_tokens := 15 |}
    /\ Anthropic.response_message r = Some (Anthropic.JStr "hi")
    /\ Anthropic.response_errors r = None.
Proof.
  eexists. split.
  - exact (parse_response_succeeded_result Shape.completion_cost Shape.validate
             (Sample.adapter "ended" true) Shape.succeeded_result
             (Anthropic.JDict [ ("type"%string, Anthropic.JStr "succeeded");
                                ("message"%string, Shape.succeeded_body) ])
             Shape.succeeded_body
             (Anthropic.JList
                [Anthropic.JDict [("text"%string, Anthropic.JStr "hi")]])
             (Anthropic.JDict [("text"%string, Anthropic.JStr "hi")])
             (Anthropic.JStr "hi")
             (Anthropic.JStr "end_turn") Anthropic.JNull
             [ ("input_tokens"%string, Anthropic.JInt 12);
               ("output_tokens"%string, Anthropic.JInt 3) ]
             12 3 (3 # 1000)%Q (Sample.request 2) Sample.tracked_batch Sample.world
             eq_refl eq_refl eq_refl eq_refl eq_refl eq_refl eq_refl eq_refl
             eq_refl eq_refl eq_refl eq_refl).
  - simpl. repeat split; reflexivity.
Defined.

(** ** Submitting and downloading *)

Section Submission.
Import Anthropic Batches.

(** X14.  [submit_batch] creates the batch at the provider before it reads
    the request file from the metadata: when the metadata has no
    'request_file' the call ends in [KeyError] although the provider has
    accepted the batch, and no [GenericBatch] is returned for it. *)
Theorem submit_batch_without_request_file self api requests metadata b calls :
  batches_create api requests = Return b ->
  metadata !! "request_file"%string = None ->
  submit_batch self api requests metadata calls
  = (Raise (KeyError "request_file"), calls ++ [BatchesCreate requests]).
Proof.
  intros Hb Hm.
  unfold submit_batch, bind, call, modify, lift, metadata_request_file.
  now rewrite Hb, Hm.
Qed.

Lemma submit_batch_without_request_file_witness :
  submit_batch (Sample.adapter "in_progress" true) Shape.api [] Shape.no_metadata []
  = (Raise (KeyError "request_file"), [BatchesCreate []]).
Proof.
  exact (submit_batch_without_request_file (Sample.adapter "in_progress" true)
           Shape.api [] Shape.no_metadata (Sample.message_batch "in_progress") []
           eq_refl ltac:(vm_compute; reflexivity)).
Defined.

(** X15.  When the provider accepts the batch as in progress and the
    metadata names the request file, [submit_batch] makes one create call
    and returns a SUBMITTED batch with the provider's id and that request
    file. *)
Theorem submit_batch_submitted self api requests metadata b file calls :
  batches_create api requests = Return b ->
  processing_status b = "in_progress"%string ->
  metadata !! "request_file"%string = Some file ->
  exists g,
    submit_batch self api requests metadata calls
    = (Return g, calls ++ [BatchesCreate requests])
    /\ status g = SUBMITTED /\ id g = mb_id b /\ request_file g = Some file
    /\ raw_batch g = b.
Proof.
  intros Hb Hs Hm.
  unfold submit_batch, bind, call, modify, lift, metadata_request_file.
  rewrite Hb, Hm. simpl. rewrite (parse_batch_in_progress _ _ _ Hs).
  eexists. split; [reflexivity|]. simpl. auto.
Qed.

Lemma submit_batch_submitted_witness :
  exists g,
    fst (submit_batch (Sample.adapter "in_progress" true) Shape.api []
           Shape.metadata [])
    = Return g
    /\ id g = "msgbatch_01"%string
    /\ request_file g = Some "requests_0.jsonl"%string.
Proof.
  destruct (submit_batch_submitted (Sample.adapter "in_progress" true) Shape.api []
              Shape.metadata
              (Sample.message_batch "in_progress") "requests_0.jsonl" []
              eq_refl eq_refl ltac:(vm_compute; reflexivity))
    as (g & Hg & _ & Hid & Hf & _).
  exists g. rewrite Hg. auto.
Defined.

Lemma collect_app acc stream : collect acc stream = acc ++ stream.
Proof.
  revert acc. induction stream as [|r rest IH]; intros acc; simpl.
  - now rewrite app_nil_r.
  - rewrite IH, <- app_assoc. reflexivity.
Qed.

(** X16.  [download_batch] makes one results call for the batch id and
    returns every result of the stream, in the order of the stream; an error
    of the provider is raised as it is.  It never returns [None]. *)
Theorem download_batch_all_results self api batch calls :
  download_batch self api batch calls
  = (batches_results api (id batch), calls ++ [BatchesResults (id batch)]).
Proof.
  unfold download_batch, bind, call, modify, lift, ret.
  destruct (batches_results api (id batch)) as [stream|e]; [|reflexivity].
  now rewrite collect_app.
Qed.

End Submission.

(** ** [LLM]: generation parameters and the shape of the fingerprint *)

(** X17.  [_remove_none_values] keeps exactly the entries whose value is not
    [None]; applying it twice is applying it once; and it returns its
    argument unchanged exactly when no value is [None]. *)
Theorem remove_none_values_keeps (d : gmap string Val) :
  (forall k v, LLM._remove_none_values d !! k = Some v <-> d !! k = Some v /\ v <> PyNone)
  /\ LLM._remove_none_values (LLM._remove_none_values d) = LLM._remove_none_values d
  /\ (LLM._remove_none_values d = d <-> forall k, d !! k <> Some PyNone).
Proof.
  split; [intros k v; apply remove_none_lookup|]. split.
  - apply map_eq. intros k. apply option_eq. intros v.
    rewrite !remove_none_lookup. tauto.
  - split.
    + intros E k Hk. rewrite <- E in Hk. apply remove_none_lookup in Hk. tauto.
    + intros Hn. apply map_eq. intros k. apply option_eq. intros v.
      rewrite remove_none_lookup. split; [tauto|].
      intros Hk. split; [exact Hk|]. intros ->. now apply (Hn k).
Qed.

Lemma join_inj_component sep l1 x y l2 :
  join sep (l1 ++ x :: l2) = join sep (l1 ++ y :: l2) -> x = y.
Proof.
  rewrite !join_split. intros H.
  apply string_app_inv_head in H. now apply string_app_inv_tail in H.
Qed.

Lemma llm_fingerprint_str_components (dumps : Function -> list byte) self dataset_hash :
  LLM.fingerprint_str dumps self dataset_hash
  = if bool_decide (LLM.generation_params (LLM.prompt_formatter self) = ∅)
    then join "_" (Shape.llm_components dumps self dataset_hash)
    else join "_" (Shape.llm_components dumps self dataset_hash) +:+ "_"
         +:+ str_sorted_items (LLM.generation_params (LLM.prompt_formatter self)).
Proof. reflexivity. Qed.

(** X19.  With the generation parameters unchanged, two runs whose hashed
    components (dataset hash, prompt-function hash, model name, schema text,
    batch mode, backend) differ in exactly one place have different
    fingerprint strings. *)
Theorem fingerprint_str_one_component (dumps : Function -> list byte)
    self self' dataset_hash dataset_hash' l1 x y l2 :
  Shape.llm_components dumps self dataset_hash = l1 ++ x :: l2 ->
  Shape.llm_components dumps self' dataset_hash' = l1 ++ y :: l2 ->
  LLM.generation_params (LLM.prompt_formatter self)
  = LLM.generation_params (LLM.prompt_formatter self') ->
  x <> y ->
  LLM.fingerprint_str dumps self dataset_hash
  <> LLM.fingerprint_str dumps self' dataset_hash'.
Proof.
  intros Hc Hc' Hg Hxy. rewrite !llm_fingerprint_str_components, Hc, Hc', <- Hg.
  destruct (bool_decide _); intros H; apply Hxy.
  - now apply join_inj_component in H.
  - apply string_app_inv_tail in H. now apply join_inj_component in H.
Qed.

Lemma fingerprint_str_one_component_witness :
  LLM.fingerprint_str Sample.dumps_by_value (Sample.new_llm false None None)
    "a3f1c2d4e5b60718"
  <> LLM.fingerprint_str Sample.dumps_by_value (Sample.new_llm true None None)
       "a3f1c2d4e5b60718".
Proof.
  apply (fingerprint_str_one_component Sample.dumps_by_value
           (Sample.new_llm false None None) (Sample.new_llm true None None)
           "a3f1c2d4e5b60718" "a3f1c2d4e5b60718"
           [ "a3f1c2d4e5b60718"%string; "2ff34fafd2e0eda1"%string;
             "gpt-4o-mini"%string; "text"%string ]
           "False" "True" ["openai"%string]).
  - vm_compute. reflexivity.
  - vm_compute. reflexivity.
  - reflexivity.
  - discriminate.
Defined.

(** ** [LLM.__call__]: what a run stores and what it hands on *)

Section RunMore.
Variable dumps : Function -> list byte.
Variable getsource : Function -> Result string.
Variable from_generator : string -> Dataset.
Variable processor_result : LLM.RequestProcessor -> ProcessorCall -> Result Dataset.

#[local] Abbreviation run :=
  (LLM.__call__ dumps getsource from_generator processor_result).

(** The metadata record of a run of [self] with [fingerprint], given the
    sources of its two functions. *)
#[local] Abbreviation record_of self dataset w fingerprint src psrc :=
  {| md_timestamp := now_isoformat w;
     md_dataset_hash := LLM.dataset_hash (LLM.to_dataset from_generator dataset);
     md_prompt_func := src;
     md_parse_func := psrc;
     md_model_name := LLM.model_name (LLM.prompt_formatter self);
     md_response_format := LLM.response_format_str (LLM.prompt_formatter self);
     md_run_hash := fingerprint;
     md_batch_mode := LLM.batch_mode self |}.

#[local] Abbreviation call_of self dataset w working_dir fingerprint :=
  (CallRun (LLM.to_dataset from_generator dataset)
     (path_join (LLM.curator_cache_dir w working_dir) fingerprint)
     (LLM._get_function_hash dumps (LLM.parse_func (LLM.prompt_formatter self)))).

Lemma run_outcome self dataset working_dir w f src psrc :
  LLM.prompt_func (LLM.prompt_formatter self) = Some f ->
  LLM._get_function_source getsource f = Return src ->
  match LLM.parse_func (LLM.prompt_formatter self) with
  | Some g => LLM._get_function_source getsource g = Return psrc
  | None => psrc = EmptyString
  end ->
  exists fingerprint w1,
    LLM._hash_fingerprint dumps self
      (LLM.dataset_hash (LLM.to_dataset from_generator dataset))
      (LLM.disable_cache_flag w) w
    = (Return fingerprint, w1)
    /\ fst (run self dataset working_dir false w)
       = processor_result (LLM._request_processor self)
           (call_of self dataset w working_dir fingerprint)
    /\ metadata_db (snd (run self dataset working_dir false w))
       = metadata_db w
         ++ [(path_join (LLM.curator_cache_dir w working_dir) "metadata.db",
              record_of self dataset w fingerprint src psrc)]
    /\ processor_calls (snd (run self dataset working_dir false w))
       = processor_calls w ++ [call_of self dataset w working_dir fingerprint].
Proof.
  intros Hf Hsrc Hpsrc.
  unfold LLM.__call__, bind, get, lift, ret, store_metadata, call_processor, modify.
  destruct (hash_fingerprint_returns dumps self
              (LLM.dataset_hash (LLM.to_dataset from_generator dataset))
              (LLM.disable_cache_flag w) w)
    as (fingerprint & w1 & E & Hdb & Hcalls & Hnow).
  exists fingerprint, w1. split; [exact E|]. rewrite E, Hf, Hsrc.
  destruct (LLM.parse_func (LLM.prompt_formatter self)) as [g|];
    [rewrite Hpsrc | rewrite Hpsrc]; simpl; rewrite ?Hdb, ?Hcalls; auto.
Qed.

(** X20.  A run (without [batch_cancel]) whose function sources can be read
    stores one metadata record, under [metadata.db] of the cache directory,
    and makes one call to the request processor; the record's [run_hash] is
    the fingerprint that names the working directory handed to the
    processor, its other fields are the run's (timestamp, dataset hash, the
    two sources, model name, response format, batch mode); and the run
    returns what the processor answers. *)
Theorem run_stores_what_it_runs self dataset working_dir w f src psrc :
  LLM.prompt_func (LLM.prompt_formatter self) = Some f ->
  LLM._get_function_source getsource f = Return src ->
  match LLM.parse_func (LLM.prompt_formatter self) with
  | Some g => LLM._get_function_source getsource g = Return psrc
  | None => psrc = EmptyString
  end ->
  let cache_dir := LLM.curator_cache_dir w working_dir in
  exists fingerprint,
    fst (LLM._hash_fingerprint dumps self
           (LLM.dataset_hash (LLM.to_dataset from_generator dataset))
           (LLM.disable_cache_flag w) w)
    = Return fingerprint
    /\ metadata_db (snd (run self dataset working_dir false w))
       = metadata_db w
         ++ [(path_join cache_dir "metadata.db",
              record_of self dataset w fingerprint src psrc)]
    /\ processor_calls (snd (run self dataset working_dir false w))
       = processor_calls w
         ++ [CallRun (LLM.to_dataset from_generator dataset)
               (path_join cache_dir fingerprint)
               (LLM._get_function_hash dumps
                  (LLM.parse_func (LLM.prompt_formatter self)))]
    /\ fst (run self dataset working_dir false w)
       = processor_result (LLM._request_processor self)
           (CallRun (LLM.to_dataset from_generator dataset)
              (path_join cache_dir fingerprint)
              (LLM._get_function_hash dumps
                 (LLM.parse_func (LLM.prompt_formatter self)))).
Proof.
  intros Hf Hsrc Hpsrc cache_dir.
  destruct (run_outcome self dataset working_dir w f src psrc Hf Hsrc Hpsrc)
    as (fingerprint & w1 & E & Hres & Hdb & Hcalls).
  exists fingerprint. rewrite E. auto.
Qed.

(** X21.  When [inspect.getsource] fails on the prompt function, or on the
    parse function, with anything but [OSError], the run raises that error
    before the metadata record is stored and before the request processor is
    called, with or without [batch_cancel]. *)
Theorem run_source_error_aborts self dataset working_dir batch_cancel w e :
  (forall m, e <> OSError m) ->
  (exists f, LLM.prompt_func (LLM.prompt_formatter self) = Some f
             /\ getsource f = Raise e)
  \/ (exists f g, LLM.prompt_func (LLM.prompt_formatter self) = Some f
                  /\ returned (LLM._get_function_source getsource f)
                  /\ LLM.parse_func (LLM.prompt_formatter self) = Some g
                  /\ getsource g = Raise e) ->
  fst (run self dataset working_dir batch_cancel w) = Raise e
  /\ metadata_db (snd (run self dataset working_dir batch_cancel w)) = metadata_db w
  /\ processor_calls (snd (run self dataset working_dir batch_cancel w))
     = processor_calls w.
Proof.
  intros He Hcase.
  assert (Hraise : forall f, getsource f = Raise e ->
                             LLM._get_function_source getsource f = Raise e).
  { intros f Hf. unfold LLM._get_function_source. rewrite Hf.
    destruct e; try reflexivity. now destruct (He msg). }
  unfold LLM.__call__, bind, get, lift, ret, store_metadata, call_processor, modify.
  destruct (hash_fingerprint_returns dumps self
              (LLM.dataset_hash (LLM.to_dataset from_generator dataset))
              (LLM.disable_cache_flag w) w)
    as (fingerprint & w1 & E & Hdb & Hcalls & Hnow).
  rewrite E.
  destruct Hcase as [(f & Hf & Hg) | (f & g & Hf & Hret & Hp & Hg)]; rewrite Hf.
  - rewrite (Hraise f Hg). simpl. auto.
  - destruct (LLM._get_function_source getsource f) as [src|]; [|contradiction].
    rewrite Hp, (Hraise g Hg). simpl. auto.
Qed.

(** X22.  An [OSError] of [inspect.getsource] (a function typed into an
    interactive session) does not stop the run: the source is recorded as
    the empty string, the metadata record is stored and the processor is
    called as for any run. *)
Theorem run_tolerates_missing_source self dataset working_dir w f m :
  LLM.prompt_func (LLM.prompt_formatter self) = Some f ->
  getsource f = Raise (OSError m) ->
  LLM.parse_func (LLM.prompt_formatter self) = None ->
  exists path record call,
    metadata_db (snd (run self dataset working_dir false w))
    = metadata_db w ++ [(path, record)]
    /\ md_prompt_func record = EmptyString
    /\ processor_calls (snd (run self dataset working_dir false w))
       = processor_calls w ++ [call]
    /\ fst (run self dataset working_dir false w)
       = processor_result (LLM._request_processor self) call.
Proof.
  intros Hf Hg Hp.
  assert (Hsrc : LLM._get_function_source getsource f = Return EmptyString).
  { unfold LLM._get_function_source. now rewrite Hg. }
  destruct (run_outcome self dataset working_dir w f EmptyString EmptyString Hf Hsrc)
    as (fingerprint & w1 & E & Hres & Hdb & Hcalls).
  { now rewrite Hp. }
  do 3 eexists. split; [exact Hdb|]. split; [reflexivity|]. split; [exact Hcalls|].
  exact Hres.
Qed.

(** X23.  With the cache enabled, the same job run in two states of the
    world that agree on the cache directory makes the same call to the
    request processor: the same dataset, working directory and parse-function
    hash, whatever was logged, stored or drawn before. *)
Theorem cached_run_same_directory self dataset working_dir w w' :
  LLM.sources_readable getsource self ->
  LLM.disable_cache_flag w = false ->
  LLM.disable_cache_flag w' = false ->
  LLM.curator_cache_dir w working_dir = LLM.curator_cache_dir w' working_dir ->
  exists call,
    processor_calls (snd (run self dataset working_dir false w))
    = processor_calls w ++ [call]
    /\ processor_calls (snd (run self dataset working_dir false w'))
       = processor_calls w' ++ [call].
Proof.
  intros [(f & Hf & Hsrc) Hparse] Hflag Hflag' Hdir.
  destruct (LLM._get_function_source getsource f) as [src|] eqn:Es; [|contradiction].
  assert (Hp : exists psrc,
             match LLM.parse_func (LLM.prompt_formatter self) with
             | Some g => LLM._get_function_source getsource g = Return psrc
             | None => psrc = EmptyString
             end).
  { destruct (LLM.parse_func (LLM.prompt_formatter self)) as [g|]; [|now eexists].
    specialize (Hparse g eq_refl).
    destruct (LLM._get_function_source getsource g) as [psrc|]; [|contradiction].
    now eexists. }
  destruct Hp as [psrc Hp].
  destruct (run_outcome self dataset working_dir w f src psrc Hf Es Hp)
    as (fp & w1 & E & _ & _ & Hcalls).
  destruct (run_outcome self dataset working_dir w' f src psrc Hf Es Hp)
    as (fp' & w1' & E' & _ & _ & Hcalls').
  rewrite Hflag in E. rewrite Hflag' in E'.
  unfold LLM._hash_fingerprint in E, E'. injection E as <- _. injection E' as <- _.
  eexists. split; [exact Hcalls|]. rewrite Hcalls', Hdir. reflexivity.
Qed.

End RunMore.

Lemma run_stores_what_it_runs_witness :
  exists fingerprint,
    processor_calls
      (snd (Sample.llm_run (Sample.new_llm false None None) false Sample.world))
    = [CallRun (Some Sample.dataset)
         (path_join "/home/u/.cache/curator" fingerprint) "ef46db3751d8e999"]
    /\ fst (Sample.llm_run (Sample.new_llm false None None) false Sample.world)
       = Return Sample.dataset.
Proof.
  destruct (run_stores_what_it_runs Sample.dumps_by_value Sample.getsource
              Sample.from_generator Sample.llm_processor_result
              (Sample.new_llm false None None) (Some (IsDataset Sample.dataset))
              None Sample.world Sample.prompt_func
              "lambda row: row['prompt']" EmptyString eq_refl eq_refl eq_refl)
    as (fingerprint & _ & _ & Hcalls & Hres).
  exists fingerprint. split; [exact Hcalls | exact Hres].
Defined.

Lemma run_source_error_aborts_witness :
  fst (LLM.__call__ Sample.dumps_by_value Shape.getsource_broken Sample.from_generator
         Sample.llm_processor_result (Sample.new_llm false None None)
         (Some (IsDataset Sample.dataset)) None false Sample.world)
  = Raise (TypeError "module, class, method, function, traceback, frame, or code object was expected")
  /\ metadata_db
       (snd (LLM.__call__ Sample.dumps_by_value Shape.getsource_broken
               Sample.from_generator Sample.llm_processor_result
               (Sample.new_llm false None None) (Some (IsDataset Sample.dataset))
               None false Sample.world))
     = [].
Proof.
  destruct (run_source_error_aborts Sample.dumps_by_value Shape.getsource_broken
              Sample.from_generator Sample.llm_processor_result
              (Sample.new_llm false None None) (Some (IsDataset Sample.dataset))
              None false Sample.world
              (TypeError "module, class, method, function, traceback, frame, or code object was expected")
              ltac:(discriminate)
              (or_introl (ex_intro _ Sample.prompt_func (conj eq_refl eq_refl))))
    as (Hres & Hdb & _).
  split; [exact Hres | exact Hdb].
Defined.

Lemma run_tolerates_missing_source_witness :
  exists path record,
    metadata_db
      (snd (LLM.__call__ Sample.dumps_by_value Shape.getsource_repl
              Sample.from_generator Sample.llm_processor_result
              (Sample.new_llm false None None) (Some (IsDataset Sample.dataset))
              None false Sample.world))
    = [(path, record)]
    /\ md_prompt_func record = EmptyString.
Proof.
  destruct (run_tolerates_missing_source Sample.dumps_by_value Shape.getsource_repl
              Sample.from_generator Sample.llm_processor_result
              (Sample.new_llm false None None) (Some (IsDataset Sample.dataset))
              None Sample.world Sample.prompt_func "could not get source code"
              eq_refl eq_refl eq_refl)
    as (path & record & call & Hdb & Hsrc & _).
  exists path, record. split; [exact Hdb | exact Hsrc].
Defined.

Lemma cached_run_same_directory_witness :
  exists call,
    processor_calls
      (snd (Sample.llm_run (Sample.new_llm false None None) false Sample.world))
    = [call]
    /\ processor_calls
         (snd (Sample.llm_run (Sample.new_llm false None None) false Sample.world_later))
       = [call].
Proof.
  assert (Hsrc : LLM.sources_readable Sample.getsource (Sample.new_llm false None None)).
  { split; [exists Sample.prompt_func; split; [reflexivity | exact I]|].
    intros g Hg. discriminate Hg. }
  destruct (cached_run_same_directory Sample.dumps_by_value Sample.getsource
              Sample.from_generator Sample.llm_processor_result
              (Sample.new_llm false None None) (Some (IsDataset Sample.dataset))
              None Sample.world Sample.world_later Hsrc eq_refl eq_refl eq_refl)
    as (call & H & H').
  exists call. split; [exact H | exact H'].
Defined.

(** ** [Prompter]: construction, the run, the function hash *)

Section PrompterFacts.
Variable py_sorted : list Val -> Result (list Val).
Variable dumps : Function -> list byte.
Variable getsource : Function -> Result string.
Variable check_structured_output_support : string -> bool.
Variable from_generator : string -> Dataset.
Variable processor_result :
  Prompter.RequestProcessor -> ProcessorCall -> Result Dataset.

#[local] Abbreviation init := (Prompter.__init__ check_structured_output_support).
#[local] Abbreviation function_hash := (Prompter._get_function_hash py_sorted dumps).
#[local] Abbreviation function_source := (Prompter._get_function_source getsource).



Lemma prompter_fingerprint_str_batch (p p' : Prompter.Prompter) dataset_hash h :
  Prompter.prompt_formatter p' = Prompter.prompt_formatter p ->
  Prompter.backend p' = Prompter.backend p ->
  Prompter.batch_mode p' = negb (Prompter.batch_mode p) ->
  Prompter.fingerprint_str p dataset_hash h
  <> Prompter.fingerprint_str p' dataset_hash h.
Proof.
  intros Hf Hb Hm. unfold Prompter.fingerprint_str. rewrite Hf, Hb, Hm.
  intros H.
  apply (join_inj_component "_"
           [ dataset_hash; h; Prompter.model_name (Prompter.prompt_formatter p);
             Prompter.response_format_str (Prompter.prompt_formatter p) ]
           (str_bool (Prompter.batch_mode p))
           (str_bool (negb (Prompter.batch_mode p)))
           [Prompter.backend p]) in H.
  destruct (Prompter.batch_mode p); discriminate H.
Qed.

Lemma init_litellm model_name prompt_func parse_func response_format
    batch batch_size temperature top_p presence_penalty frequency_penalty
    delete_successful_batch_files delete_failed_batch_files w :
  signature_parameters prompt_func <= 1 ->
  (forall pf, parse_func = Some pf -> signature_parameters pf = 2) ->
  exists w1,
    init model_name prompt_func parse_func response_format
      (Some "litellm"%string) batch batch_size temperature top_p
      presence_penalty frequency_penalty delete_successful_batch_files
      delete_failed_batch_files w
    = (Return
         {| Prompter.prompt_formatter :=
              Prompter.Build_PromptFormatter model_name (Some prompt_func)
                parse_func response_format;
            Prompter.batch_mode := batch;
            Prompter.backend := "litellm";
            Prompter._request_processor :=
              Prompter.LiteLLMOnlineRequestProcessor model_name temperature top_p
                presence_penalty frequency_penalty |}, w1).
Proof.
  intros H1 H2. unfold Prompter.__init__.
  unfold bind at 1. destruct (Z.ltb_spec 1 (signature_parameters prompt_func)); [lia|].
  cbn [ret]. unfold bind at 1.
  assert (E2 : match parse_func with
               | Some pf =>
                   if negb (signature_parameters pf =? 2)
                   then raise (ValueError ("parse_func must take exactly 2 arguments, got "
                                           +:+ str_int (signature_parameters pf)))
                   else ret tt
               | None => ret tt
               end w = (Return tt, w)).
  { destruct parse_func as [pf|]; [|reflexivity].
    rewrite (H2 pf eq_refl). reflexivity. }
  rewrite E2. destruct batch; cbn; eexists; reflexivity.
Qed.

(** X25.  On the LiteLLM backend [batch=True] is ignored for the request
    processor, which is the online processor with the same arguments as for
    [batch=False]; but the flag is still recorded, so the two prompters hash
    different fingerprint strings for the same dataset and prompt
    function. *)
Theorem litellm_ignores_batch model_name prompt_func parse_func response_format
    batch batch_size temperature top_p presence_penalty frequency_penalty
    delete_successful_batch_files delete_failed_batch_files w :
  signature_parameters prompt_func <= 1 ->
  (forall pf, parse_func = Some pf -> signature_parameters pf = 2) ->
  exists p p',
    fst (init model_name prompt_func parse_func response_format
           (Some "litellm"%string) batch batch_size temperature top_p
           presence_penalty frequency_penalty delete_successful_batch_files
           delete_failed_batch_files w) = Return p
    /\ fst (init model_name prompt_func parse_func response_format
              (Some "litellm"%string) (negb batch) batch_size temperature top_p
              presence_penalty frequency_penalty delete_successful_batch_files
              delete_failed_batch_files w) = Return p'
    /\ Prompter._request_processor p
       = Prompter.LiteLLMOnlineRequestProcessor model_name temperature top_p
           presence_penalty frequency_penalty
    /\ Prompter._request_processor p' = Prompter._request_processor p
    /\ Prompter.batch_mode p = batch
    /\ forall dataset_hash h,
        Prompter.fingerprint_str p dataset_hash h
        <> Prompter.fingerprint_str p' dataset_hash h.
Proof.
  intros H1 H2.
  destruct (init_litellm model_name prompt_func parse_func response_format batch
              batch_size temperature top_p presence_penalty frequency_penalty
              delete_successful_batch_files delete_failed_batch_files w H1 H2)
    as [w1 E].
  destruct (init_litellm model_name prompt_func parse_func response_format
              (negb batch) batch_size temperature top_p presence_penalty
              frequency_penalty delete_successful_batch_files
              delete_failed_batch_files w H1 H2)
    as [w1' E'].
  rewrite E, E'. do 2 eexists.
  split; [reflexivity|]. split; [reflexivity|]. split; [reflexivity|].
  split; [reflexivity|]. split; [reflexivity|].
  intros dataset_hash h. now apply prompter_fingerprint_str_batch.
Qed.

(** X26.  [Prompter.__call__] starts no run for a prompter that holds a
    prompt function, as every prompter that [__init__] returns does: it
    raises what [_get_function_hash] raises on the prompt function, before
    anything is logged, stored or handed to the request processor. *)
Theorem prompter_run_never_starts self f dataset working_dir w :
  Prompter.prompt_func (Prompter.prompt_formatter self) = Some f ->
  exists e,
    Prompter._get_function_hash py_sorted dumps (Some f) = Raise e
    /\ Prompter.__call__ py_sorted dumps getsource from_generator processor_result
         self dataset working_dir w
       = (Raise e, w).
Proof.
  intros Hf.
  destruct (prompter_function_hash_never_returns py_sorted dumps f) as [e He].
  exists e. split; [exact He|]. unfold Prompter.__call__.
  exact (completions_stops py_sorted dumps getsource from_generator processor_result
           self _ dataset working_dir w f e Hf He).
Qed.

End PrompterFacts.

Lemma litellm_ignores_batch_witness :
  exists p p',
    fst (Prompter.__init__ Sample.check_structured_output_support
           "claude-3-5-sonnet-20241022" Sample.prompt_func None None
           (Some "litellm"%string) true None PyNone PyNone PyNone PyNone true false
           Sample.world) = Return p
    /\ fst (Prompter.__init__ Sample.check_structured_output_support
              "claude-3-5-sonnet-20241022" Sample.prompt_func None None
              (Some "litellm"%string) false None PyNone PyNone PyNone PyNone true
              false Sample.world) = Return p'
    /\ Prompter._request_processor p' = Prompter._request_processor p
    /\ Prompter.fingerprint_str p "a3f1c2d4e5b60718" "ef46db3751d8e999"
       <> Prompter.fingerprint_str p' "a3f1c2d4e5b60718" "ef46db3751d8e999".
Proof.
  destruct (litellm_ignores_batch Sample.check_structured_output_support
              "claude-3-5-sonnet-20241022" Sample.prompt_func None None true None
              PyNone PyNone PyNone PyNone true false Sample.world
              ltac:(vm_compute; discriminate)
              ltac:(intros pf H; discriminate H))
    as (p & p' & E & E' & _ & Hr & _ & Hne).
  exists p, p'. split; [exact E|]. split; [exact E'|]. split; [exact Hr|].
  apply Hne.
Defined.

Lemma prompter_run_never_starts_witness :
  Prompter.__call__ Sample.sorted_in_order Sample.dumps_by_value Sample.getsource
    Sample.from_generator Sample.prompter_processor_result (Shape.prompter None)
    (Some (IsDataset Sample.dataset)) None Sample.world
  = (Raise (TypeError "'bytes' object cannot be interpreted as an integer"),
     Sample.world).
Proof.
  destruct (prompter_run_never_starts Sample.sorted_in_order Sample.dumps_by_value
              Sample.getsource Sample.from_generator Sample.prompter_processor_result
              (Shape.prompter None) Sample.prompt_func
              (Some (IsDataset Sample.dataset)) None Sample.world eq_refl)
    as (e & He & Hrun).
  rewrite Hrun. vm_compute in He. injection He as <-. reflexivity.
Defined.

(** ** The reannotation example *)

Section Reannotation.
Import Anthropic.

Lemma first_value_turns who turns rest :
  OpenHermes.first_value who
    (List.map (fun t => OpenHermes.turn (fst t) (snd t)) turns ++ rest)
  = match OpenHermes.first_turn who turns with
    | Some v => Return v
    | None => OpenHermes.first_value who rest
    end.
Proof.
  induction turns as [|[from value] turns IH]; [reflexivity|].
  cbn [List.map app fst snd OpenHermes.first_value OpenHermes.first_turn].
  change (getitem (OpenHermes.turn from value) "from") with (Return (JStr from)).
  cbn [rbind json_ne_str]. rewrite negb_involutive.
  destruct (String.eqb from who); [reflexivity | exact IH].
Qed.

(** X29.  For a row whose conversation is a list of turns, [convert_row]
    gives as instruction the value of the first 'human' turn and as original
    response the value of the first 'gpt' turn, [None] for a speaker that
    has no turn.  What follows the turns is not looked at once both speakers
    were found. *)
Theorem convert_row_first_turns row turns rest :
  getitem row "conversations"
  = Return (JList (List.map (fun t => OpenHermes.turn (fst t) (snd t)) turns ++ rest)) ->
  rest = []
  \/ (is_Some (OpenHermes.first_turn "human" turns)
      /\ is_Some (OpenHermes.first_turn "gpt" turns)) ->
  OpenHermes.convert_row row
  = Return (JDict
      [ ("instruction"%string, default JNull (OpenHermes.first_turn "human" turns));
        ("original_response"%string,
         default JNull (OpenHermes.first_turn "gpt" turns)) ]).
Proof.
  intros Hrow Hcase. unfold OpenHermes.convert_row. rewrite Hrow.
  cbn [rbind OpenHermes.iterate]. rewrite !first_value_turns.
  destruct Hcase as [-> | [[h Hh] [g Hg]]].
  - destruct (OpenHermes.first_turn "human" turns);
      destruct (OpenHermes.first_turn "gpt" turns); reflexivity.
  - rewrite Hh, Hg. reflexivity.
Qed.

(** X30.  Every row [convert_row] returns has an instruction, so on it
    [prompt_func] returns that instruction and [parse_func] returns it
    beside the new response; neither raises [KeyError]. *)
Theorem converted_row_is_usable row converted response :
  OpenHermes.convert_row row = Return converted ->
  exists instruction original,
    converted = JDict [ ("instruction"%string, instruction);
                        ("original_response"%string, original) ]
    /\ OpenHermes.prompt_func converted = Return instruction
    /\ OpenHermes.parse_func converted response
       = Return (JDict [ ("instruction"%string, instruction);
                         ("new_response"%string, response) ]).
Proof.
  unfold OpenHermes.convert_row. intros H.
  destruct (getitem row "conversations") as [c|]; [|discriminate H].
  cbn [rbind] in H.
  destruct (OpenHermes.iterate c) as [items|]; [|discriminate H].
  cbn [rbind] in H.
  destruct (OpenHermes.first_value "human" items) as [i|]; [|discriminate H].
  cbn [rbind] in H.
  destruct (OpenHermes.first_value "gpt" items) as [o|]; [|discriminate H].
  cbn [rbind] in H. injection H as <-.
  exists i, o. repeat split.
Qed.

End Reannotation.

Lemma convert_row_first_turns_witness :
  OpenHermes.convert_row Shape.hermes_row
  = Return (Anthropic.JDict
      [ ("instruction"%string, Anthropic.JStr "2+2?");
        ("original_response"%string, Anthropic.JStr "4") ]).
Proof.
  exact (convert_row_first_turns Shape.hermes_row Shape.hermes_turns [] eq_refl
           (or_introl eq_refl)).
Defined.

Lemma converted_row_is_usable_witness :
  exists instruction,
    OpenHermes.prompt_func
      (Anthropic.JDict
         [ ("instruction"%string, Anthropic.JStr "2+2?");
           ("original_response"%string, Anthropic.JStr "4") ])
    = Return instruction.
Proof.
  destruct (converted_row_is_usable Shape.hermes_row
              (Anthropic.JDict
                 [ ("instruction"%string, Anthropic.JStr "2+2?");
                   ("original_response"%string, Anthropic.JStr "4") ])
              (Anthropic.JStr "four") eq_refl)
    as (instruction & _ & _ & H & _).
  exists instruction. exact H.
Defined.
